(** * Web-scraping and content-extraction server: resilience layer

    A shallow embedding of the rate limiters, the proxy selector, the
    search-result parser, the search fallback chains, the official search
    API client and the content-extraction endpoint, followed by the
    properties established about them.

    Conventions of the embedding.
    - JavaScript numbers that hold timestamps, counts and limits are
      integers ([Z]). The delays of the adaptive limiter, which are scaled
      by fractional factors, are exact rationals ([Q]): the rounding of
      each product and sum to a double is left out, and what is stated
      about a delay is an order or an at-most bound, which rounding to
      the nearest double keeps. Where a rounded value is itself the
      result (the success rate of the statistics, the limit [parseInt]
      reads) the rounding is modelled. The one quotient that can be 0/0
      is an [option].
    - Texts are held as their UTF-8 bytes; lengths count UTF-16 code
      units as the code does, and white space is that of the language,
      not of ASCII only.
    - An asynchronous function is first given as one call that runs
      alone; the calls that share the request tracker or the API client
      and can overlap at an [await] are given again as schedules of
      their steps (module [Overlap]).
    - Every [Date.now()] read and every [Math.random()] draw is an input.
    - What the headless browser and the remote services answer is an
      input as well (an oracle value); what the code does with the answer
      is modelled.
    - A thrown [Error] is the [Throw] case of [Result], carrying the
      message. *)

From Stdlib Require Import ZArith QArith Qminmax Lia Lqa String Ascii List Bool.
From Stdlib Require Import DecimalString DecimalZ DecimalPos Sorted Qround.
From stdpp Require Import gmap strings.
Import ListNotations.

Local Open Scope string_scope.
Local Open Scope list_scope.
Local Open Scope Z_scope.

(** ** JavaScript primitives used by the sources *)

Module JS.

(** [s.includes(sub)] *)
Fixpoint includes (s sub : string) : bool :=
  if String.prefix sub s then true
  else match s with
       | EmptyString => false
       | String _ s' => includes s' sub
       end.

Definition lowerChar (c : ascii) : ascii :=
  let n := nat_of_ascii c in
  if (Nat.leb 65 n && Nat.leb n 90)%bool then ascii_of_nat (n + 32) else c.

(** Texts are held as their UTF-8 bytes; a character outside ASCII takes
    two to four bytes, none of which is an ASCII byte. *)
Definition byte (c : ascii) (n : nat) : bool := Nat.eqb (nat_of_ascii c) n.

(** the Kelvin sign U+212A and the dotted capital I U+0130: the two
    characters outside ASCII whose lower case holds an ASCII letter *)
Definition isKelvin (c1 c2 c3 : ascii) : bool :=
  (byte c1 226 && byte c2 132 && byte c3 170)%bool.
Definition isDottedI (c1 c2 : ascii) : bool := (byte c1 196 && byte c2 176)%bool.

(** [s.toLowerCase()]: the letters A-Z, the Kelvin sign (to k) and the
    dotted capital I (to i followed by the combining dot U+0307); other
    letters outside ASCII are left as they are, which no search for an
    ASCII phrase in the result can tell *)
Fixpoint toLowerCase (s : string) : string :=
  match s with
  | EmptyString => EmptyString
  | String c1 s1 =>
      match s1 with
      | String c2 s2 =>
          if isDottedI c1 c2
          then String "i" (String (ascii_of_nat 204) (String (ascii_of_nat 135)
                 (toLowerCase s2)))
          else
            match s2 with
            | String c3 s3 =>
                if isKelvin c1 c2 c3 then String "k" (toLowerCase s3)
                else String (lowerChar c1) (toLowerCase s1)
            | EmptyString => String (lowerChar c1) (toLowerCase s1)
            end
      | EmptyString => String (lowerChar c1) EmptyString
      end
  end.

(** the ASCII white space and line terminators *)
Definition isSpace (c : ascii) : bool :=
  let n := nat_of_ascii c in
  (Nat.eqb n 32 || (Nat.leb 9 n && Nat.leb n 13))%bool.

(** the no-break space U+00A0 *)
Definition isSpace2 (c1 c2 : ascii) : bool := (byte c1 194 && byte c2 160)%bool.

(** the white space and line terminators of three bytes: U+1680,
    U+2000 to U+200A, U+2028, U+2029, U+202F, U+205F, U+3000 and the
    byte order mark U+FEFF *)
Definition isSpace3 (c1 c2 c3 : ascii) : bool :=
  let n3 := nat_of_ascii c3 in
  ((byte c1 225 && byte c2 154 && byte c3 128)
   || (byte c1 226 && byte c2 128
       && ((Nat.leb 128 n3 && Nat.leb n3 138)
           || byte c3 168 || byte c3 169 || byte c3 175))
   || (byte c1 226 && byte c2 129 && byte c3 159)
   || (byte c1 227 && byte c2 128 && byte c3 128)
   || (byte c1 239 && byte c2 187 && byte c3 191))%bool.

Fixpoint trimStart (s : string) : string :=
  match s with
  | EmptyString => EmptyString
  | String c1 s1 =>
      if isSpace c1 then trimStart s1
      else
        match s1 with
        | String c2 s2 =>
            if isSpace2 c1 c2 then trimStart s2
            else
              match s2 with
              | String c3 s3 => if isSpace3 c1 c2 c3 then trimStart s3 else s
              | EmptyString => s
              end
        | EmptyString => s
        end
  end.

(** cuts the text where nothing but white space follows *)
Fixpoint trimEnd (s : string) : string :=
  match s with
  | EmptyString => EmptyString
  | String c s' =>
      match trimStart s with
      | EmptyString => EmptyString
      | _ => String c (trimEnd s')
      end
  end.

(** [s.trim()]: strips the white space and the line terminators of
    JavaScript at both ends *)
Definition trim (s : string) : string := trimEnd (trimStart s).

(** the UTF-16 code units of the character a byte starts: none for a
    continuation byte, two for the lead byte of a four-byte character *)
Definition unitsOf (c : ascii) : Z :=
  let n := nat_of_ascii c in
  if Nat.ltb n 128 then 1
  else if Nat.ltb n 192 then 0
  else if Nat.ltb n 240 then 1
  else 2.

(** [s.length] *)
Fixpoint lengthOf (s : string) : Z :=
  match s with
  | EmptyString => 0
  | String c s' => unitsOf c + lengthOf s'
  end.

(** truthiness of a string, and of a possibly undefined string *)
Definition truthy (s : string) : bool :=
  match s with EmptyString => false | _ => true end.

Definition truthyOpt (o : option string) : bool :=
  match o with Some s => truthy s | None => false end.

(** a possibly undefined string inside a template literal *)
Definition tpl (o : option string) : string :=
  match o with Some s => s | None => "undefined" end.

(** [n.toString()] for an integer *)
Definition toString (n : Z) : string := NilZero.string_of_int (Z.to_int n).

(** [a.slice(-k)]: the last [k] elements *)
Definition sliceLast {A} (k : nat) (l : list A) : list A :=
  skipn (length l - k)%nat l.

(** the double-quote character, for messages that contain one *)
Definition dq : string := String (ascii_of_nat 34) EmptyString.

End JS.

(** Outcome of a call that may throw. *)
Inductive Result (A : Type) : Type :=
| Throw (message : string)
| Return (value : A).
Arguments Throw {A} message.
Arguments Return {A} value.

(** Observable effects, in the order they happen. *)
Inductive Engine : Type := Google | DuckDuckGo | GoogleAPI.

Inductive Event : Type :=
| Sleep (ms : Q)                              (* await setTimeout / waitForTimeout *)
| Attempt (e : Engine)                        (* an engine function is entered *)
| Launch                                      (* chromium.launch *)
| Goto (url : string)                         (* page.goto *)
| Fetch (params : list (string * string)).    (* fetch of the API url *)

(** ** Process environment and the deployment configuration
    (railway-config: [isRailway], [getCurrentConfig]) *)

Record ProcessEnv : Type := {
  RAILWAY_ENVIRONMENT : option string;
  RAILWAY_PROJECT_ID : option string;
  PORT : option string;
  PROXY_URL : option string;
  PROXY_USERNAME : option string;
  PROXY_PASSWORD : option string;
  GOOGLE_API_KEY : option string;
  GOOGLE_SEARCH_ENGINE_ID : option string;
  USE_PROXY : option string;
  USE_ADAPTIVE_RATE_LIMIT : option string;
  USE_API_FALLBACK : option string
}.

Module RailwayConfig.

Record RateLimit : Type := {
  maxRequestsPerMinute : Z;
  minDelayBetweenRequests : Z;
  burstAllowance : Z
}.

Definition production : RateLimit :=
  {| maxRequestsPerMinute := 1; minDelayBetweenRequests := 60000; burstAllowance := 0 |}.

Definition development : RateLimit :=
  {| maxRequestsPerMinute := 2; minDelayBetweenRequests := 30000; burstAllowance := 1 |}.

Definition defined (o : option string) : bool :=
  match o with Some _ => true | None => false end.

Definition isRailway (env : ProcessEnv) : bool :=
  defined (RAILWAY_ENVIRONMENT env) || defined (RAILWAY_PROJECT_ID env) || defined (PORT env).

Definition getCurrentConfig (env : ProcessEnv) : RateLimit :=
  if isRailway env then production else development.

End RailwayConfig.

(** ** Result parser: the [page.evaluate] extraction of [searchGoogle] *)

Module ResultParser.

(** What the DOM answers: an element is known by what [querySelector]
    returns for each selector, a document by what [querySelectorAll]
    returns. *)
Record Node : Type := { textContent : string; href : string }.
Definition Element : Type := list (string * Node).
Definition Document : Type := list (string * list Element).

Record SearchResult : Type := {
  title : string;
  link : string;
  snippet : string;
  displayUrl : string;
  position : Z;
  source : option string
}.

Fixpoint querySelector (el : Element) (selector : string) : option Node :=
  match el with
  | [] => None
  | (s, n) :: rest => if String.eqb s selector then Some n else querySelector rest selector
  end.

Fixpoint querySelectorAll (doc : Document) (selector : string) : list Element :=
  match doc with
  | [] => []
  | (s, els) :: rest => if String.eqb s selector then els else querySelectorAll rest selector
  end.

Definition containerSelectors : list string :=
  ["#search .g"; "#rso .g"; ".g"; "[data-sokoban-container]"; ".tF2Cxc"].
Definition titleSelectors : list string := ["h3"; ".LC20lb"; ".DKV0Md"].
Definition linkSelectors : list string := ["a[href]"; "a"].
Definition snippetSelectors : list string :=
  ["[data-sn=" +:+ JS.dq +:+ "snippet" +:+ JS.dq +:+ "]"; ".VwiC3b"; ".s"; ".aCOpRe"; ".yXK7lf"].
Definition urlSelectors : list string := ["cite"; ".tjvcx"; ".UdQypb"; ".iUh30"].

(** [for (selector of containerSelectors) { resultElements = ...; if (length > 0) break }] *)
Fixpoint findContainers (doc : Document) (selectors : list string) (cur : list Element)
  : list Element :=
  match selectors with
  | [] => cur
  | s :: rest =>
      let found := querySelectorAll doc s in
      match found with
      | [] => findContainers doc rest found
      | _ => found
      end
  end.

(** [for (selector of ...) { x = element.querySelector(selector); if (x) break }] *)
Fixpoint firstMatch (el : Element) (selectors : list string) (cur : option Node)
  : option Node :=
  match selectors with
  | [] => cur
  | s :: rest =>
      match querySelector el s with
      | Some n => Some n
      | None => firstMatch el rest None
      end
  end.

Definition selfReferential (url : string) : bool := JS.includes url "google.com/search".

(** the link loop leaves the last queried element in [linkElement] when
    no selector breaks out *)
Fixpoint findLink (el : Element) (selectors : list string) (cur : option Node)
  : option Node :=
  match selectors with
  | [] => cur
  | s :: rest =>
      let linkElement := querySelector el s in
      match linkElement with
      | Some n =>
          if JS.truthy (href n) && negb (selfReferential (href n))
          then linkElement
          else findLink el rest linkElement
      | None => findLink el rest linkElement
      end
  end.

(** text of the first selector that matches, trimmed; empty when none does *)
Fixpoint firstText (el : Element) (selectors : list string) : string :=
  match selectors with
  | [] => EmptyString
  | s :: rest =>
      match querySelector el s with
      | Some n => JS.trim (textContent n)
      | None => firstText el rest
      end
  end.

(** body of the extraction loop for the container at index [i] *)
Definition extractOne (i : Z) (el : Element) : option SearchResult :=
  match firstMatch el titleSelectors None, findLink el linkSelectors None with
  | Some titleElement, Some linkElement =>
      let title := JS.trim (textContent titleElement) in
      let link := href linkElement in
      let snippet := firstText el snippetSelectors in
      let displayUrl := firstText el urlSelectors in
      if JS.truthy title && JS.truthy link && negb (selfReferential link)
      then Some {| title := title; link := link; snippet := snippet;
                   displayUrl := displayUrl; position := i + 1; source := None |}
      else None
  | _, _ => None
  end.

Fixpoint extractLoop (i : Z) (els : list Element) : list SearchResult :=
  match els with
  | [] => []
  | el :: rest =>
      match extractOne i el with
      | Some r => r :: extractLoop (i + 1) rest
      | None => extractLoop (i + 1) rest
      end
  end.

(** [for (let i = 0; i < Math.min(resultElements.length, maxResults); i++)] *)
Definition extractResults (doc : Document) (maxResults : Z) : list SearchResult :=
  let resultElements := findContainers doc containerSelectors [] in
  let bound := Z.min (Z.of_nat (length resultElements)) maxResults in
  extractLoop 0 (firstn (Z.to_nat bound) resultElements).

End ResultParser.

(** ** The request tracker and the scraping engines of the
    environment-aware scraper *)

Module Scraper.
Import ResultParser.

Record RequestTracker : Type := {
  requests : list Z;
  maxRequestsPerMinute : Z;
  minDelayBetweenRequests : Z;
  burstAllowance : Z
}.

Definition initialTracker (env : ProcessEnv) : RequestTracker :=
  let envConfig := RailwayConfig.getCurrentConfig env in
  {| requests := [];
     maxRequestsPerMinute := RailwayConfig.maxRequestsPerMinute envConfig;
     minDelayBetweenRequests := RailwayConfig.minDelayBetweenRequests envConfig;
     burstAllowance := RailwayConfig.burstAllowance envConfig |}.

Definition setRequests (rs : list Z) (t : RequestTracker) : RequestTracker :=
  {| requests := rs;
     maxRequestsPerMinute := maxRequestsPerMinute t;
     minDelayBetweenRequests := minDelayBetweenRequests t;
     burstAllowance := burstAllowance t |}.

Definition canMakeRequest (now : Z) (t : RequestTracker) : bool * RequestTracker :=
  let oneMinuteAgo := now - 60000 in
  let t' := setRequests (List.filter (fun timestamp => oneMinuteAgo <? timestamp) (requests t)) t in
  (Z.of_nat (length (requests t')) <? maxRequestsPerMinute t', t').

Definition getLastRequestTime (t : RequestTracker) : Z :=
  match requests t with
  | [] => 0
  | r :: rs => fold_left Z.max rs r
  end.

Definition addRequest (now : Z) (t : RequestTracker) : RequestTracker :=
  setRequests (requests t ++ [now]) t.

Definition getWaitTime (now : Z) (t : RequestTracker) : Z :=
  let lastRequest := getLastRequestTime t in
  if lastRequest =? 0 then 0
  else
    let timeSinceLastRequest := now - lastRequest in
    let remainingWait := minDelayBetweenRequests t - timeSinceLastRequest in
    Z.max 0 remainingWait.

Definition rateLimitMessage : string :=
  "Rate limit exceeded. Too many requests in the last minute. Please wait before making another search.".

(** What the browser session of [searchGoogle] runs into. *)
Inductive GoogleSession : Type :=
| LaunchFails (message : string)
| SessionThrows (message : string)
| ResultsPage (doc : Document).

(** The three clock reads of [searchGoogle]: in [canMakeRequest], in
    [getWaitTime], and in [addRequest] after the wait. *)
Record GoogleClock : Type := { tCheck : Z; tWait : Z; tAdd : Z }.

Definition searchGoogle (clock : GoogleClock) (session : GoogleSession) (limit : Z)
    (tracker : RequestTracker)
  : Result (list SearchResult) * RequestTracker * list Event :=
  let '(allowed, tracker1) := canMakeRequest (tCheck clock) tracker in
  if negb allowed then (Throw rateLimitMessage, tracker1, [Attempt Google])
  else
    let waitTime := getWaitTime (tWait clock) tracker1 in
    let waited := if 0 <? waitTime then [Sleep (inject_Z waitTime)] else [] in
    let tracker2 := addRequest (tAdd clock) tracker1 in
    let events := Attempt Google :: waited ++ [Launch] in
    match session with
    | LaunchFails m => (Throw ("Browser launch failed: " +:+ m), tracker2, events)
    | SessionThrows m => (Throw m, tracker2, events)
    | ResultsPage doc => (Return (extractResults doc limit), tracker2, events)
    end.

(** What the browser session of [searchDuckDuckGo] yields: an error, or
    the list its [page.evaluate] extraction returns. *)
Inductive DuckSession : Type :=
| DuckThrows (message : string)
| DuckResults (results : list SearchResult).

Definition searchDuckDuckGo (session : DuckSession)
  : Result (list SearchResult) * list Event :=
  match session with
  | DuckThrows m => (Throw ("DuckDuckGo search failed: " +:+ m), [Attempt DuckDuckGo; Launch])
  | DuckResults rs => (Return rs, [Attempt DuckDuckGo; Launch])
  end.

Definition withSource (s : string) (r : SearchResult) : SearchResult :=
  {| title := title r; link := link r; snippet := snippet r;
     displayUrl := displayUrl r; position := position r; source := Some s |}.

Definition googleIssue (message : string) : bool :=
  JS.includes message "Google is blocking" ||
  JS.includes message "sorry" ||
  JS.includes message "captcha" ||
  JS.includes message "navigation" ||
  JS.includes message "timeout".

Definition networkIssue (message : string) : bool :=
  JS.includes message "net::" || JS.includes message "ERR_".

Definition recentCount (now : Z) (tracker : RequestTracker) : Z :=
  Z.of_nat (length (List.filter (fun req => now - req <? 300000) (requests tracker))).

Definition searchWithRailwayOptimization (env : ProcessEnv) (now : Z) (clock : GoogleClock)
    (google : GoogleSession) (duck : DuckSession) (limit : Z) (tracker : RequestTracker)
  : Result (list SearchResult) * RequestTracker * list Event :=
  let isProduction := RailwayConfig.isRailway env in
  let recentFailures := recentCount now tracker in
  if isProduction && (2 <=? recentFailures) then
    match searchDuckDuckGo duck with
    | (Return rs, ev) => (Return rs, tracker, ev)
    | (Throw _, ev) =>
        let '(r, tracker', ev') := searchGoogle clock google limit tracker in
        (r, tracker', ev ++ ev')
    end
  else
    match searchGoogle clock google limit tracker with
    | (Return results, tracker', ev) =>
        (Return (map (withSource "Google") results), tracker', ev)
    | (Throw message, tracker', ev) =>
        if googleIssue message then
          let '(r, ev') := searchDuckDuckGo duck in (r, tracker', ev ++ ev')
        else if isProduction && networkIssue message then
          let '(r, ev') := searchDuckDuckGo duck in (r, tracker', ev ++ ev')
        else (Throw message, tracker', ev)
    end.

End Scraper.

(** ** Adaptive rate limiter with human-behaviour simulation *)

Module AdaptiveRateLimiter.

Definition Qltb (x y : Q) : bool := negb (Qle_bool y x).

Record FailureEntry : Type := { timestamp : Z; reason : string }.

Record HoursRange : Type := { start : Z; end_ : Z }.

Record HumanPatterns : Type := {
  workingHours : HoursRange;
  lunchBreak : HoursRange;
  weekendSlowdown : Q;
  nightSlowdown : Q
}.

Record Limiter : Type := {
  requests : list Z;
  successHistory : list Z;
  failureHistory : list FailureEntry;
  currentDelay : Q;
  minDelay : Q;
  maxDelay : Q;
  maxRequestsPerMinute : Z;
  adaptiveEnabled : bool;
  humanPatterns : HumanPatterns;
  circadianMultipliers : list (Z * Q)
}.

(** the constructor *)
Definition new : Limiter :=
  {| requests := [];
     successHistory := [];
     failureHistory := [];
     currentDelay := 2000;
     minDelay := 2000;
     maxDelay := 60000;
     maxRequestsPerMinute := 3;
     adaptiveEnabled := true;
     humanPatterns :=
       {| workingHours := {| start := 9; end_ := 17 |};
          lunchBreak := {| start := 12; end_ := 13 |};
          weekendSlowdown := 7 # 10;
          nightSlowdown := 5 # 10 |};
     circadianMultipliers :=
       [(0, 3 # 10); (3, 2 # 10); (6, 5 # 10); (9, 1%Q); (12, 8 # 10);
        (15, 1%Q); (18, 9 # 10); (21, 6 # 10)] |}.

Definition setRequests (rs : list Z) (s : Limiter) : Limiter :=
  {| requests := rs; successHistory := successHistory s;
     failureHistory := failureHistory s; currentDelay := currentDelay s;
     minDelay := minDelay s; maxDelay := maxDelay s;
     maxRequestsPerMinute := maxRequestsPerMinute s;
     adaptiveEnabled := adaptiveEnabled s; humanPatterns := humanPatterns s;
     circadianMultipliers := circadianMultipliers s |}.

Definition setCurrentDelay (d : Q) (s : Limiter) : Limiter :=
  {| requests := requests s; successHistory := successHistory s;
     failureHistory := failureHistory s; currentDelay := d;
     minDelay := minDelay s; maxDelay := maxDelay s;
     maxRequestsPerMinute := maxRequestsPerMinute s;
     adaptiveEnabled := adaptiveEnabled s; humanPatterns := humanPatterns s;
     circadianMultipliers := circadianMultipliers s |}.

Definition setSuccessHistory (h : list Z) (s : Limiter) : Limiter :=
  {| requests := requests s; successHistory := h;
     failureHistory := failureHistory s; currentDelay := currentDelay s;
     minDelay := minDelay s; maxDelay := maxDelay s;
     maxRequestsPerMinute := maxRequestsPerMinute s;
     adaptiveEnabled := adaptiveEnabled s; humanPatterns := humanPatterns s;
     circadianMultipliers := circadianMultipliers s |}.

Definition setFailureHistory (h : list FailureEntry) (s : Limiter) : Limiter :=
  {| requests := requests s; successHistory := successHistory s;
     failureHistory := h; currentDelay := currentDelay s;
     minDelay := minDelay s; maxDelay := maxDelay s;
     maxRequestsPerMinute := maxRequestsPerMinute s;
     adaptiveEnabled := adaptiveEnabled s; humanPatterns := humanPatterns s;
     circadianMultipliers := circadianMultipliers s |}.

Definition canMakeRequest (now : Z) (s : Limiter) : bool * Limiter :=
  let oneMinuteAgo := now - 60000 in
  let s' := setRequests (List.filter (fun timestamp => oneMinuteAgo <? timestamp) (requests s)) s in
  (Z.of_nat (length (requests s')) <? maxRequestsPerMinute s', s').

(** The source of [Math.random()]: draw number [pos] is [gen pos]. *)
Record RNG : Type := { gen : nat -> Q; pos : nat }.

Definition random (g : RNG) : Q * RNG :=
  (gen g (pos g), {| gen := gen g; pos := S (pos g) |}).

Fixpoint lookupMultiplier (table : list (Z * Q)) (key : Z) : option Q :=
  match table with
  | [] => None
  | (k, v) :: rest => if k =? key then Some v else lookupMultiplier rest key
  end.

(** [this.circadianMultipliers[circadianHour] || 1.0] *)
Definition circadianMultiplierAt (s : Limiter) (circadianHour : Z) : Q :=
  match lookupMultiplier (circadianMultipliers s) circadianHour with
  | Some v => if Qeq_bool v 0 then 1 else v
  | None => 1
  end.

Definition clamp (s : Limiter) (delay : Q) : Q :=
  Qmax (minDelay s) (Qmin (maxDelay s) delay).

(** [hour] and [dayOfWeek] are [getHours()] and [getDay()] of [new Date()] *)
Definition calculateHumanDelay (hour dayOfWeek : Z) (g : RNG) (s : Limiter) : Q * RNG :=
  let isWeekend := (dayOfWeek =? 0) || (dayOfWeek =? 6) in
  let circadianHour := (hour / 3) * 3 in
  let circadianMultiplier := circadianMultiplierAt s circadianHour in
  let delay := (currentDelay s * circadianMultiplier)%Q in
  let delay := if isWeekend then (delay * (1 / weekendSlowdown (humanPatterns s)))%Q else delay in
  let isWorkingHours :=
    (start (workingHours (humanPatterns s)) <=? hour) &&
    (hour <? end_ (workingHours (humanPatterns s))) in
  let isLunchBreak :=
    (start (lunchBreak (humanPatterns s)) <=? hour) &&
    (hour <? end_ (lunchBreak (humanPatterns s))) in
  let delay := if negb isWorkingHours && negb isWeekend then (delay * (15 # 10))%Q else delay in
  let delay := if isLunchBreak then (delay * 2)%Q else delay in
  let variation := (3 # 10)%Q in
  let '(r, g1) := random g in
  let randomFactor := (1 + (r - (5 # 10)) * 2 * variation)%Q in
  let delay := (delay * randomFactor)%Q in
  (clamp s delay, g1).

(** one optional pause: drawn with probability [chance], of length
    [random * span + base] *)
Definition microPause (chance span base : Q) (g : RNG) : list Q * RNG :=
  let '(r, g1) := random g in
  if Qltb r chance then
    let '(a, g2) := random g1 in ([(a * span + base)%Q], g2)
  else ([], g1).

Definition addMicroDelays (g : RNG) : Q * RNG :=
  let '(thinking, g1) := microPause (3 # 10) 5000 2000 g in
  let '(coffee, g2) := microPause (5 # 100) 30000 60000 g1 in
  let '(phone, g3) := microPause (1 # 10) 15000 10000 g2 in
  let microDelays := thinking ++ coffee ++ phone in
  (fold_left Qplus microDelays 0%Q, g3).

(** [recentSuccess.length / (recentSuccess.length + recentFailures.length)];
    [None] is NaN, the quotient 0/0 *)
Definition successRate (s : Limiter) : option Q :=
  let recentHistory := 10%nat in
  let recentSuccess := JS.sliceLast recentHistory (successHistory s) in
  let recentFailures := JS.sliceLast recentHistory (failureHistory s) in
  let total := (length recentSuccess + length recentFailures)%nat in
  match total with
  | O => None
  | _ => Some (inject_Z (Z.of_nat (length recentSuccess)) / inject_Z (Z.of_nat total))%Q
  end.

Definition adaptDelayBasedOnHistory (s : Limiter) : Limiter :=
  if negb (adaptiveEnabled s) then s
  else
    match successRate s with
    | None => s
    | Some rate =>
        if Qltb rate (7 # 10) then
          setCurrentDelay (Qmin (maxDelay s) (currentDelay s * (15 # 10))) s
        else if Qltb (9 # 10) rate && Qltb (minDelay s) (currentDelay s) then
          setCurrentDelay (Qmax (minDelay s) (currentDelay s * (8 # 10))) s
        else s
    end.

Definition getNextDelay (hour dayOfWeek : Z) (g : RNG) (s : Limiter) : Q * RNG :=
  let '(baseDelay, g1) := calculateHumanDelay hour dayOfWeek g s in
  let '(microDelays, g2) := addMicroDelays g1 in
  ((baseDelay + microDelays)%Q, g2).

(** [now] is the clock read of [canMakeRequest], [nowAfter] the one that
    is pushed after the wait *)
Definition waitForNextRequest (now nowAfter hour dayOfWeek : Z) (g : RNG) (s : Limiter)
  : Limiter * RNG * list Event :=
  let '(allowed, s1) := canMakeRequest now s in
  if negb allowed then
    let waitTime := 60000%Q in
    (s1, g, [Sleep waitTime])
  else
    let '(delay, g1) := getNextDelay hour dayOfWeek g s1 in
    let waited := if Qltb 0 delay then [Sleep delay] else [] in
    let s2 := setRequests (requests s1 ++ [nowAfter]) s1 in
    (adaptDelayBasedOnHistory s2, g1, waited).

Definition recordSuccess (now : Z) (s : Limiter) : Limiter :=
  let h := successHistory s ++ [now] in
  if (50 <? length h)%nat then setSuccessHistory (JS.sliceLast 25 h) s
  else setSuccessHistory h s.

Definition recordFailure (now : Z) (why : string) (s : Limiter) : Limiter :=
  let h := failureHistory s ++ [{| timestamp := now; reason := why |}] in
  if (50 <? length h)%nat then setFailureHistory (JS.sliceLast 25 h) s
  else setFailureHistory h s.

End AdaptiveRateLimiter.

(** ** Official search API client, its fallback wrapper, and the enhanced
    scraper that drives both *)

Module GoogleApi.

Record GoogleSearchAPI : Type := {
  apiKey : option string;
  searchEngineId : option string;
  baseUrl : string;
  requestCount : Z;
  dailyLimit : Z;
  lastResetDate : string
}.

(** the constructor; [today] is [new Date().toDateString()] *)
Definition new (env : ProcessEnv) (today : string) : GoogleSearchAPI :=
  {| apiKey := GOOGLE_API_KEY env;
     searchEngineId := GOOGLE_SEARCH_ENGINE_ID env;
     baseUrl := "https://www.googleapis.com/customsearch/v1";
     requestCount := 0;
     dailyLimit := 100;
     lastResetDate := today |}.

Definition setCount (n : Z) (day : string) (a : GoogleSearchAPI) : GoogleSearchAPI :=
  {| apiKey := apiKey a; searchEngineId := searchEngineId a; baseUrl := baseUrl a;
     requestCount := n; dailyLimit := dailyLimit a; lastResetDate := day |}.

Definition isConfigured (a : GoogleSearchAPI) : bool :=
  JS.truthyOpt (apiKey a) && JS.truthyOpt (searchEngineId a).

Definition isWithinLimits (today : string) (a : GoogleSearchAPI) : bool * GoogleSearchAPI :=
  let a' := if negb (String.eqb (lastResetDate a) today) then setCount 0 today a else a in
  (requestCount a' <? dailyLimit a', a').

(** One item of the API response, and the formatted result. *)
Record Item : Type := {
  itemTitle : option string;
  itemLink : option string;
  itemSnippet : option string;
  itemDisplayLink : option string;
  itemHtmlTitle : option string;
  itemHtmlSnippet : option string;
  itemFormattedUrl : option string;
  itemPagemap : option string
}.

Record ApiResult : Type := {
  title : string;
  url : string;
  snippet : string;
  displayLink : string;
  position : Z;
  source : string;
  htmlTitle : option string;
  htmlSnippet : option string;
  formattedUrl : option string;
  pagemap : string
}.

Record ApiError : Type := { errorMessage : string; errorCode : Z }.
Record ApiData : Type := { error : option ApiError; items : option (list Item) }.

(** What [fetch] and [response.json()] run into. *)
Inductive FetchOutcome : Type :=
| FetchThrows (message : string)
| NotOk (status : Z) (statusText errorText : string)
| JsonThrows (message : string)
| Json (data : ApiData).

(** the remote service, as a function of the query parameters sent *)
Definition Service : Type := list (string * string) -> FetchOutcome.

Definition orEmpty (o : option string) : string :=
  match o with Some s => s | None => EmptyString end.

Fixpoint formatItems (index : Z) (l : list Item) : list ApiResult :=
  match l with
  | [] => []
  | item :: rest =>
      {| title := orEmpty (itemTitle item);
         url := orEmpty (itemLink item);
         snippet := orEmpty (itemSnippet item);
         displayLink := orEmpty (itemDisplayLink item);
         position := index + 1;
         source := "Google API";
         htmlTitle := itemHtmlTitle item;
         htmlSnippet := itemHtmlSnippet item;
         formattedUrl := itemFormattedUrl item;
         pagemap := match itemPagemap item with
                    | Some p => p
                    | None => "{}"
                    end |}
      :: formatItems (index + 1) rest
  end.

Definition formatResults (apiResponse : ApiData) : list ApiResult :=
  match items apiResponse with
  | None => []
  | Some l => formatItems 0 l
  end.

(** An object as the list of its entries in the order they are
    enumerated. [o[k] = v] for a key that is no array index: a key that
    is there keeps its place and takes the value, a new key is added at
    the end. *)
Fixpoint setKey (k v : string) (o : list (string * string)) : list (string * string) :=
  match o with
  | [] => [(k, v)]
  | (k', v') :: rest => if String.eqb k' k then (k, v) :: rest else (k', v') :: setKey k v rest
  end.

Fixpoint getKey (k : string) (o : list (string * string)) : option string :=
  match o with
  | [] => None
  | (k', v) :: rest => if String.eqb k' k then Some v else getKey k rest
  end.

(** a key that is an array index: a decimal numeral in canonical form,
    below 2^32 - 1; an object enumerates these keys first, by value *)
Definition arrayIndex (k : string) : option Z :=
  match NilZero.uint_of_string k with
  | Some u =>
      let n := Z.of_uint u in
      if String.eqb (JS.toString n) k && (n <=? 4294967294) then Some n else None
  | None => None
  end.

(** a new array index is put before the first entry that is no array
    index or a larger one *)
Fixpoint insertIndex (n : Z) (k v : string) (o : list (string * string))
  : list (string * string) :=
  match o with
  | [] => [(k, v)]
  | (k', v') :: rest =>
      match arrayIndex k' with
      | Some n' => if n' <? n then (k', v') :: insertIndex n k v rest else (k, v) :: o
      | None => (k, v) :: o
      end
  end.

(** defining the property [k] of an object *)
Definition defineKey (k v : string) (o : list (string * string))
  : list (string * string) :=
  match arrayIndex k, getKey k o with
  | Some n, None => insertIndex n k v o
  | _, _ => setKey k v o
  end.

(** [{ ...base, ...options }] *)
Definition spread (base options : list (string * string)) : list (string * string) :=
  fold_left (fun acc kv => defineKey (fst kv) (snd kv) acc) options base.

Definition notConfiguredMessage : string :=
  "Google Custom Search API not configured. Set GOOGLE_API_KEY and GOOGLE_SEARCH_ENGINE_ID environment variables.".

Definition search (today : string) (service : Service) (query : string) (limit : Z)
    (options : list (string * string)) (a : GoogleSearchAPI)
  : Result (list ApiResult) * GoogleSearchAPI * list Event :=
  if negb (isConfigured a) then (Throw notConfiguredMessage, a, [Attempt GoogleAPI])
  else
    let '(within, a1) := isWithinLimits today a in
    if negb within then
      (Throw ("Daily API limit of " +:+ JS.toString (dailyLimit a1)
              +:+ " requests reached. Resets at midnight."), a1, [Attempt GoogleAPI])
    else
      let num := Z.min limit 10 in
      let params :=
        spread [("key", JS.tpl (apiKey a1)); ("cx", JS.tpl (searchEngineId a1));
                ("q", query); ("num", JS.toString num)] options in
      let events := [Attempt GoogleAPI; Fetch params] in
      match service params with
      | FetchThrows m => (Throw m, a1, events)
      | NotOk status statusText errorText =>
          (Throw ("API request failed: " +:+ JS.toString status +:+ " " +:+ statusText
                  +:+ " - " +:+ errorText), a1, events)
      | JsonThrows m => (Throw m, a1, events)
      | Json data =>
          let a2 := setCount (requestCount a1 + 1) (lastResetDate a1) a1 in
          match error data with
          | Some e =>
              (Throw ("Google API Error: " +:+ errorMessage e +:+ " (Code: "
                      +:+ JS.toString (errorCode e) +:+ ")"), a2, events)
          | None => (Return (formatResults data), a2, events)
          end
      end.

(** Arrays handed around by the fallback hold scraped or API results. *)
Inductive Hit : Type :=
| Scraped (r : ResultParser.SearchResult)
| FromApi (r : ApiResult).

(** What a scraping function resolves to: a plain array, or an object
    with optional [results] and [searchEngine]. *)
Inductive ScrapingValue : Type :=
| PlainArray (results : list Hit)
| Wrapped (results : option (list Hit)) (searchEngine : option string).

Definition ScrapingFunction : Type :=
  string -> Z -> GoogleSearchAPI -> Result ScrapingValue * GoogleSearchAPI * list Event.

Record SearchOutcome : Type := {
  results : list Hit;
  searchEngine : string;
  outcomeSource : string
}.

(** [scrapingResult.results || scrapingResult], when it is an array *)
Definition resultsOf (v : ScrapingValue) : option (list Hit) :=
  match v with
  | PlainArray l => Some l
  | Wrapped (Some l) _ => Some l
  | Wrapped None _ => None
  end.

Definition engineOf (v : ScrapingValue) : string :=
  match v with
  | Wrapped _ (Some e) => if JS.truthy e then e else "Scraping"
  | _ => "Scraping"
  end.

Definition nonEmpty {A} (l : list A) : bool :=
  match l with [] => false | _ => true end.

(** [`All search methods failed. Last error: ${error?.message || 'Unknown error'}`] *)
Definition allFailed (error : option string) : string :=
  "All search methods failed. Last error: " +:+
  match error with
  | Some m => if JS.truthy m then m else "Unknown error"
  | None => "Unknown error"
  end.

Definition searchWithApiFallback (today : string) (service : Service) (query : string)
    (limit : Z) (scrapingFunction : ScrapingFunction) (a : GoogleSearchAPI)
  : Result SearchOutcome * GoogleSearchAPI * list Event :=
  let '(scraping, a1, ev1) := scrapingFunction query limit a in
  let early :=
    match scraping with
    | Return v =>
        match resultsOf v with
        | Some rs =>
            if nonEmpty rs
            then Some {| results := rs; searchEngine := engineOf v; outcomeSource := "scraping" |}
            else None
        | None => None
        end
    | Throw _ => None
    end in
  let error := match scraping with Throw m => Some m | Return _ => None end in
  match early with
  | Some o => (Return o, a1, ev1)
  | None =>
      if isConfigured a1 then
        let '(within, a2) := isWithinLimits today a1 in
        if within then
          match search today service query limit [] a2 with
          | (Return rs, a3, ev2) =>
              if nonEmpty rs
              then (Return {| results := map FromApi rs; searchEngine := "Google API";
                              outcomeSource := "api" |}, a3, ev1 ++ ev2)
              else (Throw (allFailed error), a3, ev1 ++ ev2)
          | (Throw m, a3, ev2) => (Throw (allFailed (Some m)), a3, ev1 ++ ev2)
          end
        else (Throw (allFailed error), a2, ev1)
      else (Throw (allFailed error), a1, ev1)
  end.

End GoogleApi.

Module EnhancedScraper.
Import GoogleApi.

Record Flags : Type := {
  useProxy : bool;
  useAdaptiveRateLimit : bool;
  useApiFallback : bool
}.

Definition isString (o : option string) (s : string) : bool :=
  match o with Some v => String.eqb v s | None => false end.

(** the constructor *)
Definition new (env : ProcessEnv) : Flags :=
  {| useProxy := isString (USE_PROXY env) "true";
     useAdaptiveRateLimit := negb (isString (USE_ADAPTIVE_RATE_LIMIT env) "false");
     useApiFallback := negb (isString (USE_API_FALLBACK env) "false") |}.

(** The clock and calendar reads of one rate-limited call. *)
Record WaitClock : Type := { now : Z; nowAfter : Z; hour : Z; dayOfWeek : Z }.

Definition searchGoogle (this : Flags) (clock : WaitClock) (today : string)
    (service : Service) (query : string) (limit : Z)
    (g : AdaptiveRateLimiter.RNG) (limiter : AdaptiveRateLimiter.Limiter)
    (a : GoogleSearchAPI)
  : Result ScrapingValue * AdaptiveRateLimiter.Limiter * AdaptiveRateLimiter.RNG
    * GoogleSearchAPI * list Event :=
  let '(limiter1, g1, ev1) :=
    if useAdaptiveRateLimit this
    then AdaptiveRateLimiter.waitForNextRequest
           (now clock) (nowAfter clock) (hour clock) (dayOfWeek clock) g limiter
    else (limiter, g, []) in
  if isConfigured a then
    let '(within, a1) := isWithinLimits today a in
    if within then
      match search today service query limit [] a1 with
      | (Return rs, a2, ev2) =>
          (Return (Wrapped (Some (map FromApi rs)) (Some "Google Enhanced API")),
           limiter1, g1, a2, ev1 ++ ev2)
      | (Throw m, a2, ev2) => (Throw m, limiter1, g1, a2, ev1 ++ ev2)
      end
    else (Throw "Google API not configured or quota exceeded", limiter1, g1, a1, ev1)
  else (Throw "Google API not configured or quota exceeded", limiter1, g1, a, ev1).

End EnhancedScraper.

(** ** Proxy rotation: selection of a healthy endpoint and failure
    bookkeeping *)

Module ProxyRotation.

Record Proxy : Type := {
  server : string;
  username : option string;
  password : option string;
  country : string;
  type : string
}.

Record Pools : Type := { residential : list Proxy; datacenter : list Proxy }.

Definition proxyPools : Pools :=
  {| residential :=
       [ {| server := "proxy1.example.com:8080"; username := Some "user1";
            password := Some "pass1"; country := "US"; type := "residential" |};
         {| server := "proxy2.example.com:8080"; username := Some "user2";
            password := Some "pass2"; country := "UK"; type := "residential" |} ];
     datacenter :=
       [ {| server := "dc-proxy1.example.com:3128"; username := Some "dcuser1";
            password := Some "dcpass1"; country := "DE"; type := "datacenter" |} ] |}.

Record Failures : Type := { count : Z; lastFailure : Z }.

(** the two module-level maps *)
Record Tracking : Type := {
  proxyUsage : gmap string Z;
  proxyFailures : gmap string Failures
}.

Definition MAX_FAILURES_PER_PROXY : Z := 3.
Definition PROXY_COOLDOWN_TIME : Z := 30 * 60 * 1000.

Definition getEnvironmentProxy (env : ProcessEnv) : option Proxy :=
  if negb (JS.truthyOpt (PROXY_URL env)) then None
  else Some {| server := JS.tpl (PROXY_URL env);
               username := PROXY_USERNAME env;
               password := PROXY_PASSWORD env;
               type := "environment";
               country := "Unknown" |}.

(** [`${proxy.server}:${proxy.username}`] *)
Definition proxyKey (p : Proxy) : string :=
  server p +:+ ":" +:+ JS.tpl (username p).

Definition failuresOf (fails : gmap string Failures) (key : string) : Failures :=
  match fails !! key with
  | Some f => f
  | None => {| count := 0; lastFailure := 0 |}
  end.

(** the [filter] callback run over the candidates in order; it deletes
    the record of an endpoint whose cooldown is over *)
Fixpoint filterHealthy (now : Z) (candidates : list Proxy) (fails : gmap string Failures)
  : list Proxy * gmap string Failures :=
  match candidates with
  | [] => ([], fails)
  | proxy :: rest =>
      let key := proxyKey proxy in
      let failures := failuresOf fails key in
      if MAX_FAILURES_PER_PROXY <=? count failures then
        let timeSinceFailure := now - lastFailure failures in
        if timeSinceFailure <? PROXY_COOLDOWN_TIME then filterHealthy now rest fails
        else
          let '(kept, fails') := filterHealthy now rest (delete key fails) in
          (proxy :: kept, fails')
      else
        let '(kept, fails') := filterHealthy now rest fails in
        (proxy :: kept, fails')
  end.

Record Candidate : Type := { proxy : Proxy; lastUsed : Z; key : string }.

Definition withUsage (usage : gmap string Z) (p : Proxy) : Candidate :=
  let k := proxyKey p in
  {| proxy := p;
     lastUsed := match usage !! k with Some t => t | None => 0 end;
     key := k |}.

(** [sort((a, b) => a.lastUsed - b.lastUsed)]: a stable sort *)
Fixpoint insertByUsage (c : Candidate) (sorted : list Candidate) : list Candidate :=
  match sorted with
  | [] => [c]
  | d :: rest =>
      if lastUsed c <=? lastUsed d then c :: d :: rest
      else d :: insertByUsage c rest
  end.

Definition sortByUsage (l : list Candidate) : list Candidate :=
  fold_right insertByUsage [] l.

(** what [selectHealthyProxy] hands back *)
Inductive Selection : Type :=
| FromEnvironment (p : Proxy)
| FromPool (c : Candidate).

Definition candidates (poolType : string) (pools : Pools) : list Proxy :=
  let availableProxies := [] in
  let availableProxies :=
    if String.eqb poolType "residential" || String.eqb poolType "any"
    then availableProxies ++ residential pools else availableProxies in
  let availableProxies :=
    if String.eqb poolType "datacenter" || String.eqb poolType "any"
    then availableProxies ++ datacenter pools else availableProxies in
  availableProxies.

Definition selectHealthyProxy (env : ProcessEnv) (pools : Pools) (poolType : string)
    (now : Z) (st : Tracking) : option Selection * Tracking :=
  match getEnvironmentProxy env with
  | Some envProxy => (Some (FromEnvironment envProxy), st)
  | None =>
      let availableProxies := candidates poolType pools in
      match availableProxies with
      | [] => (None, st)
      | _ =>
          let '(healthyProxies, fails') := filterHealthy now availableProxies (proxyFailures st) in
          let st1 := {| proxyUsage := proxyUsage st; proxyFailures := fails' |} in
          match sortByUsage (map (withUsage (proxyUsage st)) healthyProxies) with
          | [] => (None, st1)
          | selectedProxy :: _ =>
              (Some (FromPool selectedProxy),
               {| proxyUsage := <[ key selectedProxy := now ]> (proxyUsage st);
                  proxyFailures := fails' |})
          end
      end
  end.

Definition reportProxyFailure (p : option Proxy) (now : Z) (st : Tracking) : Tracking :=
  match p with
  | None => st
  | Some proxy =>
      if negb (JS.truthy (server proxy)) then st
      else
        let k := proxyKey proxy in
        let currentFailures := failuresOf (proxyFailures st) k in
        let currentFailures :=
          {| count := count currentFailures + 1; lastFailure := now |} in
        {| proxyUsage := proxyUsage st;
           proxyFailures := <[ k := currentFailures ]> (proxyFailures st) |}
  end.

End ProxyRotation.

(** ** Content extraction: platform detection, [extractContent], and the
    [GET /extract] handler *)

Module Extraction.

(** The fields of a [URL] object that the sources read. *)
Record URL : Type := { hostname : string; pathname : string }.

Record PlatformInfo : Type := {
  platform : string;
  requiresAuth : bool;
  publicContentPossible : bool;
  contentType : option string
}.

Definition detectPlatformOf (urlObj : URL) : PlatformInfo :=
  let hostname := JS.toLowerCase (hostname urlObj) in
  if JS.includes hostname "linkedin.com" then
    let isCompanyPage := JS.includes (pathname urlObj) "/company/" in
    let isSchoolPage := JS.includes (pathname urlObj) "/school/" in
    let isPublicPost :=
      JS.includes (pathname urlObj) "/posts/" && negb (JS.includes (pathname urlObj) "/in/") in
    let isShowcase := JS.includes (pathname urlObj) "/showcase/" in
    {| platform := "linkedin";
       requiresAuth := true;
       publicContentPossible := isCompanyPage || isSchoolPage || isPublicPost || isShowcase;
       contentType :=
         Some (if isCompanyPage then "company"
               else if isSchoolPage then "school"
               else if isPublicPost then "post" else "profile") |}
  else if JS.includes hostname "facebook.com" || JS.includes hostname "fb.com" then
    {| platform := "facebook";
       requiresAuth := true;
       publicContentPossible := JS.includes hostname "facebook.com/pages";
       contentType := None |}
  else if JS.includes hostname "twitter.com" || JS.includes hostname "x.com" then
    {| platform := "twitter"; requiresAuth := false; publicContentPossible := true;
       contentType := None |}
  else
    {| platform := "general"; requiresAuth := false; publicContentPossible := true;
       contentType := None |}.

(** What the page gives back once loaded. [cleanMarkdown] is the text
    after the Markdown conversion and the clean-up replacements. *)
Record AvailableInfo : Type := {
  description : string;
  heading : string;
  profileInfo : string;
  bodyLength : Z
}.

Record PageData : Type := {
  pageContent : string;
  pageTitle : string;
  bodyInnerText : option string;
  availableInfo : AvailableInfo;
  documentTitle : string;
  locationHref : string;
  cleanMarkdown : string
}.

Inductive Browser : Type :=
| LaunchFails (message : string)
| NavigationFails (message : string)
| Loaded (page : PageData).

Inductive Debug : Type :=
| BlockedDebug (contentLength : Z) (hasLoginIndicators isEmptyContent : bool)
    (pageTitle : string) (info : AvailableInfo)
| EmptyDebug (originalMarkdownLength : Z) (titleAvailable : bool).

Record Content : Type := {
  title : string;
  markdown : string;
  url : string;
  extractionType : string;
  contentPlatform : option string;
  loginRequired : option bool;
  isEmpty : option bool;
  debug : option Debug
}.

Definition loginIndicators : list string :=
  ["sign in"; "log in"; "login"; "authentication required"; "please sign in";
   "member login"; "join linkedin"; "this content is not available";
   "linkedin login"; "access linkedin"].

(** [url.split('/').pop()] *)
Fixpoint lastSegment (s acc : string) : string :=
  match s with
  | EmptyString => acc
  | String c s' =>
      if Ascii.eqb c "/" then lastSegment s' EmptyString
      else lastSegment s' (acc +:+ String c EmptyString)
  end.

Definition upperChar (c : ascii) : ascii :=
  let n := nat_of_ascii c in
  if (Nat.leb 97 n && Nat.leb n 122)%bool then ascii_of_nat (n - 32) else c.

(** [p.charAt(0).toUpperCase() + p.slice(1)] *)
Definition capitalize (p : string) : string :=
  match p with
  | EmptyString => EmptyString
  | String c rest => String (upperChar c) rest
  end.

Definition strLength (s : string) : Z := JS.lengthOf s.

Definition authRequiredMarkdown (url : string) : string :=
  "# LinkedIn Content Not Available

This LinkedIn URL requires authentication to access content: " +:+ url +:+ "

## Alternatives:
- **LinkedIn API**: Use LinkedIn's official API with proper authentication
- **Manual Copy**: Copy and paste the content manually
- **Public Company Pages**: Some LinkedIn company pages may be publicly accessible
- **Professional Networks**: Consider alternative professional networking platforms

## Note:
LinkedIn protects user privacy by requiring login for most profile and post content.".

Definition authBlockedMarkdown (url pageTitle : string) (contentLength : Z)
    (info : AvailableInfo) : string :=
  "# LinkedIn Content Not Available

This LinkedIn URL requires authentication to access content: " +:+ url +:+ "

## What happened:
LinkedIn is blocking automated access and serving minimal content to bots.

**Page Details:**
- Title: " +:+ JS.dq +:+ pageTitle +:+ JS.dq +:+ "
- Content Length: " +:+ JS.toString contentLength +:+ " characters
- Meta Description: " +:+ JS.dq +:+ description info +:+ JS.dq +:+ "

## Why LinkedIn blocks this:
- **Privacy Protection**: User profiles require login to view
- **Terms of Service**: LinkedIn actively prevents automated scraping
- **Bot Detection**: Sophisticated systems detect and block automated access

## Alternatives:
- **LinkedIn API**: Use LinkedIn's official API with proper authentication
- **Manual Access**: Log in to LinkedIn and view the content manually
- **Public Company Pages**: Try LinkedIn company pages which may be publicly accessible
- **Alternative Sources**: Search for the person/company on other professional networks
- **Google Search**: Search for " +:+ JS.dq +:+ lastSegment url EmptyString +:+ JS.dq +:+ " on Google for alternative sources

## Technical Note:
LinkedIn serves different content to bots vs. authenticated users to protect privacy and comply with their Terms of Service.".

Definition emptyContentMarkdown (url platform : string) : string :=
  "# Content Not Available

The requested content from " +:+ url +:+ " could not be extracted.

## Possible reasons:
- **Authentication Required**: The platform requires login to view content
- **Bot Detection**: The website is blocking automated access
- **JavaScript-heavy Content**: Content loads dynamically and wasn't captured
- **Rate Limiting**: Too many requests to the platform

## What you can do:
- **Manual Access**: Visit the URL directly in your browser
- **Alternative Sources**: Search for the same content on other platforms
- **API Access**: Use official APIs if available
- **Try Later**: Wait and retry the request

## Platform: " +:+ platform +:+ "
Original URL: " +:+ url.

(** The repository holds [extractContent] twice: in the scraper module
    the server loads, and in the environment-aware scraper. The two
    differ in how a failed launch is reported and in how the extraction
    script is handed to [page.evaluate]. *)
Inductive Variant : Type :=
| ServerScraper
| EnvironmentAware.

(** What [page.evaluate] rejects with when it is called with more than
    one argument after the function, as the server's scraper calls it
    ([fullPage], [includeImages] and [url] one by one). *)
Definition tooManyArguments : string :=
  "Too many arguments. If you need to pass more than 1 argument to the function wrap them in an object.".

Section WithUrlParser.

(** [new URL(url)]: [None] when the constructor throws. *)
Variable newURL : string -> option URL.

Definition detectPlatform (url : string) : Result PlatformInfo :=
  match newURL url with
  | None => Throw "Invalid URL"
  | Some urlObj => Return (detectPlatformOf urlObj)
  end.

Definition extractContent (variant : Variant) (browser : Browser) (url : string)
    (fullPage includeImages : bool) : Result Content * list Event :=
  match detectPlatform url with
  | Throw m => (Throw m, [])
  | Return platformInfo =>
      if String.eqb (platform platformInfo) "linkedin" && requiresAuth platformInfo
         && negb (publicContentPossible platformInfo)
      then
        (Return {| title := "LinkedIn Content Requires Authentication";
                   markdown := authRequiredMarkdown url;
                   url := url;
                   extractionType := "authentication-required";
                   contentPlatform := Some "linkedin";
                   loginRequired := None;
                   isEmpty := None;
                   debug := None |}, [])
      else
        match browser with
        | LaunchFails m =>
            (Throw match variant with
                   | ServerScraper => m
                   | EnvironmentAware => "Browser launch failed: " +:+ m
                   end, [Launch])
        | NavigationFails m => (Throw m, [Launch; Goto url])
        | Loaded page =>
            let events := [Launch; Goto url] in
            let pageTitle := pageTitle page in
            let hasLoginRequirement :=
              existsb (fun indicator =>
                         JS.includes (JS.toLowerCase (pageContent page))
                                     (JS.toLowerCase indicator)) loginIndicators in
            let bodyText :=
              match bodyInnerText page with
              | Some t => JS.trim t
              | None => EmptyString
              end in
            let contentLength := strLength bodyText in
            let isEmptyContent := contentLength <? 100 in
            let isLinkedInTitle :=
              JS.includes (JS.toLowerCase pageTitle) "linkedin"
              || String.eqb pageTitle EmptyString in
            if String.eqb (platform platformInfo) "linkedin"
               && (hasLoginRequirement || isEmptyContent || isLinkedInTitle
                   || (contentLength <? 200))
            then
              (Return {| title := if JS.truthy pageTitle then pageTitle
                                  else "LinkedIn Content Requires Authentication";
                         markdown := authBlockedMarkdown url pageTitle contentLength
                                       (availableInfo page);
                         url := url;
                         extractionType := "authentication-blocked";
                         contentPlatform := Some "linkedin";
                         loginRequired := Some true;
                         isEmpty := None;
                         debug := Some (BlockedDebug contentLength hasLoginRequirement
                                          isEmptyContent pageTitle (availableInfo page)) |},
               events)
            else
            match variant with
            | ServerScraper => (Throw tooManyArguments, events)
            | EnvironmentAware =>
            if (strLength (cleanMarkdown page) <? 50)
               && negb (String.eqb (platform platformInfo) "general")
            then
              (Return {| title := if JS.truthy (documentTitle page) then documentTitle page
                                  else capitalize (platform platformInfo)
                                       +:+ " Content Not Available";
                         markdown := emptyContentMarkdown url (platform platformInfo);
                         url := locationHref page;
                         extractionType := "empty-content";
                         contentPlatform := Some (platform platformInfo);
                         loginRequired := None;
                         isEmpty := Some true;
                         debug := Some (EmptyDebug (strLength (cleanMarkdown page))
                                          (JS.truthy (documentTitle page))) |},
               events)
            else
              (Return {| title := documentTitle page;
                         markdown := cleanMarkdown page;
                         url := locationHref page;
                         extractionType := if fullPage then "full-page" else "main-content";
                         contentPlatform := None;
                         loginRequired := None;
                         isEmpty := None;
                         debug := None |},
               events)
            end
        end
  end.

End WithUrlParser.

Record Suggestions : Type := {
  apiUrl : option string;
  publicAlternatives : list string;
  tools : list string
}.

Definition getAlternativeSuggestions (url platform : string) : Suggestions :=
  if String.eqb platform "linkedin" then
    {| apiUrl := Some "https://docs.microsoft.com/en-us/linkedin/";
       publicAlternatives :=
         ["Try LinkedIn company pages (linkedin.com/company/company-name)";
          "Look for the company's official website";
          "Check for press releases or news articles about the content";
          "Use LinkedIn's RSS feeds for public posts"];
       tools :=
         ["LinkedIn API with proper authentication";
          "Browser automation with logged-in session";
          "Manual copy-paste from authenticated session"] |}
  else if String.eqb platform "facebook" then
    {| apiUrl := Some "https://developers.facebook.com/docs/graph-api/";
       publicAlternatives :=
         ["Try Facebook business pages";
          "Look for the organization's official website";
          "Check for cross-posted content on other platforms"];
       tools := ["Facebook Graph API"; "Official Facebook business tools"] |}
  else if String.eqb platform "twitter" then
    {| apiUrl := Some "https://developer.twitter.com/en/docs/twitter-api";
       publicAlternatives :=
         ["Most Twitter content should be publicly accessible";
          "Try accessing the profile directly"];
       tools := ["Twitter API v2"; "Direct URL access usually works"] |}
  else
    {| apiUrl := None;
       publicAlternatives := ["Try accessing the content directly in a browser"];
       tools := ["Manual copy-paste"] |}.

End Extraction.

(** The [GET /extract] route of the server. *)
Module Server.
Import Extraction.

Record Query : Type := {
  qUrl : option string;
  qFull : option string;
  qImages : option string
}.

Inductive Body : Type :=
| ErrorBody (error : string) (message : option string)
| ExtractBody (url : string) (content : Content) (extractedAt : string)
    (suggestions : option Suggestions) (message : option string).

Record Response : Type := { status : Z; body : Body }.

Definition isString (o : option string) (s : string) : bool :=
  match o with Some v => String.eqb v s | None => false end.

Definition isTrue (o : option bool) : bool :=
  match o with Some b => b | None => false end.

(** The route of the server, which requires [./utils/scraper], the
    scraper of [ServerScraper]. [extractedAt] is
    [new Date().toISOString()]. *)
Definition getExtract (newURL : string -> option URL) (browser : Browser)
    (extractedAt : string) (query : Query) : Response * list Event :=
  if negb (JS.truthyOpt (qUrl query)) then
    ({| status := 400; body := ErrorBody "URL parameter is required" None |}, [])
  else
    let url := JS.tpl (qUrl query) in
    match newURL url with
    | None => ({| status := 400; body := ErrorBody "Invalid URL format" None |}, [])
    | Some _ =>
        let fullPage := isString (qFull query) "true" || isString (qFull query) "1" in
        let includeImages :=
          negb (isString (qImages query) "false") && negb (isString (qImages query) "0") in
        match extractContent newURL ServerScraper browser url fullPage includeImages with
        | (Throw m, events) =>
            ({| status := 500; body := ErrorBody "Failed to extract content" (Some m) |},
             events)
        | (Return content, events) =>
            match contentPlatform content with
            | Some p =>
                if JS.truthy p && (isTrue (loginRequired content) || isTrue (isEmpty content))
                then
                  let suggestions := getAlternativeSuggestions url p in
                  let statusCode := 422 in
                  let message :=
                    "Content extraction blocked: " +:+ p +:+ " requires authentication" in
                  let message :=
                    if isTrue (isEmpty content)
                    then "Content extraction failed: " +:+ p
                         +:+ " returned empty content (likely blocked)"
                    else message in
                  ({| status := statusCode;
                      body := ExtractBody url content extractedAt (Some suggestions)
                                (Some message) |}, events)
                else
                  ({| status := 200;
                      body := ExtractBody url content extractedAt None None |}, events)
            | None =>
                ({| status := 200;
                    body := ExtractBody url content extractedAt None None |}, events)
            end
        end
    end.

End Server.

(** ** The adjustment rule as the specification words it

    The specification computes the success rate over the last 10 recorded
    outcomes. The two histories are merged in time order and the ten most
    recent outcomes are kept; the rule on the rate is the one of
    [adaptDelayBasedOnHistory]. *)

Module SpecWording.
Import AdaptiveRateLimiter.

Fixpoint insertOutcome (o : Z * bool) (sorted : list (Z * bool)) : list (Z * bool) :=
  match sorted with
  | [] => [o]
  | p :: rest => if fst o <? fst p then o :: p :: rest else p :: insertOutcome o rest
  end.

(** every recorded outcome with its time stamp, oldest first *)
Definition recordedOutcomes (s : Limiter) : list (Z * bool) :=
  fold_left (fun acc o => insertOutcome o acc)
    (map (fun t => (t, true)) (successHistory s)
     ++ map (fun f => (timestamp f, false)) (failureHistory s)) [].

Definition lastTenSuccessRate (s : Limiter) : option Q :=
  let recent := JS.sliceLast 10 (recordedOutcomes s) in
  match recent with
  | [] => None
  | _ => Some (inject_Z (Z.of_nat (length (List.filter snd recent)))
               / inject_Z (Z.of_nat (length recent)))%Q
  end.

Definition recordOutcomeAdjust (s : Limiter) : Limiter :=
  match lastTenSuccessRate s with
  | None => s
  | Some rate =>
      if Qltb rate (7 # 10) then
        setCurrentDelay (Qmin (maxDelay s) (currentDelay s * (15 # 10))) s
      else if Qltb (9 # 10) rate && Qltb (minDelay s) (currentDelay s) then
        setCurrentDelay (Qmax (minDelay s) (currentDelay s * (8 # 10))) s
      else s
  end.

End SpecWording.

(** ** Runs of the proxy selector and predicates on its bookkeeping *)

Module ProxyRuns.
Import ProxyRotation.

(** a sequence of [selectHealthyProxy] calls, each with its pool class and
    its clock read *)
Fixpoint runSelects (env : ProcessEnv) (pools : Pools) (calls : list (string * Z))
    (st : Tracking) : list (option Selection) * Tracking :=
  match calls with
  | [] => ([], st)
  | (poolType, now) :: rest =>
      let '(sel, st1) := selectHealthyProxy env pools poolType now st in
      let '(sels, st2) := runSelects env pools rest st1 in
      (sel :: sels, st2)
  end.

(** the selection is the endpoint whose bookkeeping key is [k] *)
Definition returnsKey (k : string) (sel : option Selection) : Prop :=
  match sel with
  | Some (FromPool c) => key c = k
  | Some (FromEnvironment q) => proxyKey q = k
  | None => False
  end.

(** the endpoint with key [k] has reached the failure threshold and last
    failed at [tl] *)
Definition quarantined (k : string) (tl : Z) (fails : gmap string Failures) : Prop :=
  exists f, fails !! k = Some f /\ MAX_FAILURES_PER_PROXY <= count f /\ lastFailure f = tl.

(** recorded failure counts are never negative *)
Definition validTracking (st : Tracking) : Prop :=
  forall k f, proxyFailures st !! k = Some f -> 0 <= count f.

(** the filter keeps an endpoint with key [k] at time [now] *)
Definition passesFilter (now : Z) (fails : gmap string Failures) (k : string) : Prop :=
  match fails !! k with
  | None => True
  | Some f => count f < MAX_FAILURES_PER_PROXY \/ PROXY_COOLDOWN_TIME <= now - lastFailure f
  end.

End ProxyRuns.

(** ** The contract of the remote search service

    The service reads the [num] parameter as a decimal integer and answers
    with no more items than that. *)

Module ServiceContract.
Import GoogleApi.

Definition parseNum (s : string) : option Z :=
  option_map Z.of_int (NilZero.int_of_string s).

Definition requestedNum (params : list (string * string)) : option Z :=
  match getKey "num" params with
  | Some s => parseNum s
  | None => None
  end.

Definition itemCount (data : ApiData) : Z :=
  match items data with
  | Some l => Z.of_nat (length l)
  | None => 0
  end.

Definition honoursNum (service : Service) : Prop :=
  forall params data n,
    service params = Json data -> requestedNum params = Some n -> itemCount data <= n.

(** A service with plenty of matches: it answers a request for [n]
    results, 1 <= n <= 10, with [n] items, and any other request with an
    error status. *)
Definition plentifulService (item : Item) : Service :=
  fun params =>
    match requestedNum params with
    | Some n =>
        if (1 <=? n) && (n <=? 10)
        then Json {| error := None; items := Some (repeat item (Z.to_nat n)) |}
        else NotOk 400 "Bad Request" "Invalid value"
    | None => NotOk 400 "Bad Request" "Invalid value"
    end.

(** the parameters of a call without extra options *)
Definition plainParams (a : GoogleSearchAPI) (query : string) (limit : Z)
  : list (string * string) :=
  [("key", JS.tpl (apiKey a)); ("cx", JS.tpl (searchEngineId a));
   ("q", query); ("num", JS.toString (Z.min limit 10))].

End ServiceContract.

(** ** A reader for plain URLs, used by the worked examples

    [scheme://host/path?query#fragment] without user info or port; it
    stands for the platform's URL constructor on such inputs. *)

Module PlainUrl.

Fixpoint splitOn (sep s : string) : option (string * string) :=
  if String.prefix sep s
  then Some (EmptyString, String.substring (String.length sep)
                            (String.length s - String.length sep) s)
  else match s with
       | EmptyString => None
       | String c s' =>
           match splitOn sep s' with
           | Some (before, after) => Some (String c before, after)
           | None => None
           end
       end.

Definition isDelimiter (c : ascii) : bool :=
  Ascii.eqb c "/" || Ascii.eqb c "?" || Ascii.eqb c "#".

Fixpoint upTo (stop : ascii -> bool) (s : string) : string * string :=
  match s with
  | EmptyString => (EmptyString, EmptyString)
  | String c s' =>
      if stop c then (EmptyString, s)
      else let '(a, b) := upTo stop s' in (String c a, b)
  end.

Definition endsPath (c : ascii) : bool := Ascii.eqb c "?" || Ascii.eqb c "#".

Definition parse (s : string) : option Extraction.URL :=
  match splitOn "://" s with
  | None => None
  | Some (scheme, rest) =>
      let '(host, tail) := upTo isDelimiter rest in
      let '(path, _) := upTo endsPath tail in
      if JS.truthy scheme && JS.truthy host
      then Some {| Extraction.hostname := JS.toLowerCase host;
                   Extraction.pathname :=
                     match path with
                     | String c _ => if Ascii.eqb c "/" then path else "/"
                     | EmptyString => "/"
                     end |}
      else None
  end.

End PlainUrl.

(** ** Inputs used by the worked examples *)

Module Examples.

(** A results page with seven containers under the first container
    selector. The second container links back to the results page of the
    search engine, the fourth to another service on the engine's domain. *)
Definition hit (name target : string) : ResultParser.Element :=
  [("h3", {| ResultParser.textContent := name; ResultParser.href := EmptyString |});
   ("a[href]", {| ResultParser.textContent := name; ResultParser.href := target |})].

Definition sevenHits : ResultParser.Document :=
  [("#search .g",
    [hit "First" "https://example.com/1";
     hit "Related searches" "https://www.google.com/search?q=related";
     hit "Third" "https://example.com/3";
     hit "Map" "https://maps.google.com/maps?q=example";
     hit "Fifth" "https://example.com/5";
     hit "Sixth" "https://example.com/6";
     hit "Seventh" "https://example.com/7"])].

(** Seven containers that all carry a title and an outside link. *)
Definition sevenCleanHits : ResultParser.Document :=
  [("#search .g",
    [hit "First" "https://example.com/1";
     hit "Second" "https://example.com/2";
     hit "Third" "https://example.com/3";
     hit "Fourth" "https://example.com/4";
     hit "Fifth" "https://example.com/5";
     hit "Sixth" "https://example.com/6";
     hit "Seventh" "https://example.com/7"])].

(** An API client with credentials, and a service that answers every
    request with one item. *)
Definition configuredApi : GoogleApi.GoogleSearchAPI :=
  {| GoogleApi.apiKey := Some "key"; GoogleApi.searchEngineId := Some "cx";
     GoogleApi.baseUrl := "https://www.googleapis.com/customsearch/v1";
     GoogleApi.requestCount := 0; GoogleApi.dailyLimit := 100;
     GoogleApi.lastResetDate := "Tue Nov 03 2026" |}.

Definition anItem : GoogleApi.Item :=
  {| GoogleApi.itemTitle := Some "Example"; GoogleApi.itemLink := Some "https://example.com/";
     GoogleApi.itemSnippet := None; GoogleApi.itemDisplayLink := None;
     GoogleApi.itemHtmlTitle := None; GoogleApi.itemHtmlSnippet := None;
     GoogleApi.itemFormattedUrl := None; GoogleApi.itemPagemap := None |}.

Definition oneItemService : GoogleApi.Service :=
  fun _ => GoogleApi.Json {| GoogleApi.error := None; GoogleApi.items := Some [anItem] |}.

(** A generator whose every draw is one half: no jitter, no pause. *)
Definition calmRNG : AdaptiveRateLimiter.RNG :=
  {| AdaptiveRateLimiter.gen := fun _ => (1 # 2)%Q; AdaptiveRateLimiter.pos := 0 |}.

(** The adaptive limiter after three requests at 1 s, 2 s and 3 s. *)
Definition busyLimiter : AdaptiveRateLimiter.Limiter :=
  AdaptiveRateLimiter.setRequests [1000; 2000; 3000] AdaptiveRateLimiter.new.

Definition allFlags : EnhancedScraper.Flags :=
  {| EnhancedScraper.useProxy := false; EnhancedScraper.useAdaptiveRateLimit := true;
     EnhancedScraper.useApiFallback := true |}.

(** The request tracker of a development deployment after two requests. *)
Definition localEnv : ProcessEnv :=
  {| RAILWAY_ENVIRONMENT := None; RAILWAY_PROJECT_ID := None; PORT := None;
     PROXY_URL := None; PROXY_USERNAME := None; PROXY_PASSWORD := None;
     GOOGLE_API_KEY := None; GOOGLE_SEARCH_ENGINE_ID := None;
     USE_PROXY := None; USE_ADAPTIVE_RATE_LIMIT := None; USE_API_FALLBACK := None |}.

Definition busyTracker : Scraper.RequestTracker :=
  Scraper.setRequests [1000; 2000] (Scraper.initialTracker localEnv).


(** A limiter that records three failures at 1, 2 and 3 ms, adapts (its
    delay goes from 2 s to 3 s), and then records ten successes at
    11 .. 20 ms. *)
Definition afterFailures : AdaptiveRateLimiter.Limiter :=
  AdaptiveRateLimiter.adaptDelayBasedOnHistory
    (AdaptiveRateLimiter.recordFailure 3 "timeout"
       (AdaptiveRateLimiter.recordFailure 2 "blocked"
          (AdaptiveRateLimiter.recordFailure 1 "blocked" AdaptiveRateLimiter.new))).

Definition recoveredLimiter : AdaptiveRateLimiter.Limiter :=
  fold_left (fun s t => AdaptiveRateLimiter.recordSuccess t s)
    [11; 12; 13; 14; 15; 16; 17; 18; 19; 20] afterFailures.

(** A deployment with the override endpoint of the sample environment
    file, and the bookkeeping at process start. *)
Definition proxyEnv : ProcessEnv :=
  {| RAILWAY_ENVIRONMENT := None; RAILWAY_PROJECT_ID := None; PORT := None;
     PROXY_URL := Some "http://proxy-server:6540";
     PROXY_USERNAME := Some "your-zpqhdfpy"; PROXY_PASSWORD := Some "secret";
     GOOGLE_API_KEY := None; GOOGLE_SEARCH_ENGINE_ID := None;
     USE_PROXY := Some "true"; USE_ADAPTIVE_RATE_LIMIT := None; USE_API_FALLBACK := None |}.

Definition overrideEndpoint : ProxyRotation.Proxy :=
  {| ProxyRotation.server := "http://proxy-server:6540";
     ProxyRotation.username := Some "your-zpqhdfpy";
     ProxyRotation.password := Some "secret";
     ProxyRotation.country := "Unknown";
     ProxyRotation.type := "environment" |}.

Definition freshTracking : ProxyRotation.Tracking :=
  {| ProxyRotation.proxyUsage := ∅; ProxyRotation.proxyFailures := ∅ |}.

Definition firstResidential : ProxyRotation.Proxy :=
  {| ProxyRotation.server := "proxy1.example.com:8080";
     ProxyRotation.username := Some "user1";
     ProxyRotation.password := Some "pass1";
     ProxyRotation.country := "US";
     ProxyRotation.type := "residential" |}.

(** A results page whose only container has a link and no title. *)
Definition untitledHit : ResultParser.Document :=
  [("#search .g",
    [[("a[href]", {| ResultParser.textContent := "Example";
                     ResultParser.href := "https://example.com/" |})]])].

Definition clockAt (t : Z) : Scraper.GoogleClock :=
  {| Scraper.tCheck := t; Scraper.tWait := t; Scraper.tAdd := t |}.

Definition blockedSession : Scraper.GoogleSession :=
  Scraper.SessionThrows
    "Google is blocking search results. URL: https://www.google.com/sorry/index".

Definition failingDuck : Scraper.DuckSession :=
  Scraper.DuckThrows "DuckDuckGo search results did not load".

Definition duckHit : ResultParser.SearchResult :=
  {| ResultParser.title := "Example"; ResultParser.link := "https://example.com/";
     ResultParser.snippet := "An example"; ResultParser.displayUrl := "example.com";
     ResultParser.position := 1; ResultParser.source := Some "DuckDuckGo" |}.

Definition railwayEnv : ProcessEnv :=
  {| RAILWAY_ENVIRONMENT := Some "production"; RAILWAY_PROJECT_ID := None;
     PORT := Some "8080";
     PROXY_URL := None; PROXY_USERNAME := None; PROXY_PASSWORD := None;
     GOOGLE_API_KEY := None; GOOGLE_SEARCH_ENGINE_ID := None;
     USE_PROXY := None; USE_ADAPTIVE_RATE_LIMIT := None; USE_API_FALLBACK := None |}.

(** A page with ordinary content, as a profile page may serve it. *)
Definition profilePage : Extraction.PageData :=
  {| Extraction.pageContent := "<html><body><h1>Alice</h1><p>Public profile text</p></body></html>";
     Extraction.pageTitle := "Alice";
     Extraction.bodyInnerText := Some "Alice Public profile text";
     Extraction.availableInfo :=
       {| Extraction.description := EmptyString; Extraction.heading := "Alice";
          Extraction.profileInfo := EmptyString; Extraction.bodyLength := 25 |};
     Extraction.documentTitle := "Alice";
     Extraction.locationHref := "https://www.facebook.com/alice";
     Extraction.cleanMarkdown :=
       "# Alice

Public profile text that is long enough to count as content of the page." |}.

Definition extractQuery (url : string) : Server.Query :=
  {| Server.qUrl := Some url; Server.qFull := None; Server.qImages := None |}.

(** A scraping function that comes back with no results. *)
Definition emptyScrape : GoogleApi.ScrapingFunction :=
  fun _ _ a => (Return (GoogleApi.PlainArray []), a, [Attempt Google; Launch]).

End Examples.

(** ** The stealth-only scraper and the search route of the server *)

Module SearchRoute.
Import ResultParser.

(** The values [parseInt] returns: NaN, an integer that a double holds,
    or an infinity. *)
Inductive Number : Type :=
| NaN
| Finite (n : Z)
| Infinity (negative : bool).

(** [i < Math.min(resultElements.length, maxResults)] for the number the
    route passes: with NaN the bound is NaN and the body of the loop
    never runs, with the negative infinity it is never reached, with the
    positive one the bound is the number of containers *)
Definition extractUpTo (doc : Document) (maxResults : Number) : list SearchResult :=
  match maxResults with
  | NaN => []
  | Finite n => extractResults doc n
  | Infinity true => []
  | Infinity false =>
      extractResults doc (Z.of_nat (length (findContainers doc containerSelectors [])))
  end.

(** [searchGoogle] of the stealth-only scraper: no rate limiting, one
    browser launch *)
Definition searchGoogle (session : Scraper.GoogleSession) (limit : Number)
  : Result (list SearchResult) * list Event :=
  match session with
  | Scraper.LaunchFails m => (Throw m, [Launch])
  | Scraper.SessionThrows m => (Throw m, [Launch])
  | Scraper.ResultsPage doc => (Return (extractUpTo doc limit), [Launch])
  end.

Definition digitValue (c : ascii) : option Z :=
  let n := nat_of_ascii c in
  if (Nat.leb 48 n && Nat.leb n 57)%bool then Some (Z.of_nat n - 48)
  else if (Nat.leb 97 n && Nat.leb n 122)%bool then Some (Z.of_nat n - 87)
  else if (Nat.leb 65 n && Nat.leb n 90)%bool then Some (Z.of_nat n - 55)
  else None.

(** the longest prefix of digits of the radix; [acc] is [None] until a
    digit has been read *)
Fixpoint readDigits (radix : Z) (s : string) (acc : option Z) : option Z :=
  match s with
  | EmptyString => acc
  | String c s' =>
      match digitValue c with
      | Some d =>
          if d <? radix
          then readDigits radix s'
                 (Some (match acc with Some a => a * radix + d | None => d end))
          else acc
      | None => acc
      end
  end.

(** the double nearest to a natural number, ties to the even
    significand: a double holds 53 significant bits *)
Definition roundToDouble (a : Z) : Z :=
  let bits := Z.log2 a + 1 in
  if bits <=? 53 then a
  else
    let shift := bits - 53 in
    let significand := Z.shiftr a shift in
    let rest := a - Z.shiftl significand shift in
    let half := Z.shiftl 1 (shift - 1) in
    let significand :=
      if (half <? rest) || ((rest =? half) && Z.odd significand)
      then significand + 1 else significand in
    Z.shiftl significand shift.

(** the Number value of a sign and a magnitude: what rounds to 2^1024
    or more is an infinity *)
Definition toNumber (negative : bool) (magnitude : Z) : Number :=
  let rounded := roundToDouble magnitude in
  if Z.shiftl 1 1024 <=? rounded then Infinity negative
  else Finite (if negative then - rounded else rounded).

(** [parseInt(s)] without a radix argument: white space is skipped, then
    a sign, then [0x] selects radix 16, then the longest run of digits is
    read and its value rounded to a double *)
Definition parseInt (s : string) : Number :=
  let s := JS.trimStart s in
  let '(negative, s) :=
    match s with
    | String c rest =>
        if Ascii.eqb c "-" then (true, rest)
        else if Ascii.eqb c "+" then (false, rest)
        else (false, s)
    | EmptyString => (false, s)
    end in
  let '(radix, s) :=
    if String.prefix "0x" s || String.prefix "0X" s
    then (16, String.substring 2 (String.length s - 2) s)
    else (10, s) in
  match readDigits radix s None with
  | Some n => toNumber negative n
  | None => NaN
  end.

Record Query : Type := { q : option string; limit : option string }.

Inductive Body : Type :=
| ErrorBody (error : string) (message : option string)
| ResultsBody (query : string) (results : list SearchResult) (count : Z).

Record Response : Type := { status : Z; body : Body }.

(** [const { q: query, limit = 10 } = req.query], then [parseInt(limit)];
    [limit] is the parameter as the string [parseInt] reads *)
Definition limitOf (query : Query) : Number :=
  match limit query with
  | None => Finite 10
  | Some s => parseInt s
  end.

Definition getSearch (session : Scraper.GoogleSession) (query : Query)
  : Response * list Event :=
  if negb (JS.truthyOpt (q query)) then
    ({| status := 400;
        body := ErrorBody ("Query parameter " +:+ JS.dq +:+ "q" +:+ JS.dq +:+ " is required")
                  None |}, [])
  else
    match searchGoogle session (limitOf query) with
    | (Return results, events) =>
        ({| status := 200;
            body := ResultsBody (JS.tpl (q query)) results (Z.of_nat (length results)) |},
         events)
    | (Throw m, events) =>
        ({| status := 500; body := ErrorBody "Failed to perform search" (Some m) |}, events)
    end.

End SearchRoute.

(** ** Statistics and reset of the adaptive limiter *)

Module LimiterStats.
Import AdaptiveRateLimiter.

Record Stats : Type := {
  statCurrentDelay : Q;
  statSuccessRate : Z;
  statRecentSuccesses : Z;
  statRecentFailures : Z;
  statRequestsInLastMinute : Z;
  statAdaptiveEnabled : bool
}.

(** The success rate is computed in doubles: a quotient and a product,
    each rounded to the nearest double, ties to the even significand. *)

(** the integer nearest to [n / d], ties to the even one *)
Definition roundHalfEven (n d : Z) : Z :=
  let q := n / d in
  let r := n mod d in
  if (d <? 2 * r) || ((2 * r =? d) && Z.odd q) then q + 1 else q.

(** [n / d] over the power of two [2 ^ e], as a fraction *)
Definition scaled (n d e : Z) : Z * Z :=
  if e <? 0 then (n * 2 ^ (- e), d) else (n, d * 2 ^ e).

(** the exponent of the last bit of the double nearest to [n / d]: the
    significand has 53 bits, the exponent is not below that of the
    subnormal numbers *)
Definition exponentOf (n d : Z) : Z :=
  let k := Z.log2 n - Z.log2 d - 52 in
  let '(n', d') := scaled n d k in
  let k := if n' / d' <? 2 ^ 52 then k - 1 else k in
  Z.max k (- 1074).

(** the double nearest to a rational that is not negative; the values
    rounded here are at most 100, far from the largest double *)
Definition toDouble (x : Q) : Q :=
  let n := Qnum x in
  let d := Z.pos (Qden x) in
  if n <=? 0 then 0%Q
  else
    let e := exponentOf n d in
    let '(n', d') := scaled n d e in
    let m := roundHalfEven n' d' in
    if e <? 0 then Qmake m (Z.to_pos (2 ^ (- e))) else inject_Z (m * 2 ^ e).

(** [Math.round(x)]: the nearest integer, halves going up *)
Definition mathRound (x : Q) : Z := Qfloor (x + (1 # 2)).

Definition getStats (now : Z) (s : Limiter) : Stats :=
  let oneHourAgo := now - 3600000 in
  let recentSuccesses :=
    List.filter (fun timestamp => oneHourAgo <? timestamp) (successHistory s) in
  let recentFailures :=
    List.filter (fun entry => oneHourAgo <? timestamp entry) (failureHistory s) in
  let total := (length recentSuccesses + length recentFailures)%nat in
  let successRate :=
    match total with
    | O => 0%Q
    | _ => toDouble
             (inject_Z (Z.of_nat (length recentSuccesses)) / inject_Z (Z.of_nat total))
    end in
  {| statCurrentDelay := currentDelay s;
     statSuccessRate := mathRound (toDouble (successRate * 100));
     statRecentSuccesses := Z.of_nat (length recentSuccesses);
     statRecentFailures := Z.of_nat (length recentFailures);
     statRequestsInLastMinute := Z.of_nat (length (requests s));
     statAdaptiveEnabled := adaptiveEnabled s |}.

Definition reset (s : Limiter) : Limiter :=
  setCurrentDelay (minDelay s)
    (setFailureHistory [] (setSuccessHistory [] (setRequests [] s))).

(** a run of [waitForNextRequest] calls, each with its clock and calendar
    reads *)
Fixpoint waits (calls : list EnhancedScraper.WaitClock) (g : RNG) (s : Limiter)
  : Limiter * RNG :=
  match calls with
  | [] => (s, g)
  | c :: rest =>
      let '(s1, g1, _) :=
        waitForNextRequest (EnhancedScraper.now c) (EnhancedScraper.nowAfter c)
          (EnhancedScraper.hour c) (EnhancedScraper.dayOfWeek c) g s in
      waits rest g1 s1
  end.

End LimiterStats.

(** ** Image and news searches of the API client, and the fallback entry
    point of the enhanced scraper *)

Module ApiVariants.
Import GoogleApi.

Definition searchImages (today : string) (service : Service) (query : string) (limit : Z)
    (a : GoogleSearchAPI) : Result (list ApiResult) * GoogleSearchAPI * list Event :=
  search today service query limit [("searchType", "image"); ("safe", "active")] a.

Definition searchNews (today : string) (service : Service) (query : string) (limit : Z)
    (a : GoogleSearchAPI) : Result (list ApiResult) * GoogleSearchAPI * list Event :=
  search today service query limit [("tbm", "nws"); ("sort", "date")] a.

(** [EnhancedScraper.searchWithFallback]: the scraping function handed to
    the wrapper is the scraper's own [searchGoogle], which shares the API
    client with the wrapper *)
Definition searchWithFallback (this : EnhancedScraper.Flags)
    (clock : EnhancedScraper.WaitClock) (today : string) (service : Service)
    (query : string) (limit : Z) (g : AdaptiveRateLimiter.RNG)
    (limiter : AdaptiveRateLimiter.Limiter) (a : GoogleSearchAPI)
  : Result SearchOutcome * AdaptiveRateLimiter.Limiter * AdaptiveRateLimiter.RNG
    * GoogleSearchAPI * list Event :=
  let '(_, limiter1, g1, _, _) :=
    EnhancedScraper.searchGoogle this clock today service query limit g limiter a in
  if EnhancedScraper.useApiFallback this then
    let scrape : ScrapingFunction :=
      fun q l api =>
        let '(r, _, _, api', ev) :=
          EnhancedScraper.searchGoogle this clock today service q l g limiter api in
        (r, api', ev) in
    let '(r, a', ev) := searchWithApiFallback today service query limit scrape a in
    (r, limiter1, g1, a', ev)
  else
    let '(r, _, _, a', ev) :=
      EnhancedScraper.searchGoogle this clock today service query limit g limiter a in
    (match r with
     | Return v =>
         Return {| results := match resultsOf v with Some rs => rs | None => [] end;
                   searchEngine := engineOf v;
                   outcomeSource := "enhanced_api_scraping" |}
     | Throw m => Throw m
     end, limiter1, g1, a', ev).

End ApiVariants.

(** ** Browser contexts behind a proxy *)

Module ProxyContext.
Import ProxyRotation.

Record ProxySettings : Type := {
  settingsServer : string;
  settingsUsername : option string;
  settingsPassword : option string
}.

(** the options that vary; locale, time zone and permissions are constants *)
Record ContextOptions : Type := {
  viewportWidth : Z;
  viewportHeight : Z;
  proxyOption : option ProxySettings
}.

(** [browser.newContext(options)]: [None] when the context is created,
    the message of the error otherwise *)
Definition NewContext : Type := ContextOptions -> option string.

Definition selected (s : Selection) : Proxy :=
  match s with
  | FromEnvironment p => p
  | FromPool c => proxy c
  end.

Definition withoutProxy (o : ContextOptions) : ContextOptions :=
  {| viewportWidth := viewportWidth o; viewportHeight := viewportHeight o;
     proxyOption := None |}.

(** Returns the options of the context created and the proxy in use,
    the tracking maps, the generator, and the options of every
    [newContext] call in order. [now] is read by the selection,
    [nowFailure] by the failure report. *)
Definition createProxyContext (env : ProcessEnv) (pools : Pools) (newContext : NewContext)
    (given : option Proxy) (now nowFailure : Z) (g : AdaptiveRateLimiter.RNG) (st : Tracking)
  : Result (ContextOptions * option Proxy) * Tracking * AdaptiveRateLimiter.RNG
    * list ContextOptions :=
  let '(proxy, st1) :=
    match given with
    | Some p => (Some p, st)
    | None =>
        let '(sel, st') := selectHealthyProxy env pools "any" now st in
        (option_map selected sel, st')
    end in
  let '(r1, g1) := AdaptiveRateLimiter.random g in
  let '(r2, g2) := AdaptiveRateLimiter.random g1 in
  let contextOptions :=
    {| viewportWidth := 1366 + Qfloor (r1 * 100);
       viewportHeight := 768 + Qfloor (r2 * 100);
       proxyOption :=
         match proxy with
         | Some p => Some {| settingsServer := server p;
                             settingsUsername := username p;
                             settingsPassword := password p |}
         | None => None
         end |} in
  match newContext contextOptions with
  | None => (Return (contextOptions, proxy), st1, g2, [contextOptions])
  | Some message =>
      match proxy with
      | Some p =>
          let st2 := reportProxyFailure (Some p) nowFailure st1 in
          let direct := withoutProxy contextOptions in
          match newContext direct with
          | None => (Return (direct, None), st2, g2, [contextOptions; direct])
          | Some message' => (Throw message', st2, g2, [contextOptions; direct])
          end
      | None => (Throw message, st1, g2, [contextOptions])
      end
  end.

End ProxyContext.

(** ** Browser fingerprints and request headers *)

Module EnhancedHeaders.

Record Viewport : Type := { width : Z; height : Z }.
Record Screen : Type := { screenWidth : Z; screenHeight : Z; colorDepth : Z }.

Record Fingerprint : Type := {
  userAgent : string;
  viewport : Viewport;
  platform : string;
  acceptLanguage : string;
  acceptEncoding : string;
  referer : option string;
  dnt : option string;
  screenResolution : Screen
}.

Definition template (userAgent : string) (w h : Z) (platform acceptLanguage : string)
  : Fingerprint :=
  {| userAgent := userAgent;
     viewport := {| width := w; height := h |};
     platform := platform;
     acceptLanguage := acceptLanguage;
     acceptEncoding := "gzip, deflate, br";
     referer := Some "https://www.google.com/";
     dnt := None;
     screenResolution := {| screenWidth := w; screenHeight := h; colorDepth := 24 |} |}.

Definition browserFingerprints : list Fingerprint :=
  [ template "Mozilla/5.0 (Windows NT 10.0; Win64; x64) AppleWebKit/537.36 (KHTML, like Gecko) Chrome/122.0.0.0 Safari/537.36"
      1920 1080 "Win32" "en-US,en;q=0.9";
    template "Mozilla/5.0 (Macintosh; Intel Mac OS X 10_15_7) AppleWebKit/537.36 (KHTML, like Gecko) Chrome/122.0.0.0 Safari/537.36"
      1440 900 "MacIntel" "en-US,en;q=0.9";
    template "Mozilla/5.0 (X11; Linux x86_64) AppleWebKit/537.36 (KHTML, like Gecko) Chrome/122.0.0.0 Safari/537.36"
      1366 768 "Linux x86_64" "en-US,en;q=0.9";
    template "Mozilla/5.0 (Windows NT 10.0; Win64; x64; rv:123.0) Gecko/20100101 Firefox/123.0"
      1280 720 "Win32" "en-US,en;q=0.5";
    template "Mozilla/5.0 (Macintosh; Intel Mac OS X 10.15; rv:123.0) Gecko/20100101 Firefox/123.0"
      1680 1050 "MacIntel" "en-US,en;q=0.5" ].

(** [array[index]]: undefined outside the array *)
Definition at_ {A} (l : list A) (index : Z) : option A :=
  if index <? 0 then None else nth_error l (Z.to_nat index).

Definition getRandomFingerprint (g : AdaptiveRateLimiter.RNG)
  : Result Fingerprint * AdaptiveRateLimiter.RNG :=
  let '(r0, g0) := AdaptiveRateLimiter.random g in
  match at_ browserFingerprints
          (Qfloor (r0 * inject_Z (Z.of_nat (length browserFingerprints)))) with
  | None => (Throw "Cannot read properties of undefined (reading 'viewport')", g0)
  | Some baseFingerprint =>
      let '(r1, g1) := AdaptiveRateLimiter.random g0 in
      let '(r2, g2) := AdaptiveRateLimiter.random g1 in
      (Return {| userAgent := userAgent baseFingerprint;
                 viewport :=
                   {| width := width (viewport baseFingerprint) + Qfloor (r1 * 100) - 50;
                      height := height (viewport baseFingerprint) + Qfloor (r2 * 100) - 50 |};
                 platform := platform baseFingerprint;
                 acceptLanguage := acceptLanguage baseFingerprint;
                 acceptEncoding := acceptEncoding baseFingerprint;
                 referer := referer baseFingerprint;
                 dnt := dnt baseFingerprint;
                 screenResolution := screenResolution baseFingerprint |}, g2)
  end.

Definition quoted (s : string) : string := JS.dq +:+ s +:+ JS.dq.

Definition secChUa : string :=
  quoted "Chromium" +:+ ";v=" +:+ quoted "122" +:+ ", "
  +:+ quoted "Not(A:Brand" +:+ ";v=" +:+ quoted "24" +:+ ", "
  +:+ quoted "Google Chrome" +:+ ";v=" +:+ quoted "122".

Definition platformHint (platform : string) : string :=
  quoted (if JS.includes platform "Win" then "Windows"
          else if JS.includes platform "Mac" then "macOS" else "Linux").

(** the headers in insertion order *)
Definition generateHeaders (fingerprint : Fingerprint) (g : AdaptiveRateLimiter.RNG)
  : list (string * string) * AdaptiveRateLimiter.RNG :=
  let headers :=
    [ ("Accept", "text/html,application/xhtml+xml,application/xml;q=0.9,image/webp,image/apng,*/*;q=0.8,application/signed-exchange;v=b3;q=0.7");
      ("Accept-Language", acceptLanguage fingerprint);
      ("Accept-Encoding", acceptEncoding fingerprint);
      ("Connection", "keep-alive");
      ("Upgrade-Insecure-Requests", "1");
      ("Sec-Fetch-Dest", "document");
      ("Sec-Fetch-Mode", "navigate");
      ("Sec-Fetch-Site", "none");
      ("Sec-Fetch-User", "?1");
      ("Cache-Control", "max-age=0") ] in
  let headers :=
    if JS.truthyOpt (referer fingerprint)
    then GoogleApi.setKey "Referer" (JS.tpl (referer fingerprint)) headers else headers in
  let headers :=
    if JS.truthyOpt (dnt fingerprint)
    then GoogleApi.setKey "DNT" (JS.tpl (dnt fingerprint)) headers else headers in
  let '(r, g1) := AdaptiveRateLimiter.random g in
  let headers :=
    if AdaptiveRateLimiter.Qltb (1 # 2) r
    then GoogleApi.setKey "Sec-CH-UA-Platform" (platformHint (platform fingerprint))
           (GoogleApi.setKey "Sec-CH-UA-Mobile" "?0"
              (GoogleApi.setKey "Sec-CH-UA" secChUa headers))
    else headers in
  (headers, g1).

Record ContextOptions : Type := {
  optionsUserAgent : string;
  optionsViewport : Viewport;
  extraHTTPHeaders : list (string * string);
  optionsScreen : Screen
}.

(** [newContext] answers [None] when the context is created *)
Definition createStealthContext (newContext : ContextOptions -> option string)
    (fingerprint : option Fingerprint) (g : AdaptiveRateLimiter.RNG)
  : Result (ContextOptions * Fingerprint) * AdaptiveRateLimiter.RNG :=
  let '(chosen, g0) :=
    match fingerprint with
    | Some f => (Return f, g)
    | None => getRandomFingerprint g
    end in
  match chosen with
  | Throw m => (Throw m, g0)
  | Return f =>
      let '(headers, g1) := generateHeaders f g0 in
      let options :=
        {| optionsUserAgent := userAgent f;
           optionsViewport := viewport f;
           extraHTTPHeaders := headers;
           optionsScreen := screenResolution f |} in
      match newContext options with
      | None => (Return (options, f), g1)
      | Some m => (Throw m, g1)
      end
  end.

End EnhancedHeaders.

(** ** The authenticated LinkedIn scraper and its route *)

Module LinkedIn.

(** the fields of the scraper object; [browser], [context] and [page]
    are set or null *)
Record Scraper : Type := {
  browser : bool;
  context : bool;
  page : bool;
  isLoggedIn : bool
}.

Definition fresh : Scraper :=
  {| browser := false; context := false; page := false; isLoggedIn := false |}.

(** the calls made on the browser, in the order they are made *)
Inductive Step : Type :=
| LaunchBrowser
| NewContext
| NewPage
| GotoUrl (url : string)
| Fill (selector value : string)
| Click (selector : string)
| WaitForLogin (timeout : Z) (feedContainer : bool)
| Probe (selector : string)
| WaitForSelector (selector : string)
| Evaluate
| CloseBrowser.

Record ProfileData : Type := {
  name : string;
  title : string;
  about : string;
  experiences : list (string * string);
  profileUrl : string;
  scrapedAt : string
}.

(** What the browser and the site answer: the error a call rejects with
    if it does, whether a probed element exists, what the profile page
    evaluates to. *)
Record Site : Type := {
  answers : Step -> option string;
  present : string -> bool;
  profile : ProfileData
}.

(** Methods run on the scraper object, may throw, and leave a trace of
    browser calls. *)
Definition M (A : Type) : Type := Scraper -> Result A * Scraper * list Step.

Definition ret {A} (a : A) : M A := fun s => (Return a, s, []).
Definition throw {A} (message : string) : M A := fun s => (Throw message, s, []).

Definition bind {A B} (m : M A) (f : A -> M B) : M B :=
  fun s =>
    match m s with
    | (Return a, s1, t1) => let '(r, s2, t2) := f a s1 in (r, s2, t1 ++ t2)
    | (Throw e, s1, t1) => (Throw e, s1, t1)
    end.

Definition catch {A} (m : M A) (handler : string -> M A) : M A :=
  fun s =>
    match m s with
    | (Return a, s1, t1) => (Return a, s1, t1)
    | (Throw e, s1, t1) => let '(r, s2, t2) := handler e s1 in (r, s2, t1 ++ t2)
    end.

Definition get : M Scraper := fun s => (Return s, s, []).
Definition modify (f : Scraper -> Scraper) : M unit := fun s => (Return tt, f s, []).

Notation "x <- m ;; k" := (bind m (fun x => k))
  (at level 100, m at next level, right associativity).
Notation "m ;; k" := (bind m (fun _ => k))
  (at level 100, right associativity).

(** one awaited browser call *)
Definition call (site : Site) (step : Step) : M unit :=
  fun s => (match answers site step with
            | None => Return tt
            | Some e => Throw e
            end, s, [step]).

Definition setBrowser (s : Scraper) : Scraper :=
  {| browser := true; context := context s; page := page s; isLoggedIn := isLoggedIn s |}.
Definition setContext (s : Scraper) : Scraper :=
  {| browser := browser s; context := true; page := page s; isLoggedIn := isLoggedIn s |}.
Definition setPage (s : Scraper) : Scraper :=
  {| browser := browser s; context := context s; page := true; isLoggedIn := isLoggedIn s |}.
Definition setLoggedIn (s : Scraper) : Scraper :=
  {| browser := browser s; context := context s; page := page s; isLoggedIn := true |}.

Definition loginUrl : string := "https://www.linkedin.com/login".

Definition initialize (site : Site) : M unit :=
  call site LaunchBrowser ;; modify setBrowser ;;
  call site NewContext ;; modify setContext ;;
  call site NewPage ;; modify setPage.

Definition ensurePage (site : Site) : M unit :=
  s <- get ;; if page s then ret tt else initialize site.

Definition manualLogin (site : Site) : M unit :=
  ensurePage site ;;
  call site (GotoUrl loginUrl) ;;
  call site (WaitForLogin 300000 true) ;;
  modify setLoggedIn.

Definition captchaSelector : string :=
  "iframe[title*=" +:+ JS.dq +:+ "captcha" +:+ JS.dq +:+ "]".
Definition challengeSelector : string :=
  "[data-test-id=" +:+ JS.dq +:+ "challenge" +:+ JS.dq +:+ "]".
Definition submitSelector : string :=
  "button[type=" +:+ JS.dq +:+ "submit" +:+ JS.dq +:+ "]".

(** [page.$(selector)]: whether the element exists *)
Definition probe (site : Site) (selector : string) : M bool :=
  call site (Probe selector) ;; ret (present site selector).

Definition automaticLogin (site : Site) (email password : string) : M unit :=
  ensurePage site ;;
  call site (GotoUrl loginUrl) ;;
  call site (Fill "#username" email) ;;
  call site (Fill "#password" password) ;;
  call site (Click submitSelector) ;;
  catch (call site (WaitForLogin 30000 true) ;; modify setLoggedIn)
    (fun error =>
       hasCaptcha <- probe site captchaSelector ;;
       has2FA <- probe site challengeSelector ;;
       if hasCaptcha || has2FA
       then call site (WaitForLogin 300000 false) ;; modify setLoggedIn
       else throw ("Login failed: " +:+ error)).

Definition scrapeProfile (site : Site) (url : string) : M ProfileData :=
  s <- get ;;
  if negb (isLoggedIn s)
  then throw "Not logged in. Call manualLogin() or automaticLogin() first."
  else
    call site (GotoUrl url) ;;
    call site (WaitForSelector "h1") ;;
    call site Evaluate ;;
    ret (profile site).

Definition close (site : Site) : M unit :=
  s <- get ;;
  if browser s
  then call site CloseBrowser ;; modify (fun _ => fresh)
  else ret tt.

(** a scalar of the JSON request body *)
Inductive Json : Type :=
| JNull
| JBool (b : bool)
| JNumber (n : Z)
| JString (s : string).

Definition truthy (v : Json) : bool :=
  match v with
  | JNull => false
  | JBool b => b
  | JNumber n => negb (n =? 0)
  | JString s => JS.truthy s
  end.

Record RequestBody : Type := {
  url : option string;
  email : option string;
  password : option string;
  manual : option Json
}.

Inductive ResponseBody : Type :=
| BadRequest (error : string)
| Scraped (data : ProfileData) (method warning extractedAt : string)
| Failed (error message suggestion : string).

Record Response : Type := { status : Z; body : ResponseBody }.

(** [POST /linkedin/scrape]; the scraper is created after validation and
    closed in the [finally] block. Returns the response, the scraper
    object as the handler leaves it, and the browser calls made. *)
Definition postScrape (site : Site) (extractedAt : string) (req : RequestBody)
  : Response * option Scraper * list Step :=
  let manual := match manual req with Some v => truthy v | None => false end in
  if negb (JS.truthyOpt (url req)) then
    ({| status := 400; body := BadRequest "LinkedIn URL is required" |}, None, [])
  else if negb manual && (negb (JS.truthyOpt (email req)) || negb (JS.truthyOpt (password req))) then
    ({| status := 400;
        body := BadRequest "Email and password required for automatic login, or set manual=true" |},
     None, [])
  else
    let handler : M ProfileData :=
      (if manual then manualLogin site
       else automaticLogin site (JS.tpl (email req)) (JS.tpl (password req))) ;;
      scrapeProfile site (JS.tpl (url req)) in
    let '(r, s1, t1) := handler fresh in
    let response :=
      match r with
      | Return profileData =>
          {| status := 200;
             body := Scraped profileData
                       (if manual then "manual-login" else "automatic-login")
                       "The profile owner may see that you viewed their profile"
                       extractedAt |}
      | Throw message =>
          {| status := 500;
             body := Failed "LinkedIn scraping failed" message
                       "Try manual login mode or check credentials" |}
      end in
    let '(_, s2, t2) := close site s1 in
    (response, Some s2, t1 ++ t2).

Definition isClose (step : Step) : bool :=
  match step with CloseBrowser => true | _ => false end.
Definition isLaunch (step : Step) : bool :=
  match step with LaunchBrowser => true | _ => false end.

(** how often the browser is closed, and launched, in a trace *)
Definition closes (steps : list Step) : nat := length (List.filter isClose steps).
Definition launches (steps : list Step) : nat := length (List.filter isLaunch steps).

End LinkedIn.

(** ** The result extraction of the DuckDuckGo search *)

Module DuckParser.
Import ResultParser.

Definition containerSelectors : list string :=
  [ "[data-result=" +:+ JS.dq +:+ "result" +:+ JS.dq +:+ "]";
    "[data-testid=" +:+ JS.dq +:+ "result" +:+ JS.dq +:+ "]";
    ".result"; ".web-result";
    "[data-layout=" +:+ JS.dq +:+ "organic" +:+ JS.dq +:+ "]" ].

Definition titleSelectors : list string :=
  [ "h2 a"; ".result__title a"; "h3 a";
    "[data-testid=" +:+ JS.dq +:+ "result-title-a" +:+ JS.dq +:+ "]";
    "a[data-testid=" +:+ JS.dq +:+ "result-title-a" +:+ JS.dq +:+ "]" ].

Definition snippetSelectors : list string :=
  [ ".result__snippet"; ".result__body";
    "[data-result=" +:+ JS.dq +:+ "snippet" +:+ JS.dq +:+ "]"; ".result-snippet" ].

Section WithUrlParser.

(** [new URL(link).hostname], or the error the constructor throws *)
Variable hostnameOf : string -> Result string.

(** body of the loop for the container at index [i]: nothing pushed, a
    result pushed, or the URL constructor throwing *)
Definition extractOne (i : Z) (el : Element) : Result (option SearchResult) :=
  match firstMatch el titleSelectors None with
  | Some titleElement =>
      let title := JS.trim (textContent titleElement) in
      let link := href titleElement in
      let snippet :=
        match firstMatch el snippetSelectors None with
        | Some snippetElement => JS.trim (textContent snippetElement)
        | None => EmptyString
        end in
      if JS.truthy title && JS.truthy link then
        match hostnameOf link with
        | Return host =>
            Return (Some {| title := title; link := link; snippet := snippet;
                            displayUrl := host; position := i + 1;
                            source := Some "DuckDuckGo" |})
        | Throw m => Throw m
        end
      else Return None
  | None => Return None
  end.

Fixpoint extractLoop (i : Z) (els : list Element) : Result (list SearchResult) :=
  match els with
  | [] => Return []
  | el :: rest =>
      match extractOne i el with
      | Throw m => Throw m
      | Return found =>
          match extractLoop (i + 1) rest with
          | Throw m => Throw m
          | Return more =>
              Return (match found with Some r => r :: more | None => more end)
          end
      end
  end.

Definition extractResults (doc : Document) (maxResults : Z) : Result (list SearchResult) :=
  let resultElements := findContainers doc containerSelectors [] in
  let bound := Z.min (Z.of_nat (length resultElements)) maxResults in
  extractLoop 0 (firstn (Z.to_nat bound) resultElements).

(** the tail of [searchDuckDuckGo]: the extraction runs inside the
    [try], whose [catch] wraps every error *)
Definition extractOrFail (doc : Document) (limit : Z) : Result (list SearchResult) :=
  match extractResults doc limit with
  | Return results => Return results
  | Throw m => Throw ("DuckDuckGo search failed: " +:+ m)
  end.

End WithUrlParser.

End DuckParser.

(** ** Counting the events of a trace *)

Module Traces.

Definition engineEqb (a b : Engine) : bool :=
  match a, b with
  | Google, Google | DuckDuckGo, DuckDuckGo | GoogleAPI, GoogleAPI => true
  | _, _ => false
  end.

Definition isAttempt (e : Engine) (ev : Event) : bool :=
  match ev with Attempt e' => engineEqb e e' | _ => false end.
Definition isLaunch (ev : Event) : bool :=
  match ev with Launch => true | _ => false end.
Definition isFetch (ev : Event) : bool :=
  match ev with Fetch _ => true | _ => false end.

Definition attempts (e : Engine) (events : list Event) : nat :=
  length (List.filter (isAttempt e) events).
Definition launches (events : list Event) : nat :=
  length (List.filter isLaunch events).
Definition fetches (events : list Event) : nat :=
  length (List.filter isFetch events).

End Traces.

(** ** Order of the sorted candidates *)

Module ProxyOrder.
Import ProxyRotation.

(** no candidate of the list was used longer ago than its head *)
Definition headIsLeastUsed (l : list Candidate) : Prop :=
  match l with
  | [] => True
  | c :: rest => Forall (fun d => lastUsed c <= lastUsed d) rest
  end.

End ProxyOrder.

(** ** The shapes of an extraction outcome *)

Module Outcomes.
Import Extraction.

(** the advisory of the short circuit, the advisory of a blocked
    LinkedIn page, the advisory of an empty page of a named platform, or
    the content of the page *)
Definition outcomeShape (fullPage : bool) (url : string) (content : Content)
    (events : list Event) : Prop :=
  (extractionType content = "authentication-required"
   /\ contentPlatform content = Some "linkedin"
   /\ loginRequired content = None /\ isEmpty content = None /\ events = [])
  \/ (extractionType content = "authentication-blocked"
      /\ contentPlatform content = Some "linkedin"
      /\ loginRequired content = Some true /\ isEmpty content = None
      /\ events = [Launch; Goto url])
  \/ (extractionType content = "empty-content"
      /\ (exists p, contentPlatform content = Some p /\ p <> "general" /\ JS.truthy p = true)
      /\ loginRequired content = None /\ isEmpty content = Some true
      /\ events = [Launch; Goto url])
  \/ (extractionType content = (if fullPage then "full-page" else "main-content")
      /\ contentPlatform content = None
      /\ loginRequired content = None /\ isEmpty content = None
      /\ events = [Launch; Goto url]).

End Outcomes.

(** ** Calls that overlap

    [searchGoogle] of the environment-aware scraper checks the shared
    tracker, may then sleep (an [await]), and records its request only
    after the sleep; [GoogleSearchAPI.search] checks the quota, awaits the
    answer, and counts the request only when the JSON body has arrived.
    Between the check and the record other calls can run. A schedule
    lists the steps of all calls in the order they happen. *)

Module Overlap.

(** *** The request tracker *)

(** A call that was let in and need not sleep does its two steps in a
    row; one that sleeps lets the steps of other calls in between. *)
Inductive Phase : Type :=
| Enter (tCheck : Z)     (* [canMakeRequest()] of a call *)
| Record (tAdd : Z).     (* [addRequest()] of a call that was let in *)

(** the module-level tracker and the number of calls that were let in
    and have not recorded their request yet *)
Record Shared : Type := { shared : Scraper.RequestTracker; waiting : nat }.

Definition step (p : Phase) (s : Shared) : Shared :=
  match p with
  | Enter t =>
      let '(allowed, tracker1) := Scraper.canMakeRequest t (shared s) in
      {| shared := tracker1; waiting := if allowed then S (waiting s) else waiting s |}
  | Record t =>
      match waiting s with
      | O => s
      | S n => {| shared := Scraper.addRequest t (shared s); waiting := n |}
      end
  end.

Definition run (schedule : list Phase) (s : Shared) : Shared :=
  fold_left (fun s p => step p s) schedule s.

(** the largest number of calls waiting at the same time *)
Fixpoint peak (schedule : list Phase) (s : Shared) : nat :=
  match schedule with
  | [] => waiting s
  | p :: rest => Nat.max (waiting s) (peak rest (step p s))
  end.

Definition start (tracker : Scraper.RequestTracker) : Shared :=
  {| shared := tracker; waiting := 0 |}.

(** *** The API client *)

Inductive ApiPhase : Type :=
| Check (today : string)   (* [isWithinLimits()] called by a wrapper *)
| Begin (today : string)   (* entry of [search]: configuration and quota checks *)
| Answer                   (* the JSON body of a pending search arrives *)
| Fail.                    (* a pending search fails before that *)

Record SharedApi : Type := { client : GoogleApi.GoogleSearchAPI; pending : nat }.

Definition stepApi (p : ApiPhase) (s : SharedApi) : SharedApi :=
  match p with
  | Check today =>
      {| client := snd (GoogleApi.isWithinLimits today (client s)); pending := pending s |}
  | Begin today =>
      if GoogleApi.isConfigured (client s) then
        let '(within, a1) := GoogleApi.isWithinLimits today (client s) in
        {| client := a1; pending := if within then S (pending s) else pending s |}
      else s
  | Answer =>
      match pending s with
      | O => s
      | S n =>
          {| client := GoogleApi.setCount (GoogleApi.requestCount (client s) + 1)
                         (GoogleApi.lastResetDate (client s)) (client s);
             pending := n |}
      end
  | Fail =>
      match pending s with
      | O => s
      | S n => {| client := client s; pending := n |}
      end
  end.

Definition runApi (schedule : list ApiPhase) (s : SharedApi) : SharedApi :=
  fold_left (fun s p => stepApi p s) schedule s.

Fixpoint peakApi (schedule : list ApiPhase) (s : SharedApi) : nat :=
  match schedule with
  | [] => pending s
  | p :: rest => Nat.max (pending s) (peakApi rest (stepApi p s))
  end.

Definition startApi (a : GoogleApi.GoogleSearchAPI) : SharedApi :=
  {| client := a; pending := 0 |}.

(** the steps of one [search] that no other call interrupts *)
Definition phasesOf (today : string) (outcome : GoogleApi.FetchOutcome) : list ApiPhase :=
  [Begin today; match outcome with GoogleApi.Json _ => Answer | _ => Fail end].

End Overlap.

(** ** Further inputs for worked examples *)

Module MoreExamples.

Definition failingService : GoogleApi.Service :=
  fun _ => GoogleApi.NotOk 503 "Service Unavailable" "backend error".

Definition emptyService : GoogleApi.Service :=
  fun _ => GoogleApi.Json {| GoogleApi.error := None; GoogleApi.items := None |}.

(** the client of the examples with its quota used up *)
Definition spentApi : GoogleApi.GoogleSearchAPI :=
  GoogleApi.setCount 100 "Tue Nov 03 2026" Examples.configuredApi.

Definition unconfiguredApi : GoogleApi.GoogleSearchAPI :=
  GoogleApi.new Examples.localEnv "Tue Nov 03 2026".

Definition morning : EnhancedScraper.WaitClock :=
  {| EnhancedScraper.now := 1000; EnhancedScraper.nowAfter := 4000;
     EnhancedScraper.hour := 10; EnhancedScraper.dayOfWeek := 2 |}.

(** a site where every browser call succeeds and no challenge
    shows up *)
Definition openSite : LinkedIn.Site :=
  {| LinkedIn.answers := fun _ => None;
     LinkedIn.present := fun _ => false;
     LinkedIn.profile :=
       {| LinkedIn.name := "Alice"; LinkedIn.title := "Engineer";
          LinkedIn.about := EmptyString; LinkedIn.experiences := [];
          LinkedIn.profileUrl := "https://www.linkedin.com/in/alice/";
          LinkedIn.scrapedAt := "2026-11-03T00:00:00.000Z" |} |}.

Definition manualRequest : LinkedIn.RequestBody :=
  {| LinkedIn.url := Some "https://www.linkedin.com/in/alice/";
     LinkedIn.email := None; LinkedIn.password := None;
     LinkedIn.manual := Some (LinkedIn.JBool true) |}.

(** a DuckDuckGo page with two results, the second with a link the URL
    constructor refuses *)
Definition duckEntry (name target : string) : ResultParser.Element :=
  [("h2 a", {| ResultParser.textContent := name; ResultParser.href := target |})].

Definition duckPage : ResultParser.Document :=
  [(".result", [duckEntry "First" "https://example.com/1"; duckEntry "Second" "http://"])].

Definition hostnameOf (link : string) : Result string :=
  match PlainUrl.parse link with
  | Some u => Return (Extraction.hostname u)
  | None => Throw "Failed to construct 'URL': Invalid URL"
  end.

(** a service that ignores [num] and answers every request with eleven
    items *)
Definition generousService : GoogleApi.Service :=
  fun _ => GoogleApi.Json {| GoogleApi.error := None;
                            GoogleApi.items := Some (repeat Examples.anItem 11) |}.

End MoreExamples.

(** * Properties *)

(** ** Result parser *)

Section ParserFacts.
Import ResultParser.

Lemma extractOne_position i el r :
  extractOne i el = Some r -> position r = i + 1 /\ selfReferential (link r) = false.
Proof.
  unfold extractOne.
  destruct (firstMatch el titleSelectors None) as [t|]; [|discriminate].
  destruct (findLink el linkSelectors None) as [l|]; [|discriminate].
  destruct (JS.truthy (JS.trim (textContent t)) && JS.truthy (href l)
            && negb (selfReferential (href l))) eqn:E; [|discriminate].
  intros [= <-]. cbn. split; [reflexivity|].
  apply andb_prop in E as [_ E]. now apply negb_true_iff in E.
Qed.

Lemma extractLoop_length i els : (length (extractLoop i els) <= length els)%nat.
Proof.
  revert i. induction els as [|el els IH]; intros i; cbn; [lia|].
  destruct (extractOne i el); cbn; specialize (IH (i + 1)); lia.
Qed.

(** every result comes from the container whose index is its position
    minus one *)
Lemma extractLoop_origin i els r :
  In r (extractLoop i els) ->
  exists k el, nth_error els k = Some el /\ extractOne (i + Z.of_nat k) el = Some r.
Proof.
  revert i. induction els as [|el els IH]; intros i; cbn; [tauto|].
  destruct (extractOne i el) as [r0|] eqn:E.
  - intros [<-|Hin].
    + exists 0%nat, el. cbn. now rewrite Z.add_0_r.
    + destruct (IH _ Hin) as (k & el' & Hk & He).
      exists (S k), el'. cbn. split; [assumption|].
      now replace (i + Z.of_nat (S k)) with (i + 1 + Z.of_nat k) by lia.
  - intros Hin. destruct (IH _ Hin) as (k & el' & Hk & He).
    exists (S k), el'. cbn. split; [assumption|].
    now replace (i + Z.of_nat (S k)) with (i + 1 + Z.of_nat k) by lia.
Qed.

Lemma extractLoop_above i els :
  Forall (fun r => i < position r) (extractLoop i els).
Proof.
  revert i. induction els as [|el els IH]; intros i; cbn; [constructor|].
  assert (Forall (fun r => i < position r) (extractLoop (i + 1) els)) as Hrest.
  { eapply List.Forall_impl; [|apply IH]. cbn. intros; lia. }
  destruct (extractOne i el) as [r0|] eqn:E; [|assumption].
  constructor; [|assumption].
  apply extractOne_position in E as [-> _]. lia.
Qed.

Lemma extractLoop_increasing i els :
  StronglySorted Z.lt (map position (extractLoop i els)).
Proof.
  revert i. induction els as [|el els IH]; intros i; cbn; [constructor|].
  destruct (extractOne i el) as [r0|] eqn:E; [|apply IH].
  cbn. constructor; [apply IH|].
  apply extractOne_position in E as [-> _].
  apply List.Forall_map. apply extractLoop_above.
Qed.

Lemma extractLoop_all i els :
  (forall k el, nth_error els k = Some el -> extractOne (i + Z.of_nat k) el <> None) ->
  map position (extractLoop i els)
  = map (fun k => i + Z.of_nat k + 1) (seq 0 (length els)).
Proof.
  revert i. induction els as [|el els IH]; intros i Hall; cbn; [reflexivity|].
  destruct (extractOne i el) as [r0|] eqn:E.
  - cbn. apply extractOne_position in E as [-> _]. f_equal; [lia|].
    rewrite IH.
    + rewrite <- seq_shift, map_map. apply map_ext. intros k. lia.
    + intros k el' Hk. specialize (Hall (S k) el' Hk).
      now replace (i + 1 + Z.of_nat k) with (i + Z.of_nat (S k)) by lia.
  - exfalso. apply (Hall 0%nat el); [reflexivity|]. now rewrite Z.add_0_r.
Qed.

End ParserFacts.

(** C3 (amended). For every results page and every requested limit, the
    list returned by the extraction holds at most [limit] results; the
    position of a result is the 1-based index of the container it was read
    from (so positions increase strictly and lie in 1..limit, with a gap
    wherever a container was skipped); no returned link contains the path
    of the engine's own results page. When the page has at least [limit]
    containers and each of the first [limit] yields a result, the list has
    exactly [limit] results and their positions are 1..limit. *)
Theorem C3_results_capped_positions_follow_containers
    (doc : ResultParser.Document) (limit : Z) :
  let containers := ResultParser.findContainers doc ResultParser.containerSelectors [] in
  let results := ResultParser.extractResults doc limit in
  Z.of_nat (length results) <= Z.max 0 limit
  /\ StronglySorted Z.lt (map ResultParser.position results)
  /\ Forall (fun r =>
               1 <= ResultParser.position r <= limit
               /\ (exists el,
                      nth_error containers (Z.to_nat (ResultParser.position r - 1)) = Some el
                      /\ ResultParser.extractOne (ResultParser.position r - 1) el = Some r)
               /\ JS.includes (ResultParser.link r) "google.com/search" = false) results
  /\ (0 <= limit <= Z.of_nat (length containers) ->
      (forall k el, Z.of_nat k < limit -> nth_error containers k = Some el ->
                    ResultParser.extractOne (Z.of_nat k) el <> None) ->
      Z.of_nat (length results) = limit
      /\ map ResultParser.position results = map Z.of_nat (seq 1 (Z.to_nat limit))).
Proof.
  intros containers results. unfold results, ResultParser.extractResults.
  fold containers.
  set (n := Z.to_nat (Z.min (Z.of_nat (length containers)) limit)).
  assert (Hn : (n <= length containers)%nat) by (unfold n; lia).
  split; [|split; [|split; [|intros Hlim Hall; split]]].
  - pose proof (extractLoop_length 0 (firstn n containers)) as Hlen.
    pose proof (firstn_le_length n containers). unfold n in *. lia.
  - apply extractLoop_increasing.
  - apply List.Forall_forall. intros r Hin.
    apply extractLoop_origin in Hin as (k & el & Hk & He).
    rewrite nth_error_firstn in Hk.
    destruct (Nat.ltb_spec k n) as [Hlt|]; [|discriminate].
    pose proof (extractOne_position _ _ _ He) as [Hpos Hself].
    rewrite Hpos. replace (0 + Z.of_nat k + 1 - 1) with (Z.of_nat k) by lia.
    rewrite Nat2Z.id. rewrite Z.add_0_l in He.
    split; [unfold n in Hlt; lia|].
    split; [exists el; split; assumption|exact Hself].
  - assert (E : map ResultParser.position (ResultParser.extractLoop 0 (firstn n containers))
                = map Z.of_nat (seq 1 (Z.to_nat limit))).
    { rewrite extractLoop_all.
      - rewrite length_firstn. replace (Nat.min n (length containers)) with (Z.to_nat limit)
          by (unfold n; lia).
        rewrite <- seq_shift, map_map. apply map_ext. intros k. lia.
      - intros k el Hk. rewrite nth_error_firstn in Hk.
        destruct (Nat.ltb_spec k n) as [Hlt|]; [|discriminate].
        cbn. apply Hall; [unfold n in Hlt; lia|assumption]. }
    apply (f_equal (@length Z)) in E. rewrite !length_map, length_seq in E. lia.
  - rewrite extractLoop_all.
    + rewrite length_firstn. replace (Nat.min n (length containers)) with (Z.to_nat limit)
        by (unfold n; lia).
      rewrite <- seq_shift, map_map. apply map_ext. intros k. lia.
    + intros k el Hk. rewrite nth_error_firstn in Hk.
      destruct (Nat.ltb_spec k n) as [Hlt|]; [|discriminate].
      cbn. apply Hall; [unfold n in Hlt; lia|assumption].
Qed.

(** Seven clean containers and a limit of five give exactly five results
    at positions 1..5. *)
Lemma C3_witness_clean_page :
  Z.of_nat (length (ResultParser.extractResults Examples.sevenCleanHits 5)) = 5
  /\ map ResultParser.position (ResultParser.extractResults Examples.sevenCleanHits 5)
     = map Z.of_nat (seq 1 (Z.to_nat 5)).
Proof.
  apply (C3_results_capped_positions_follow_containers Examples.sevenCleanHits 5).
  - cbn. lia.
  - intros k el Hk Hnth.
    do 5 (destruct k as [|k]; [injection Hnth as <-; discriminate|]).
    lia.
Defined.

(** C3 as stated fails: seven raw hits and a limit of five, where the
    second container links back to the engine's results page. Four results
    come back, at positions 1, 3, 4, 5, and one of them points into the
    engine's domain. *)
Lemma C3_counterexample_skipped_container :
  let containers :=
    ResultParser.findContainers Examples.sevenHits ResultParser.containerSelectors [] in
  let results := ResultParser.extractResults Examples.sevenHits 5 in
  length containers = 7%nat
  /\ length results = 4%nat
  /\ map ResultParser.position results = [1; 3; 4; 5]
  /\ map ResultParser.link results
     = ["https://example.com/1"; "https://example.com/3";
        "https://maps.google.com/maps?q=example"; "https://example.com/5"].
Proof. repeat split. Qed.

(** ** Rate limiting *)

Section RateLimitFacts.

Lemma filter_window_elapsed now (l : list Z) :
  (forall t, In t l -> t + 60000 <= now) ->
  List.filter (fun timestamp => now - 60000 <? timestamp) l = [].
Proof.
  induction l as [|t l IH]; intros Hall; cbn; [reflexivity|].
  destruct (Z.ltb_spec (now - 60000) t) as [Hlt|Hge].
  - specialize (Hall t (or_introl eq_refl)). lia.
  - apply IH. intros t' Hin. apply Hall. now right.
Qed.

Lemma adaptDelay_requests s :
  AdaptiveRateLimiter.requests (AdaptiveRateLimiter.adaptDelayBasedOnHistory s)
  = AdaptiveRateLimiter.requests s.
Proof.
  unfold AdaptiveRateLimiter.adaptDelayBasedOnHistory.
  destruct (negb (AdaptiveRateLimiter.adaptiveEnabled s)); [reflexivity|].
  destruct (AdaptiveRateLimiter.successRate s) as [rate|]; [|reflexivity].
  destruct (AdaptiveRateLimiter.Qltb rate (7 # 10)); [reflexivity|].
  destruct (AdaptiveRateLimiter.Qltb (9 # 10) rate
            && AdaptiveRateLimiter.Qltb (AdaptiveRateLimiter.minDelay s)
                 (AdaptiveRateLimiter.currentDelay s)); reflexivity.
Qed.

(** both deployment configurations allow at least one request a minute,
    and [searchGoogle] never changes the limit *)
Lemma configured_limit_positive env :
  0 < Scraper.maxRequestsPerMinute (Scraper.initialTracker env).
Proof.
  unfold Scraper.initialTracker, RailwayConfig.getCurrentConfig.
  destruct (RailwayConfig.isRailway env); reflexivity.
Qed.

Lemma searchGoogle_keeps_limit clock session limit tracker :
  Scraper.maxRequestsPerMinute (snd (fst (Scraper.searchGoogle clock session limit tracker)))
  = Scraper.maxRequestsPerMinute tracker.
Proof.
  unfold Scraper.searchGoogle, Scraper.canMakeRequest.
  cbn [Scraper.requests Scraper.setRequests Scraper.maxRequestsPerMinute].
  destruct (negb _); [reflexivity|].
  destruct session; reflexivity.
Qed.

End RateLimitFacts.

(** C1 (amended). In the scraper guarded by the request tracker, for every
    configured maxRequestsPerMinute = N, an attempt begun while at least N
    timestamps lie inside the 60-second window is refused with the
    rate-limit error: nothing is awaited, no browser is launched, no
    timestamp is recorded. With N above zero, an attempt made once every
    recorded timestamp is 60 seconds old or older proceeds: the browser is
    launched and the attempt is recorded. The adaptive limiter does not
    refuse: with its window full, [waitForNextRequest] waits 60 seconds and
    returns to its caller; after the window has elapsed it records the
    attempt. *)
Theorem C1_tracker_refuses_adaptive_limiter_delays :
  (forall clock session limit tracker,
      Scraper.maxRequestsPerMinute tracker
      <= Z.of_nat (length (List.filter (fun ts => Scraper.tCheck clock - 60000 <? ts)
                                       (Scraper.requests tracker))) ->
      Scraper.searchGoogle clock session limit tracker
      = (Throw Scraper.rateLimitMessage,
         Scraper.setRequests
           (List.filter (fun ts => Scraper.tCheck clock - 60000 <? ts)
                        (Scraper.requests tracker)) tracker,
         [Attempt Google]))
  /\ (forall clock session limit tracker,
         0 < Scraper.maxRequestsPerMinute tracker ->
         (forall t, In t (Scraper.requests tracker) -> t + 60000 <= Scraper.tCheck clock) ->
         snd (Scraper.searchGoogle clock session limit tracker) = [Attempt Google; Launch]
         /\ Scraper.requests (snd (fst (Scraper.searchGoogle clock session limit tracker)))
            = [Scraper.tAdd clock])
  /\ (forall now nowAfter hour dayOfWeek g limiter,
         AdaptiveRateLimiter.maxRequestsPerMinute limiter
         <= Z.of_nat (length (List.filter (fun ts => now - 60000 <? ts)
                                          (AdaptiveRateLimiter.requests limiter))) ->
         snd (AdaptiveRateLimiter.waitForNextRequest now nowAfter hour dayOfWeek g limiter)
         = [Sleep 60000%Q])
  /\ (forall now nowAfter hour dayOfWeek g limiter,
         0 < AdaptiveRateLimiter.maxRequestsPerMinute limiter ->
         (forall t, In t (AdaptiveRateLimiter.requests limiter) -> t + 60000 <= now) ->
         AdaptiveRateLimiter.requests
           (fst (fst (AdaptiveRateLimiter.waitForNextRequest
                        now nowAfter hour dayOfWeek g limiter)))
         = [nowAfter]).
Proof.
  split; [|split; [|split]].
  - intros clock session limit tracker Hfull.
    unfold Scraper.searchGoogle, Scraper.canMakeRequest. cbn.
    destruct (Z.ltb_spec
                (Z.of_nat (length (List.filter (fun ts => Scraper.tCheck clock - 60000 <? ts)
                                               (Scraper.requests tracker))))
                (Scraper.maxRequestsPerMinute tracker)) as [Hlt|Hge]; [lia|reflexivity].
  - intros clock session limit tracker Hpos Helapsed.
    unfold Scraper.searchGoogle, Scraper.canMakeRequest. cbn.
    rewrite (filter_window_elapsed _ _ Helapsed). cbn.
    destruct (Z.ltb_spec (Z.of_nat 0) (Scraper.maxRequestsPerMinute tracker)) as [_|];
      [|cbn in *; lia]. cbn.
    destruct session; cbn; split; reflexivity.
  - intros now nowAfter hour dayOfWeek g limiter Hfull.
    unfold AdaptiveRateLimiter.waitForNextRequest, AdaptiveRateLimiter.canMakeRequest. cbn.
    destruct (Z.ltb_spec
                (Z.of_nat (length (List.filter (fun ts => now - 60000 <? ts)
                                               (AdaptiveRateLimiter.requests limiter))))
                (AdaptiveRateLimiter.maxRequestsPerMinute limiter)) as [Hlt|Hge];
      [lia|reflexivity].
  - intros now nowAfter hour dayOfWeek g limiter Hpos Helapsed.
    unfold AdaptiveRateLimiter.waitForNextRequest.
    destruct (AdaptiveRateLimiter.canMakeRequest now limiter) as [allowed s1] eqn:Ec.
    unfold AdaptiveRateLimiter.canMakeRequest in Ec.
    rewrite (filter_window_elapsed _ _ Helapsed) in Ec. cbn in Ec.
    injection Ec as Ha Hs. change (Z.of_nat 0) with 0 in Ha.
    destruct (Z.ltb_spec 0 (AdaptiveRateLimiter.maxRequestsPerMinute limiter)) as [_|]; [|lia].
    subst allowed. cbn [negb].
    destruct (AdaptiveRateLimiter.getNextDelay hour dayOfWeek g s1) as [delay g1].
    cbn [fst snd]. rewrite adaptDelay_requests. subst s1. reflexivity.
Qed.

(** The tracker of a development deployment (N = 2) refuses a third
    attempt at 10 s and lets one through at 70 s; the adaptive limiter
    (N = 3) delays a fourth attempt at 10 s and records one at 70 s. *)
Lemma C1_witness_both_limiters :
  let early := {| Scraper.tCheck := 10000; Scraper.tWait := 10000; Scraper.tAdd := 10000 |} in
  let late := {| Scraper.tCheck := 70000; Scraper.tWait := 70000; Scraper.tAdd := 70001 |} in
  Scraper.searchGoogle early (Scraper.ResultsPage Examples.sevenHits) 5 Examples.busyTracker
  = (Throw Scraper.rateLimitMessage, Examples.busyTracker, [Attempt Google])
  /\ (snd (Scraper.searchGoogle late (Scraper.ResultsPage Examples.sevenHits) 5
             Examples.busyTracker) = [Attempt Google; Launch]
      /\ Scraper.requests
           (snd (fst (Scraper.searchGoogle late (Scraper.ResultsPage Examples.sevenHits) 5
                        Examples.busyTracker))) = [70001])
  /\ snd (AdaptiveRateLimiter.waitForNextRequest 10000 70000 10 3 Examples.calmRNG
            Examples.busyLimiter) = [Sleep 60000%Q]
  /\ AdaptiveRateLimiter.requests
       (fst (fst (AdaptiveRateLimiter.waitForNextRequest 70000 72000 10 3 Examples.calmRNG
                    Examples.busyLimiter))) = [72000].
Proof.
  intros early late.
  destruct C1_tracker_refuses_adaptive_limiter_delays as (Hrefuse & Hpass & Hdelay & Hrecord).
  split; [|split; [|split]].
  - apply (Hrefuse early (Scraper.ResultsPage Examples.sevenHits) 5 Examples.busyTracker).
    now vm_compute.
  - apply (Hpass late (Scraper.ResultsPage Examples.sevenHits) 5 Examples.busyTracker).
    + now vm_compute.
    + intros t [<-|[<-|[]]]; now vm_compute.
  - apply (Hdelay 10000 70000 10 3 Examples.calmRNG Examples.busyLimiter).
    now vm_compute.
  - apply (Hrecord 70000 72000 10 3 Examples.calmRNG Examples.busyLimiter).
    + now vm_compute.
    + intros t [<-|[<-|[<-|[]]]]; now vm_compute.
Defined.

(** C1 as stated fails on the adaptive limiter: with N = 3 timestamps
    inside the window, the fourth attempt is not refused. The limiter
    sleeps 60 seconds and returns, and its caller goes on to send the
    search request and gets results; no timestamp is recorded. *)
Lemma C1_counterexample_fourth_attempt_delayed :
  let clock := {| EnhancedScraper.now := 10000; EnhancedScraper.nowAfter := 70000;
                  EnhancedScraper.hour := 10; EnhancedScraper.dayOfWeek := 3 |} in
  let run :=
    EnhancedScraper.searchGoogle Examples.allFlags clock "Tue Nov 03 2026"
      Examples.oneItemService "example query" 5 Examples.calmRNG Examples.busyLimiter
      Examples.configuredApi in
  AdaptiveRateLimiter.maxRequestsPerMinute Examples.busyLimiter = 3
  /\ List.filter (fun ts => 10000 - 60000 <? ts)
       (AdaptiveRateLimiter.requests Examples.busyLimiter) = [1000; 2000; 3000]
  /\ snd run
     = [Sleep 60000%Q; Attempt GoogleAPI;
        Fetch [("key", "key"); ("cx", "cx"); ("q", "example query"); ("num", "5")]]
  /\ (exists v, fst (fst (fst (fst run))) = Return v)
  /\ AdaptiveRateLimiter.requests (snd (fst (fst (fst run)))) = [1000; 2000; 3000].
Proof.
  repeat split. eexists. reflexivity.
Qed.

(** ** Delay composition of the adaptive limiter *)

Section DelayFacts.
Import AdaptiveRateLimiter.




Lemma Qltb_true x y : Qltb x y = true -> (x < y)%Q.
Proof.
  unfold Qltb. intros H. apply negb_true_iff in H.
  apply Qnot_le_lt. intros Hle. apply Qle_bool_iff in Hle. congruence.
Qed.

Lemma Qltb_false x y : Qltb x y = false -> (y <= x)%Q.
Proof.
  unfold Qltb. intros H. apply negb_false_iff in H. now apply Qle_bool_iff.
Qed.



End DelayFacts.




(** ** Adaptive delay adjustment *)

(** The code's rule, spelled out on its own rate. *)
Lemma adaptDelay_cases (s : AdaptiveRateLimiter.Limiter) (rate : Q) :
  AdaptiveRateLimiter.adaptiveEnabled s = true ->
  AdaptiveRateLimiter.successRate s = Some rate ->
  ((rate < 7 # 10)%Q ->
   AdaptiveRateLimiter.currentDelay (AdaptiveRateLimiter.adaptDelayBasedOnHistory s)
   = Qmin (AdaptiveRateLimiter.maxDelay s) (AdaptiveRateLimiter.currentDelay s * (15 # 10)))
  /\ ((9 # 10 < rate)%Q ->
      (AdaptiveRateLimiter.minDelay s < AdaptiveRateLimiter.currentDelay s)%Q ->
      AdaptiveRateLimiter.currentDelay (AdaptiveRateLimiter.adaptDelayBasedOnHistory s)
      = Qmax (AdaptiveRateLimiter.minDelay s) (AdaptiveRateLimiter.currentDelay s * (8 # 10)))
  /\ ((7 # 10 <= rate <= 9 # 10)%Q ->
      AdaptiveRateLimiter.adaptDelayBasedOnHistory s = s).
Proof.
  intros Hen Hrate. unfold AdaptiveRateLimiter.adaptDelayBasedOnHistory.
  rewrite Hen, Hrate. cbn [negb].
  destruct (AdaptiveRateLimiter.Qltb rate (7 # 10)) eqn:E1;
    [apply Qltb_true in E1|apply Qltb_false in E1];
    (destruct (AdaptiveRateLimiter.Qltb (9 # 10) rate) eqn:E2;
     [apply Qltb_true in E2|apply Qltb_false in E2]);
    (destruct (AdaptiveRateLimiter.Qltb (AdaptiveRateLimiter.minDelay s)
                 (AdaptiveRateLimiter.currentDelay s)) eqn:E3;
     [apply Qltb_true in E3|apply Qltb_false in E3]);
    cbn [andb]; repeat split; intros; try reflexivity; lra.
Qed.

(** C7 (defect of the code, evaluated at the failing input). The limiter
    recorded three failures and then ten successes, and its delay is 3 s,
    above minDelay. The last ten recorded outcomes are all successes, a
    rate of 100 %, so the rule of C7 lowers the delay to 2.4 s. The code
    divides the ten latest successes by those ten plus the three latest
    failures, gets 10/13, and leaves the delay at 3 s. *)
Theorem C7_rate_mixes_last_successes_and_last_failures :
  let s := Examples.recoveredLimiter in
  (AdaptiveRateLimiter.currentDelay s == 3000)%Q
  /\ (AdaptiveRateLimiter.minDelay s == 2000)%Q
  /\ length (AdaptiveRateLimiter.successHistory s) = 10%nat
  /\ length (AdaptiveRateLimiter.failureHistory s) = 3%nat
  /\ (exists r, SpecWording.lastTenSuccessRate s = Some r /\ (r == 1)%Q)
  /\ (AdaptiveRateLimiter.currentDelay (SpecWording.recordOutcomeAdjust s) == 2400)%Q
  /\ (exists r, AdaptiveRateLimiter.successRate s = Some r /\ (r == 10 # 13)%Q)
  /\ (AdaptiveRateLimiter.currentDelay (AdaptiveRateLimiter.adaptDelayBasedOnHistory s)
      == 3000)%Q.
Proof.
  repeat split; try (eexists; split; [reflexivity|]); now vm_compute.
Qed.

(** ** Proxy quarantine *)

Section ProxyFacts.
Import ProxyRotation ProxyRuns.

Lemma report_lookup p now st :
  server p <> EmptyString ->
  proxyFailures (reportProxyFailure (Some p) now st) !! proxyKey p
  = Some {| count := count (failuresOf (proxyFailures st) (proxyKey p)) + 1;
            lastFailure := now |}.
Proof.
  intros Hs. unfold reportProxyFailure.
  destruct (server p) eqn:E; [congruence|]. cbn [JS.truthy negb proxyFailures].
  apply lookup_insert_eq.
Qed.

Lemma report_valid p now st :
  validTracking st -> validTracking (reportProxyFailure p now st).
Proof.
  intros Hv. destruct p as [p|]; [|exact Hv]. unfold reportProxyFailure.
  destruct (negb (JS.truthy (server p))); [exact Hv|].
  intros k f. cbn [proxyFailures]. rewrite lookup_insert.
  destruct (decide (proxyKey p = k)) as [->|Hne].
  - intros [= <-]. cbn. unfold failuresOf.
    destruct (proxyFailures st !! k) as [f0|] eqn:E; cbn; [|lia].
    specialize (Hv _ _ E). lia.
  - apply Hv.
Qed.

Lemma failuresOf_count_nonneg st k :
  validTracking st -> 0 <= count (failuresOf (proxyFailures st) k).
Proof.
  intros Hv. unfold failuresOf.
  destruct (proxyFailures st !! k) as [f|] eqn:E; [exact (Hv _ _ E)|cbn; lia].
Qed.

(** three reports in a row put the endpoint in quarantine, dated by the
    last one *)
Lemma three_reports_quarantine p st t1 t2 t3 :
  server p <> EmptyString ->
  validTracking st ->
  quarantined (proxyKey p) t3
    (proxyFailures
       (reportProxyFailure (Some p) t3
          (reportProxyFailure (Some p) t2 (reportProxyFailure (Some p) t1 st)))).
Proof.
  intros Hs Hv. unfold quarantined. eexists. split; [now apply report_lookup|].
  cbn [count lastFailure]. split; [|reflexivity].
  unfold failuresOf at 1. rewrite report_lookup by assumption. cbn [count].
  unfold failuresOf at 1. rewrite report_lookup by assumption. cbn [count].
  pose proof (failuresOf_count_nonneg st (proxyKey p) Hv).
  unfold MAX_FAILURES_PER_PROXY. lia.
Qed.

(** inside the cooldown, the filter drops the endpoint and keeps its
    record *)
Lemma filterHealthy_quarantined now cs fails k f :
  fails !! k = Some f ->
  MAX_FAILURES_PER_PROXY <= count f ->
  now - lastFailure f < PROXY_COOLDOWN_TIME ->
  (forall q, In q (fst (filterHealthy now cs fails)) -> proxyKey q <> k)
  /\ snd (filterHealthy now cs fails) !! k = Some f.
Proof.
  intros Hk Hc Ht. revert fails Hk.
  induction cs as [|q cs IH]; intros fails Hk; cbn [filterHealthy].
  - split; [intros ? []|exact Hk].
  - destruct (decide (proxyKey q = k)) as [Heq|Hne].
    + unfold failuresOf. rewrite Heq, Hk.
      destruct (Z.leb_spec MAX_FAILURES_PER_PROXY (count f)) as [_|]; [|lia].
      destruct (Z.ltb_spec (now - lastFailure f) PROXY_COOLDOWN_TIME) as [_|]; [|lia].
      now apply IH.
    + destruct (MAX_FAILURES_PER_PROXY <=? count (failuresOf fails (proxyKey q))).
      * destruct (now - lastFailure (failuresOf fails (proxyKey q)) <? PROXY_COOLDOWN_TIME).
        -- now apply IH.
        -- assert (Hk' : delete (proxyKey q) fails !! k = Some f)
             by now rewrite lookup_delete_ne.
           specialize (IH _ Hk') as [IH1 IH2].
           destruct (filterHealthy now cs (delete (proxyKey q) fails)) as [kept fails'].
           cbn [fst snd] in *. split; [|exact IH2].
           intros q' [<-|Hin]; [exact Hne|now apply IH1].
      * specialize (IH _ Hk) as [IH1 IH2].
        destruct (filterHealthy now cs fails) as [kept fails'].
        cbn [fst snd] in *. split; [|exact IH2].
        intros q' [<-|Hin]; [exact Hne|now apply IH1].
Qed.

(** the filter only deletes records *)
Lemma filterHealthy_lookup now cs fails k :
  snd (filterHealthy now cs fails) !! k = fails !! k
  \/ snd (filterHealthy now cs fails) !! k = None.
Proof.
  revert fails. induction cs as [|q cs IH]; intros fails; cbn [filterHealthy].
  - now left.
  - destruct (MAX_FAILURES_PER_PROXY <=? count (failuresOf fails (proxyKey q))).
    + destruct (now - lastFailure (failuresOf fails (proxyKey q)) <? PROXY_COOLDOWN_TIME).
      * apply IH.
      * specialize (IH (delete (proxyKey q) fails)).
        destruct (filterHealthy now cs (delete (proxyKey q) fails)) as [kept fails'].
        cbn [snd] in *. destruct IH as [IH|IH]; [|now right].
        rewrite IH. rewrite lookup_delete.
        destruct (decide (proxyKey q = k)); [now right|now left].
    + specialize (IH fails). destruct (filterHealthy now cs fails) as [kept fails'].
      exact IH.
Qed.

Lemma filterHealthy_valid now cs st :
  validTracking st ->
  validTracking {| proxyUsage := proxyUsage st;
                   proxyFailures := snd (filterHealthy now cs (proxyFailures st)) |}.
Proof.
  intros Hv k f. cbn [proxyFailures].
  destruct (filterHealthy_lookup now cs (proxyFailures st) k) as [->| ->];
    [apply Hv|discriminate].
Qed.

(** an endpoint that passes the filter is kept, wherever it stands among
    the candidates *)
Lemma filterHealthy_keeps now cs fails p :
  passesFilter now fails (proxyKey p) ->
  In p cs ->
  In p (fst (filterHealthy now cs fails)).
Proof.
  revert fails. induction cs as [|q cs IH]; intros fails Hpass Hin; [destruct Hin|].
  cbn [filterHealthy].
  assert (Hdel : forall k', passesFilter now (delete k' fails) (proxyKey p)).
  { intros k'. unfold passesFilter in *. rewrite lookup_delete.
    destruct (decide (k' = proxyKey p)); [exact I|exact Hpass]. }
  destruct Hin as [->|Hin].
  - unfold passesFilter in Hpass. unfold failuresOf.
    destruct (fails !! proxyKey p) as [f|] eqn:E.
    + destruct (Z.leb_spec MAX_FAILURES_PER_PROXY (count f)) as [Hge|Hlt].
      * destruct (Z.ltb_spec (now - lastFailure f) PROXY_COOLDOWN_TIME) as [Hin|Hout];
          [lia|].
        destruct (filterHealthy now cs (delete (proxyKey p) fails)). now left.
      * destruct (filterHealthy now cs fails). now left.
    + cbn [count]. unfold MAX_FAILURES_PER_PROXY at 1. cbn [Z.leb Z.compare].
      destruct (filterHealthy now cs fails). now left.
  - destruct (MAX_FAILURES_PER_PROXY <=? count (failuresOf fails (proxyKey q))).
    + destruct (now - lastFailure (failuresOf fails (proxyKey q)) <? PROXY_COOLDOWN_TIME).
      * now apply IH.
      * specialize (IH _ (Hdel (proxyKey q)) Hin).
        destruct (filterHealthy now cs (delete (proxyKey q) fails)). now right.
    + specialize (IH _ Hpass Hin). destruct (filterHealthy now cs fails). now right.
Qed.

(** once the cooldown is over, filtering a list that holds the endpoint
    deletes its record *)
Lemma filterHealthy_resets now cs fails p f :
  fails !! proxyKey p = Some f ->
  MAX_FAILURES_PER_PROXY <= count f ->
  PROXY_COOLDOWN_TIME <= now - lastFailure f ->
  In p cs ->
  snd (filterHealthy now cs fails) !! proxyKey p = None.
Proof.
  intros Hk Hc Ht. revert fails Hk.
  induction cs as [|q cs IH]; intros fails Hk Hin; [destruct Hin|].
  cbn [filterHealthy].
  destruct (decide (proxyKey q = proxyKey p)) as [Heq|Hne].
  - unfold failuresOf. rewrite Heq, Hk.
    destruct (Z.leb_spec MAX_FAILURES_PER_PROXY (count f)) as [_|]; [|lia].
    destruct (Z.ltb_spec (now - lastFailure f) PROXY_COOLDOWN_TIME) as [|_]; [lia|].
    pose proof (filterHealthy_lookup now cs (delete (proxyKey p) fails) (proxyKey p)) as L.
    destruct (filterHealthy now cs (delete (proxyKey p) fails)) as [kept fails'].
    cbn [snd] in *. rewrite lookup_delete_eq in L. now destruct L.
  - destruct Hin as [->|Hin]; [congruence|].
    destruct (MAX_FAILURES_PER_PROXY <=? count (failuresOf fails (proxyKey q))).
    + destruct (now - lastFailure (failuresOf fails (proxyKey q)) <? PROXY_COOLDOWN_TIME).
      * now apply IH.
      * assert (Hk' : delete (proxyKey q) fails !! proxyKey p = Some f)
          by now rewrite lookup_delete_ne.
        specialize (IH _ Hk' Hin).
        destruct (filterHealthy now cs (delete (proxyKey q) fails)). exact IH.
    + specialize (IH _ Hk Hin). destruct (filterHealthy now cs fails). exact IH.
Qed.

Lemma insertByUsage_In c d l : In d (insertByUsage c l) -> d = c \/ In d l.
Proof.
  induction l as [|e l IH]; cbn.
  - intros [<-|[]]. now left.
  - destruct (lastUsed c <=? lastUsed e); cbn.
    + intros [<-|H]; [now left|now right].
    + intros [<-|H]; [right; now left|].
      destruct (IH H) as [->|H']; [now left|right; now right].
Qed.

Lemma sortByUsage_In d l : In d (sortByUsage l) -> In d l.
Proof.
  induction l as [|c l IH]; cbn; [tauto|].
  intros H. apply insertByUsage_In in H as [->|H]; [now left|right; now apply IH].
Qed.

Lemma insertByUsage_nonempty c l : insertByUsage c l <> [].
Proof. destruct l as [|d l]; cbn; [discriminate|]. destruct (lastUsed c <=? lastUsed d); discriminate. Qed.

Lemma sortByUsage_nonempty l : l <> [] -> sortByUsage l <> [].
Proof. destruct l as [|c l]; [congruence|]. intros _. cbn. apply insertByUsage_nonempty. Qed.

(** selections keep the recorded counts non-negative *)
Lemma select_valid env pools poolType now st :
  validTracking st ->
  validTracking (snd (selectHealthyProxy env pools poolType now st)).
Proof.
  intros Hv. unfold selectHealthyProxy.
  destruct (getEnvironmentProxy env); [exact Hv|].
  destruct (candidates poolType pools) as [|c0 cs0] eqn:Ec; [exact Hv|].
  pose proof (filterHealthy_valid now (c0 :: cs0) st Hv) as Hv'.
  destruct (filterHealthy now (c0 :: cs0) (proxyFailures st)) as [healthy fails'].
  cbn [snd] in Hv'.
  destruct (sortByUsage (map (withUsage (proxyUsage st)) healthy)); exact Hv'.
Qed.

End ProxyFacts.

Section ProxySelectFacts.
Import ProxyRotation ProxyRuns.

Variable env : ProcessEnv.
Variable pools : Pools.
Hypothesis noOverride : getEnvironmentProxy env = None.

(** one selection inside the cooldown: the endpoint is not returned and
    stays in quarantine *)
Lemma select_inside_cooldown k tl poolType now st :
  quarantined k tl (proxyFailures st) ->
  now - tl < PROXY_COOLDOWN_TIME ->
  ~ returnsKey k (fst (selectHealthyProxy env pools poolType now st))
  /\ quarantined k tl (proxyFailures (snd (selectHealthyProxy env pools poolType now st))).
Proof using noOverride.
  intros Hq Hin. pose proof Hq as (f & Hk & Hc & Hl). subst tl.
  unfold selectHealthyProxy. rewrite noOverride.
  set (cs := candidates poolType pools).
  pose proof (filterHealthy_quarantined now cs _ _ _ Hk Hc Hin) as [Hkept Hfails].
  destruct cs as [|c0 cs0]; [cbn; split; [tauto|exact Hq]|].
  destruct (filterHealthy now (c0 :: cs0) (proxyFailures st)) as [healthy fails'].
  cbn [fst snd] in Hkept, Hfails.
  assert (Hq' : quarantined k (lastFailure f) fails') by (exists f; auto).
  destruct (sortByUsage (map (withUsage (proxyUsage st)) healthy)) as [|sel rest] eqn:Es;
    cbn [fst snd proxyFailures]; (split; [|exact Hq']); [tauto|].
  cbn [returnsKey].
  assert (Hsel : In sel (sortByUsage (map (withUsage (proxyUsage st)) healthy)))
    by (rewrite Es; now left).
  apply sortByUsage_In, in_map_iff in Hsel as (q & <- & Hq0).
  cbn [key withUsage]. now apply Hkept.
Qed.

Lemma runSelects_inside_cooldown k tl calls st :
  quarantined k tl (proxyFailures st) ->
  Forall (fun c => snd c - tl < PROXY_COOLDOWN_TIME) calls ->
  Forall (fun sel => ~ returnsKey k sel) (fst (runSelects env pools calls st))
  /\ quarantined k tl (proxyFailures (snd (runSelects env pools calls st))).
Proof using noOverride.
  intros Hq Hcalls. revert st Hq.
  induction Hcalls as [|[poolType now] calls Hnow Hcalls IH]; intros st Hq;
    cbn [runSelects].
  - split; [constructor|exact Hq].
  - cbn [snd] in Hnow.
    destruct (select_inside_cooldown k tl poolType now st Hq Hnow) as [Hnot Hq1].
    destruct (selectHealthyProxy env pools poolType now st) as [sel st1].
    cbn [fst snd] in Hnot, Hq1.
    destruct (IH st1 Hq1) as [Hall Hq2].
    destruct (runSelects env pools calls st1) as [sels st2].
    cbn [fst snd] in *. split; [now constructor|exact Hq2].
Qed.

(** the first selection after the cooldown: the endpoint passes the
    filter, some pool endpoint is returned, and the record is gone *)
Lemma select_after_cooldown p tl poolType now st :
  quarantined (proxyKey p) tl (proxyFailures st) ->
  PROXY_COOLDOWN_TIME <= now - tl ->
  In p (candidates poolType pools) ->
  In p (fst (filterHealthy now (candidates poolType pools) (proxyFailures st)))
  /\ (exists c, fst (selectHealthyProxy env pools poolType now st) = Some (FromPool c))
  /\ proxyFailures (snd (selectHealthyProxy env pools poolType now st)) !! proxyKey p = None.
Proof using noOverride.
  intros (f & Hk & Hc & Hl) Hout Hin. subst tl.
  assert (Hkeep : In p (fst (filterHealthy now (candidates poolType pools)
                               (proxyFailures st)))).
  { apply filterHealthy_keeps; [|exact Hin].
    unfold passesFilter. rewrite Hk. now right. }
  pose proof (filterHealthy_resets now _ _ _ _ Hk Hc Hout Hin) as Hreset.
  split; [exact Hkeep|].
  unfold selectHealthyProxy. rewrite noOverride.
  destruct (candidates poolType pools) as [|c0 cs0]; [destruct Hin|].
  destruct (filterHealthy now (c0 :: cs0) (proxyFailures st)) as [healthy fails'].
  cbn [fst snd] in Hkeep, Hreset.
  destruct (sortByUsage (map (withUsage (proxyUsage st)) healthy)) as [|sel rest] eqn:Es.
  - exfalso. apply (sortByUsage_nonempty (map (withUsage (proxyUsage st)) healthy));
      [|exact Es].
    destruct healthy; [destruct Hkeep|discriminate].
  - cbn [fst snd proxyFailures]. split; [now exists sel|exact Hreset].
Qed.

End ProxySelectFacts.

(** C5 (amended). With no environment override configured, for every pool
    endpoint with a non-empty server address: after three reportFailure
    calls in a row on it (the last at time t3), no select call made while
    less than 30 minutes have passed since t3 returns it; a select call
    made 30 minutes or more after t3 on a pool class that holds the
    endpoint finds it eligible again, returns some pool endpoint, and
    leaves it with no failure record (a failure count of zero). *)
Theorem C5_pool_endpoint_quarantined_until_cooldown
    (env : ProcessEnv) (pools : ProxyRotation.Pools) (p : ProxyRotation.Proxy)
    (st : ProxyRotation.Tracking) (t1 t2 t3 : Z) :
  ProxyRotation.getEnvironmentProxy env = None ->
  ProxyRotation.server p <> EmptyString ->
  ProxyRuns.validTracking st ->
  let st3 :=
    ProxyRotation.reportProxyFailure (Some p) t3
      (ProxyRotation.reportProxyFailure (Some p) t2
         (ProxyRotation.reportProxyFailure (Some p) t1 st)) in
  forall calls,
    Forall (fun c => snd c - t3 < ProxyRotation.PROXY_COOLDOWN_TIME) calls ->
    Forall (fun sel => ~ ProxyRuns.returnsKey (ProxyRotation.proxyKey p) sel)
      (fst (ProxyRuns.runSelects env pools calls st3))
    /\ forall poolType now,
        ProxyRotation.PROXY_COOLDOWN_TIME <= now - t3 ->
        In p (ProxyRotation.candidates poolType pools) ->
        let st' := snd (ProxyRuns.runSelects env pools calls st3) in
        In p (fst (ProxyRotation.filterHealthy now (ProxyRotation.candidates poolType pools)
                     (ProxyRotation.proxyFailures st')))
        /\ (exists c, fst (ProxyRotation.selectHealthyProxy env pools poolType now st')
                      = Some (ProxyRotation.FromPool c))
        /\ ProxyRotation.proxyFailures
             (snd (ProxyRotation.selectHealthyProxy env pools poolType now st'))
             !! ProxyRotation.proxyKey p = None
        /\ ProxyRotation.count
             (ProxyRotation.failuresOf
                (ProxyRotation.proxyFailures
                   (snd (ProxyRotation.selectHealthyProxy env pools poolType now st')))
                (ProxyRotation.proxyKey p)) = 0.
Proof.
  intros Henv Hs Hv st3 calls Hcalls.
  pose proof (three_reports_quarantine p st t1 t2 t3 Hs Hv) as Hq. fold st3 in Hq.
  destruct (runSelects_inside_cooldown env pools Henv _ _ calls st3 Hq Hcalls) as [Hnever Hq'].
  split; [exact Hnever|].
  intros poolType now Hout Hin st'.
  destruct (select_after_cooldown env pools Henv p t3 poolType now st' Hq' Hout Hin)
    as (Hkeep & Hsel & Hnone).
  repeat split; try assumption.
  unfold ProxyRotation.failuresOf. now rewrite Hnone.
Qed.

(** The first residential endpoint of the sample pool fails three times
    within two seconds. Selections 5 s and 1000 s later do not return it;
    the selection 2000 s later, past the 1800 s cooldown, finds it
    eligible and drops its record. *)
Lemma C5_witness_sample_pool :
  let st3 :=
    ProxyRotation.reportProxyFailure (Some Examples.firstResidential) 2000
      (ProxyRotation.reportProxyFailure (Some Examples.firstResidential) 1000
         (ProxyRotation.reportProxyFailure (Some Examples.firstResidential) 0
            Examples.freshTracking)) in
  let calls := [("any", 5000); ("residential", 1000000)] in
  let st' := snd (ProxyRuns.runSelects Examples.localEnv ProxyRotation.proxyPools calls st3) in
  Forall (fun sel =>
            ~ ProxyRuns.returnsKey (ProxyRotation.proxyKey Examples.firstResidential) sel)
    (fst (ProxyRuns.runSelects Examples.localEnv ProxyRotation.proxyPools calls st3))
  /\ In Examples.firstResidential
       (fst (ProxyRotation.filterHealthy 2000000
               (ProxyRotation.candidates "any" ProxyRotation.proxyPools)
               (ProxyRotation.proxyFailures st')))
  /\ ProxyRotation.proxyFailures
       (snd (ProxyRotation.selectHealthyProxy Examples.localEnv ProxyRotation.proxyPools
               "any" 2000000 st'))
       !! ProxyRotation.proxyKey Examples.firstResidential = None.
Proof.
  intros st3 calls st'.
  assert (Hvalid : ProxyRuns.validTracking Examples.freshTracking).
  { intros k f. cbn. rewrite lookup_empty. discriminate. }
  assert (Hcalls : Forall (fun c => snd c - 2000 < ProxyRotation.PROXY_COOLDOWN_TIME) calls).
  { repeat constructor. }
  destruct (C5_pool_endpoint_quarantined_until_cooldown
              Examples.localEnv ProxyRotation.proxyPools Examples.firstResidential
              Examples.freshTracking 0 1000 2000 eq_refl ltac:(discriminate) Hvalid
              calls Hcalls) as [Hnever Hafter].
  split; [exact Hnever|].
  destruct (Hafter "any" 2000000) as (Hkeep & _ & Hnone & _).
  - now vm_compute.
  - cbn. now left.
  - split; [exact Hkeep|exact Hnone].
Defined.

(** C5 as stated fails for the environment override endpoint: after three
    reportFailure calls on it, at 0, 1 and 2 s, the selection at 3 s
    returns that very endpoint, although its record shows three failures
    and the cooldown has 1797 s to run. *)
Lemma C5_counterexample_environment_override :
  let st3 :=
    ProxyRotation.reportProxyFailure (Some Examples.overrideEndpoint) 2000
      (ProxyRotation.reportProxyFailure (Some Examples.overrideEndpoint) 1000
         (ProxyRotation.reportProxyFailure (Some Examples.overrideEndpoint) 0
            Examples.freshTracking)) in
  ProxyRotation.getEnvironmentProxy Examples.proxyEnv = Some Examples.overrideEndpoint
  /\ ProxyRotation.proxyFailures st3 !! ProxyRotation.proxyKey Examples.overrideEndpoint
     = Some {| ProxyRotation.count := 3; ProxyRotation.lastFailure := 2000 |}
  /\ 3000 - 2000 < ProxyRotation.PROXY_COOLDOWN_TIME
  /\ fst (ProxyRotation.selectHealthyProxy Examples.proxyEnv ProxyRotation.proxyPools
            "any" 3000 st3)
     = Some (ProxyRotation.FromEnvironment Examples.overrideEndpoint).
Proof.
  repeat split.
Qed.

(** ** Search fallback chains *)

Section ChainFacts.
Import Scraper.

Lemma searchGoogle_first_event clock session limit tracker :
  hd_error (snd (searchGoogle clock session limit tracker)) = Some (Attempt Google).
Proof.
  unfold searchGoogle.
  destruct (canMakeRequest (tCheck clock) tracker) as [allowed tracker1].
  destruct allowed; cbn [negb]; [|reflexivity].
  destruct session; reflexivity.
Qed.

Lemma searchDuckDuckGo_events duck :
  snd (searchDuckDuckGo duck) = [Attempt DuckDuckGo; Launch].
Proof. destruct duck; reflexivity. Qed.

(** the standard path, taken outside production or with fewer than two
    recorded requests in the last five minutes *)
Lemma standard_path env now clock google duck limit tracker :
  RailwayConfig.isRailway env && (2 <=? recentCount now tracker) = false ->
  searchWithRailwayOptimization env now clock google duck limit tracker
  = match searchGoogle clock google limit tracker with
    | (Return results, tracker', ev) =>
        (Return (map (withSource "Google") results), tracker', ev)
    | (Throw message, tracker', ev) =>
        if googleIssue message
           || (RailwayConfig.isRailway env && networkIssue message)
        then (fst (searchDuckDuckGo duck), tracker', ev ++ snd (searchDuckDuckGo duck))
        else (Throw message, tracker', ev)
    end.
Proof.
  intros Hstd. unfold searchWithRailwayOptimization. rewrite Hstd.
  destruct (searchGoogle clock google limit tracker) as [[[message|results] tracker'] ev];
    [|reflexivity].
  destruct (googleIssue message); cbn [orb].
  - now destruct (searchDuckDuckGo duck).
  - destruct (RailwayConfig.isRailway env && networkIssue message);
      [now destruct (searchDuckDuckGo duck)|reflexivity].
Qed.

(** with maxRequestsPerMinute = 1, as in production, the tracker never
    holds more than one timestamp *)
Lemma single_slot_tracker clock session limit tracker :
  maxRequestsPerMinute tracker = 1 ->
  (length (requests tracker) <= 1)%nat ->
  (length (requests (snd (fst (searchGoogle clock session limit tracker)))) <= 1)%nat
  /\ maxRequestsPerMinute (snd (fst (searchGoogle clock session limit tracker))) = 1.
Proof.
  intros Hmax Hlen. unfold searchGoogle, canMakeRequest.
  set (kept := List.filter (fun timestamp => tCheck clock - 60000 <? timestamp)
                 (requests tracker)).
  assert (Hkept : (length kept <= length (requests tracker))%nat)
    by apply List.filter_length_le.
  cbn [requests setRequests maxRequestsPerMinute]. rewrite Hmax.
  destruct (Z.ltb_spec (Z.of_nat (length kept)) 1) as [Hlt|Hge]; cbn [negb].
  - destruct kept as [|k kept']; [|cbn in Hlt; lia].
    destruct session; cbn; (split; [lia|exact Hmax]).
  - cbn. split; [lia|exact Hmax].
Qed.

(** the reordering of production mode looks at the number of recorded
    requests, whatever their outcome was *)
Lemma reordering_counts_requests env now clock google duck limit tracker :
  RailwayConfig.isRailway env = true ->
  2 <= recentCount now tracker ->
  hd_error (snd (searchWithRailwayOptimization env now clock google duck limit tracker))
  = Some (Attempt DuckDuckGo).
Proof.
  intros Hprod Hmany. unfold searchWithRailwayOptimization.
  rewrite Hprod. cbn [andb].
  destruct (Z.leb_spec 2 (recentCount now tracker)) as [_|]; [|lia].
  pose proof (searchDuckDuckGo_events duck) as Hev.
  destruct (searchDuckDuckGo duck) as [[m|rs] ev]; cbn [snd] in Hev; subst ev;
    [|reflexivity].
  now destruct (searchGoogle clock google limit tracker) as [[r t] e].
Qed.

(** on the standard path the chain starts with Google *)
Lemma standard_path_first_engine env now clock google duck limit tracker :
  RailwayConfig.isRailway env && (2 <=? recentCount now tracker) = false ->
  hd_error (snd (searchWithRailwayOptimization env now clock google duck limit tracker))
  = Some (Attempt Google).
Proof.
  intros Hstd. rewrite standard_path by exact Hstd.
  pose proof (searchGoogle_first_event clock google limit tracker) as Hfirst.
  destruct (searchGoogle clock google limit tracker)
    as [[[message|results] tracker'] ev]; cbn [snd] in *; [|exact Hfirst].
  destruct (googleIssue message || (RailwayConfig.isRailway env && networkIssue message));
    cbn [snd]; [|exact Hfirst].
  destruct ev as [|e ev]; [discriminate|exact Hfirst].
Qed.

End ChainFacts.

(** C6 (amended). For every entry into searchWithRailwayOptimization:
    outside production mode the first engine attempted is the primary
    engine, whatever earlier attempts produced; in production mode the
    first engine attempted is the primary engine whenever the request
    tracker holds fewer than 2 timestamps of primary requests from the
    last 5 minutes. *)
Theorem C6_first_engine_follows_mode_and_request_count
    (env : ProcessEnv) (now : Z) (clock : Scraper.GoogleClock)
    (google : Scraper.GoogleSession) (duck : Scraper.DuckSession) (limit : Z)
    (tracker : Scraper.RequestTracker) :
  let first :=
    hd_error (snd (Scraper.searchWithRailwayOptimization env now clock google duck limit
                     tracker)) in
  (RailwayConfig.isRailway env = false -> first = Some (Attempt Google))
  /\ (RailwayConfig.isRailway env = true -> Scraper.recentCount now tracker < 2 ->
      first = Some (Attempt Google)).
Proof.
  intros first.
  assert (Hstd : RailwayConfig.isRailway env && (2 <=? Scraper.recentCount now tracker) = false
                 -> first = Some (Attempt Google))
    by apply standard_path_first_engine.
  split.
  - intros Hdev. apply Hstd. now rewrite Hdev.
  - intros Hprod Hfew. apply Hstd. rewrite Hprod. cbn [andb].
    apply Z.leb_gt. exact Hfew.
Qed.

(** In a development deployment the chain starts with Google although the
    tracker holds two requests; in a production deployment whose tracker
    holds none it starts with Google as well. *)
Lemma C6_witness_modes :
  hd_error (snd (Scraper.searchWithRailwayOptimization Examples.localEnv 3000
                   (Examples.clockAt 3000) Examples.blockedSession Examples.failingDuck 5
                   Examples.busyTracker)) = Some (Attempt Google)
  /\ hd_error (snd (Scraper.searchWithRailwayOptimization Examples.railwayEnv 3000
                      (Examples.clockAt 3000) Examples.blockedSession Examples.failingDuck 5
                      (Scraper.initialTracker Examples.railwayEnv))) = Some (Attempt Google).
Proof.
  split.
  - apply (proj1 (C6_first_engine_follows_mode_and_request_count Examples.localEnv 3000
                    (Examples.clockAt 3000) Examples.blockedSession Examples.failingDuck 5
                    Examples.busyTracker)).
    reflexivity.
  - apply (proj2 (C6_first_engine_follows_mode_and_request_count Examples.railwayEnv
                    3000 (Examples.clockAt 3000) Examples.blockedSession
                    Examples.failingDuck 5
                    (Scraper.initialTracker Examples.railwayEnv)));
      reflexivity.
Defined.

(** C6 as stated fails. In a development deployment Google is blocked at
    1 s and again at 41 s, and DuckDuckGo fails both times. At 120 s both
    blocked outcomes are less than five minutes old, and the chain still
    starts with Google. *)
Lemma C6_counterexample_two_recent_blocks :
  let run1 :=
    Scraper.searchWithRailwayOptimization Examples.localEnv 1000 (Examples.clockAt 1000)
      Examples.blockedSession Examples.failingDuck 5
      (Scraper.initialTracker Examples.localEnv) in
  let run2 :=
    Scraper.searchWithRailwayOptimization Examples.localEnv 41000 (Examples.clockAt 41000)
      Examples.blockedSession Examples.failingDuck 5 (snd (fst run1)) in
  let run3 :=
    Scraper.searchWithRailwayOptimization Examples.localEnv 120000 (Examples.clockAt 120000)
      (Scraper.ResultsPage Examples.sevenHits) Examples.failingDuck 5 (snd (fst run2)) in
  Scraper.googleIssue
    "Google is blocking search results. URL: https://www.google.com/sorry/index" = true
  /\ snd run1 = [Attempt Google; Launch; Attempt DuckDuckGo; Launch]
  /\ snd run2 = [Attempt Google; Launch; Attempt DuckDuckGo; Launch]
  /\ Scraper.requests (snd (fst run2)) = [1000; 41000]
  /\ (120000 - 1000 < 300000 /\ 120000 - 41000 < 300000)
  /\ snd run3 = [Attempt Google; Launch]
  /\ hd_error (snd run3) <> Some (Attempt DuckDuckGo).
Proof.
  repeat split. discriminate.
Qed.

(** In production the tracker has a single slot, so a sequential run never
    meets the condition for starting with the secondary engine: the chain
    starts with Google and the tracker keeps at most one timestamp. *)
Remark production_chain_starts_with_google
    (env : ProcessEnv) (now : Z) (clock : Scraper.GoogleClock)
    (google : Scraper.GoogleSession) (duck : Scraper.DuckSession) (limit : Z)
    (tracker : Scraper.RequestTracker) :
  Scraper.maxRequestsPerMinute tracker = 1 ->
  (length (Scraper.requests tracker) <= 1)%nat ->
  let run := Scraper.searchWithRailwayOptimization env now clock google duck limit tracker in
  hd_error (snd run) = Some (Attempt Google)
  /\ Scraper.maxRequestsPerMinute (snd (fst run)) = 1
  /\ (length (Scraper.requests (snd (fst run))) <= 1)%nat.
Proof.
  intros Hmax Hlen run.
  assert (Hfew : Scraper.recentCount now tracker < 2).
  { unfold Scraper.recentCount.
    pose proof (List.filter_length_le (fun req => now - req <? 300000)
                  (Scraper.requests tracker)). lia. }
  assert (Hstd : RailwayConfig.isRailway env && (2 <=? Scraper.recentCount now tracker)
                 = false).
  { apply andb_false_iff. right. now apply Z.leb_gt. }
  split.
  - now apply standard_path_first_engine.
  - unfold run. rewrite standard_path by exact Hstd.
    destruct (single_slot_tracker clock google limit tracker Hmax Hlen) as [Hl Hm].
    destruct (Scraper.searchGoogle clock google limit tracker)
      as [[[message|results] tracker'] ev]; cbn [fst snd] in *; [|now split].
    destruct (Scraper.googleIssue message
              || (RailwayConfig.isRailway env && Scraper.networkIssue message));
      cbn [fst snd]; now split.
Qed.

Section ApiFallbackFacts.
Import GoogleApi.

Lemma isWithinLimits_again today a :
  isWithinLimits today (snd (isWithinLimits today a)) = isWithinLimits today a.
Proof.
  unfold isWithinLimits.
  destruct (String.eqb (lastResetDate a) today) eqn:E; cbn [negb snd].
  - now rewrite E.
  - cbn [lastResetDate setCount]. now rewrite String.eqb_refl.
Qed.

Lemma isWithinLimits_configured today a :
  isConfigured (snd (isWithinLimits today a)) = isConfigured a.
Proof.
  unfold isWithinLimits. cbn [snd].
  now destruct (negb (String.eqb (lastResetDate a) today)).
Qed.

(** a configured client within its quota sends the request *)
Lemma search_sends today service query limit options a :
  isConfigured a = true ->
  fst (isWithinLimits today a) = true ->
  exists params,
    snd (search today service query limit options a) = [Attempt GoogleAPI; Fetch params]
    /\ getKey "num" (spread [("key", JS.tpl (apiKey (snd (isWithinLimits today a))));
                             ("cx", JS.tpl (searchEngineId (snd (isWithinLimits today a))));
                             ("q", query); ("num", JS.toString (Z.min limit 10))] options)
       = getKey "num" params.
Proof.
  intros Hc Hw. unfold search. rewrite Hc. cbn [negb].
  destruct (isWithinLimits today a) as [within a1]. cbn [fst snd] in *. subst within.
  cbn [negb]. eexists. split; [|reflexivity].
  destruct (service _) as [m|st stt txt|m|data]; try reflexivity.
  destruct (error data); reflexivity.
Qed.

Lemma nonEmpty_true {A} (l : list A) : nonEmpty l = true -> l <> [].
Proof. destruct l; [discriminate|discriminate]. Qed.

End ApiFallbackFacts.

(** C2 (amended). In searchWithApiFallback every failure of the scraping
    function, whatever its message, and every empty result set advance to
    the API engine when it is configured and within its quota; the wrapper
    never hands an empty result set back. In searchWithRailwayOptimization,
    on its standard path, a primary failure advances to the secondary
    engine when its message contains one of the block, navigation or
    timeout phrases (in production also a network-error phrase); a primary
    failure with any other message is thrown on to the caller and the
    secondary engine is not attempted. *)
Theorem C2_advance_on_listed_failures_only :
  (forall today service query limit (scrapingFunction : GoogleApi.ScrapingFunction) a,
      let scraping := fst (fst (scrapingFunction query limit a)) in
      let a1 := snd (fst (scrapingFunction query limit a)) in
      let ev1 := snd (scrapingFunction query limit a) in
      let run := GoogleApi.searchWithApiFallback today service query limit scrapingFunction a in
      (forall o, fst (fst run) = Return o -> GoogleApi.results o <> [])
      /\ ((forall v, scraping = Return v ->
                     GoogleApi.resultsOf v = None \/ GoogleApi.resultsOf v = Some []) ->
          GoogleApi.isConfigured a1 = true ->
          fst (GoogleApi.isWithinLimits today a1) = true ->
          exists params, snd run = ev1 ++ [Attempt GoogleAPI; Fetch params]))
  /\ (forall env now clock google duck limit tracker,
         RailwayConfig.isRailway env && (2 <=? Scraper.recentCount now tracker) = false ->
         let run :=
           Scraper.searchWithRailwayOptimization env now clock google duck limit tracker in
         let primary := Scraper.searchGoogle clock google limit tracker in
         (forall message,
             fst (fst primary) = Throw message ->
             Scraper.googleIssue message
             || (RailwayConfig.isRailway env && Scraper.networkIssue message) = true ->
             run = (fst (Scraper.searchDuckDuckGo duck), snd (fst primary),
                    snd primary ++ [Attempt DuckDuckGo; Launch]))
         /\ (forall message,
                fst (fst primary) = Throw message ->
                Scraper.googleIssue message
                || (RailwayConfig.isRailway env && Scraper.networkIssue message) = false ->
                run = (Throw message, snd (fst primary), snd primary))).
Proof.
  split.
  - intros today service query limit scrapingFunction a scraping a1 ev1 run.
    unfold run, scraping, a1, ev1, GoogleApi.searchWithApiFallback.
    destruct (scrapingFunction query limit a) as [[scr b1] e1]. cbn [fst snd].
    split.
    + intros o.
      destruct scr as [m|v].
      * destruct (GoogleApi.isConfigured b1); [|discriminate].
        destruct (GoogleApi.isWithinLimits today b1) as [within b2].
        destruct within; [|discriminate].
        destruct (GoogleApi.search today service query limit [] b2) as [[[m'|rs] b3] e2];
          [discriminate|].
        destruct (GoogleApi.nonEmpty rs) eqn:En; [|discriminate].
        intros [= <-]. cbn. apply nonEmpty_true in En.
        destruct rs; [congruence|discriminate].
      * destruct (GoogleApi.resultsOf v) as [rs0|].
        -- destruct (GoogleApi.nonEmpty rs0) eqn:En0.
           ++ intros [= <-]. cbn. now apply nonEmpty_true.
           ++ destruct (GoogleApi.isConfigured b1); [|discriminate].
              destruct (GoogleApi.isWithinLimits today b1) as [within b2].
              destruct within; [|discriminate].
              destruct (GoogleApi.search today service query limit [] b2)
                as [[[m'|rs] b3] e2]; [discriminate|].
              destruct (GoogleApi.nonEmpty rs) eqn:En; [|discriminate].
              intros [= <-]. cbn. apply nonEmpty_true in En.
              destruct rs; [congruence|discriminate].
        -- destruct (GoogleApi.isConfigured b1); [|discriminate].
           destruct (GoogleApi.isWithinLimits today b1) as [within b2].
           destruct within; [|discriminate].
           destruct (GoogleApi.search today service query limit [] b2)
             as [[[m'|rs] b3] e2]; [discriminate|].
           destruct (GoogleApi.nonEmpty rs) eqn:En; [|discriminate].
           intros [= <-]. cbn. apply nonEmpty_true in En.
           destruct rs; [congruence|discriminate].
    + intros Hfail Hc Hw.
      assert (Hearly :
                match scr with
                | Return v =>
                    match GoogleApi.resultsOf v with
                    | Some rs =>
                        if GoogleApi.nonEmpty rs
                        then Some {| GoogleApi.results := rs;
                                     GoogleApi.searchEngine := GoogleApi.engineOf v;
                                     GoogleApi.outcomeSource := "scraping" |}
                        else None
                    | None => None
                    end
                | Throw _ => None
                end = None).
      { destruct scr as [m|v]; [reflexivity|].
        destruct (Hfail v eq_refl) as [-> | ->]; reflexivity. }
      rewrite Hearly, Hc.
      pose proof (isWithinLimits_again today b1) as Hagain.
      pose proof (isWithinLimits_configured today b1) as Hconf.
      destruct (GoogleApi.isWithinLimits today b1) as [within b2]. cbn [fst snd] in *.
      subst within.
      destruct (search_sends today service query limit [] b2) as (params & Hev & _).
      { now rewrite Hconf. }
      { now rewrite Hagain. }
      exists params.
      destruct (GoogleApi.search today service query limit [] b2) as [[[m'|rs] b3] e2];
        cbn [snd] in Hev; subst e2; [reflexivity|].
      destruct (GoogleApi.nonEmpty rs); reflexivity.
  - intros env now clock google duck limit tracker Hstd run primary.
    unfold run, primary. rewrite standard_path by exact Hstd.
    pose proof (searchDuckDuckGo_events duck) as Hduck.
    destruct (Scraper.searchGoogle clock google limit tracker)
      as [[[m|rs] tracker'] ev]; cbn [fst snd].
    + split.
      * intros message [= <-] Hissue. rewrite Hissue, Hduck. reflexivity.
      * intros message [= <-] Hissue. rewrite Hissue. reflexivity.
    + split; intros message [=].
Qed.

(** An empty scrape makes the wrapper call the API, and a blocked Google
    session makes the chain switch to DuckDuckGo. *)
Lemma C2_witness_both_chains :
  (exists params,
      snd (GoogleApi.searchWithApiFallback "Tue Nov 03 2026" Examples.oneItemService
             "example query" 5 Examples.emptyScrape Examples.configuredApi)
      = [Attempt Google; Launch] ++ [Attempt GoogleAPI; Fetch params])
  /\ Scraper.searchWithRailwayOptimization Examples.localEnv 1000 (Examples.clockAt 1000)
       Examples.blockedSession (Scraper.DuckResults [Examples.duckHit]) 5
       (Scraper.initialTracker Examples.localEnv)
     = (Return [Examples.duckHit],
        Scraper.setRequests [1000] (Scraper.initialTracker Examples.localEnv),
        [Attempt Google; Launch; Attempt DuckDuckGo; Launch]).
Proof.
  destruct C2_advance_on_listed_failures_only as [Hapi Hchain].
  split.
  - destruct (Hapi "Tue Nov 03 2026" Examples.oneItemService "example query" 5
                Examples.emptyScrape Examples.configuredApi) as [_ Hadvance].
    apply Hadvance.
    + intros v [= <-]. now right.
    + reflexivity.
    + reflexivity.
  - destruct (Hchain Examples.localEnv 1000 (Examples.clockAt 1000) Examples.blockedSession
                (Scraper.DuckResults [Examples.duckHit]) 5
                (Scraper.initialTracker Examples.localEnv) eq_refl) as (Hswitch & _).
    exact (Hswitch _ eq_refl eq_refl).
Defined.

(** C2 as stated fails for both forms of an empty primary attempt. When
    Google answers with a page whose only container has no title, the
    extraction returns no result and the chain returns the empty list to
    the caller. When no result container shows up at all, the session
    throws its no-containers error and the chain throws it on. In both
    runs DuckDuckGo, which had a hit ready, is never attempted. *)
Lemma C2_counterexample_empty_primary_result_returned :
  let noContainers :=
    "Search results did not load - no result containers found after multiple attempts" in
  ResultParser.extractResults Examples.untitledHit 5 = []
  /\ Scraper.searchWithRailwayOptimization Examples.localEnv 1000 (Examples.clockAt 1000)
       (Scraper.ResultsPage Examples.untitledHit) (Scraper.DuckResults [Examples.duckHit]) 5
       (Scraper.initialTracker Examples.localEnv)
     = (Return [],
        Scraper.setRequests [1000] (Scraper.initialTracker Examples.localEnv),
        [Attempt Google; Launch])
  /\ Scraper.searchWithRailwayOptimization Examples.localEnv 1000 (Examples.clockAt 1000)
       (Scraper.SessionThrows noContainers) (Scraper.DuckResults [Examples.duckHit]) 5
       (Scraper.initialTracker Examples.localEnv)
     = (Throw noContainers,
        Scraper.setRequests [1000] (Scraper.initialTracker Examples.localEnv),
        [Attempt Google; Launch]).
Proof.
  repeat split.
Qed.

(** ** Official API client *)

Section ApiClientFacts.
Import GoogleApi ServiceContract.

Lemma parseNum_toString n : parseNum (JS.toString n) = Some n.
Proof.
  unfold parseNum, JS.toString. rewrite NilZero.isi.
  - cbn. now rewrite DecimalZ.of_to.
  - destruct n; cbn; [discriminate| |discriminate].
    intros [= H]. now apply DecimalPos.Unsigned.to_uint_nonnil in H.
  - destruct n; cbn; [discriminate|discriminate|].
    intros [= H]. now apply DecimalPos.Unsigned.to_uint_nonnil in H.
Qed.

Lemma formatItems_length index l : length (formatItems index l) = length l.
Proof.
  revert index. induction l as [|item l IH]; intros index; cbn; [reflexivity|].
  now rewrite IH.
Qed.

Lemma formatResults_length data : Z.of_nat (length (formatResults data)) = itemCount data.
Proof.
  unfold formatResults, itemCount. destruct (items data); [|reflexivity].
  now rewrite formatItems_length.
Qed.

Lemma search_events today service query limit a :
  snd (search today service query limit [] a) = [Attempt GoogleAPI]
  \/ snd (search today service query limit [] a)
     = [Attempt GoogleAPI; Fetch (plainParams (snd (isWithinLimits today a)) query limit)].
Proof.
  unfold search.
  destruct (isConfigured a); cbn [negb]; [|now left].
  destruct (isWithinLimits today a) as [within a1]. cbn [snd].
  destruct within; cbn [negb]; [|now left].
  right. unfold spread, plainParams. cbn [fold_left].
  destruct (service _) as [m|st stt txt|m|data]; try reflexivity.
  destruct (error data); reflexivity.
Qed.

Lemma search_at_most_ten today service query limit a rs :
  honoursNum service ->
  fst (fst (search today service query limit [] a)) = Return rs ->
  Z.of_nat (length rs) <= 10.
Proof.
  intros Hhon. unfold search.
  destruct (isConfigured a); cbn [negb]; [|discriminate].
  destruct (isWithinLimits today a) as [within a1].
  destruct within; cbn [negb]; [|discriminate].
  unfold spread. cbn [fold_left].
  destruct (service _) as [m|st stt txt|m|data] eqn:Es; try discriminate.
  destruct (error data); [discriminate|].
  cbn [fst]. intros [= <-]. rewrite formatResults_length.
  assert (Hle : itemCount data <= Z.min limit 10).
  { apply (Hhon _ _ _ Es). unfold requestedNum. cbn. apply parseNum_toString. }
  lia.
Qed.

Lemma plentiful_honours item : honoursNum (plentifulService item).
Proof.
  intros params data n Hs Hn. unfold plentifulService in Hs. rewrite Hn in Hs.
  destruct (Z.leb_spec 1 n) as [H1|]; [|discriminate].
  destruct (Z.leb_spec n 10) as [H10|]; [|discriminate].
  cbn [andb] in Hs. injection Hs as <-.
  unfold itemCount. cbn [items]. rewrite repeat_length. lia.
Qed.

End ApiClientFacts.

(** C10 (amended). For every configured client within its quota and
    every requested limit, search(query, limit) sends one request, which
    asks for min(limit, 10) results, that is for 10 whenever limit > 10.
    What it returns is one result for every item of the answer: the
    client does not cut the answer down, so a returned list holds at most
    10 results when the service honours the [num] parameter, and as many
    as the service sent otherwise; the same holds for a response of the
    fallback wrapper that is sourced from the API. *)
Theorem C10_api_requests_ten_and_returns_every_item
    (today : string) (service : GoogleApi.Service) (query : string) (limit : Z)
    (a : GoogleApi.GoogleSearchAPI) :
  GoogleApi.isConfigured a = true ->
  fst (GoogleApi.isWithinLimits today a) = true ->
  let run := GoogleApi.search today service query limit [] a in
  let params :=
    ServiceContract.plainParams (snd (GoogleApi.isWithinLimits today a)) query limit in
  snd run = [Attempt GoogleAPI; Fetch params]
  /\ GoogleApi.getKey "num" params = Some (JS.toString (Z.min limit 10))
  /\ ServiceContract.requestedNum params = Some (Z.min limit 10)
  /\ Z.min limit 10 <= 10
  /\ (10 < limit -> GoogleApi.getKey "num" params = Some "10")
  /\ (forall data,
         service params = GoogleApi.Json data ->
         GoogleApi.error data = None ->
         fst (fst run) = Return (GoogleApi.formatResults data)
         /\ Z.of_nat (length (GoogleApi.formatResults data))
            = ServiceContract.itemCount data)
  /\ (ServiceContract.honoursNum service ->
      forall rs, fst (fst run) = Return rs -> Z.of_nat (length rs) <= 10)
  /\ (ServiceContract.honoursNum service ->
      forall scrapingFunction o,
        fst (fst (GoogleApi.searchWithApiFallback today service query limit
                    scrapingFunction a)) = Return o ->
        GoogleApi.outcomeSource o = "api" ->
        Z.of_nat (length (GoogleApi.results o)) <= 10).
Proof.
  intros Hc Hw run params.
  assert (Hnum : GoogleApi.getKey "num" params = Some (JS.toString (Z.min limit 10)))
    by reflexivity.
  split; [|split; [|split; [|split; [|split; [|split; [|split]]]]]].
  - unfold run, params, GoogleApi.search. rewrite Hc. cbn [negb].
    destruct (GoogleApi.isWithinLimits today a) as [within a1]. cbn [fst snd] in *.
    subst within. cbn [negb]. unfold GoogleApi.spread, ServiceContract.plainParams.
    cbn [fold_left].
    destruct (service _) as [m|st stt txt|m|data]; try reflexivity.
    destruct (GoogleApi.error data); reflexivity.
  - exact Hnum.
  - unfold ServiceContract.requestedNum. rewrite Hnum. apply parseNum_toString.
  - lia.
  - intros Hbig. rewrite Hnum. now replace (Z.min limit 10) with 10 by lia.
  - intros data Hs He. split; [|apply formatResults_length].
    unfold run, GoogleApi.search. rewrite Hc. cbn [negb].
    unfold params in Hs.
    destruct (GoogleApi.isWithinLimits today a) as [within a1]. cbn [fst snd] in *.
    subst within. cbn [negb]. unfold GoogleApi.spread. cbn [fold_left].
    unfold ServiceContract.plainParams in Hs. rewrite Hs, He. reflexivity.
  - intros Hhon rs. now apply search_at_most_ten.
  - intros Hhon scrapingFunction o. unfold GoogleApi.searchWithApiFallback.
    destruct (scrapingFunction query limit a) as [[scr b1] e1].
    assert (Hapi :
              forall error,
                fst (fst (if GoogleApi.isConfigured b1
                          then
                            let '(within, a2) := GoogleApi.isWithinLimits today b1 in
                            if within
                            then
                              match GoogleApi.search today service query limit [] a2 with
                              | (Return rs, a3, ev2) =>
                                  if GoogleApi.nonEmpty rs
                                  then (Return {| GoogleApi.results := map GoogleApi.FromApi rs;
                                                  GoogleApi.searchEngine := "Google API";
                                                  GoogleApi.outcomeSource := "api" |},
                                        a3, e1 ++ ev2)
                                  else (Throw (GoogleApi.allFailed error), a3, e1 ++ ev2)
                              | (Throw m, a3, ev2) =>
                                  (Throw (GoogleApi.allFailed (Some m)), a3, e1 ++ ev2)
                              end
                            else (Throw (GoogleApi.allFailed error), a2, e1)
                          else (Throw (GoogleApi.allFailed error), b1, e1))) = Return o ->
                Z.of_nat (length (GoogleApi.results o)) <= 10).
    { intros error.
      destruct (GoogleApi.isConfigured b1); [|discriminate].
      destruct (GoogleApi.isWithinLimits today b1) as [within b2].
      destruct within; [|discriminate].
      pose proof (fun rs => search_at_most_ten today service query limit b2 rs Hhon)
        as Hten.
      destruct (GoogleApi.search today service query limit [] b2) as [[[m'|rs] b3] e2];
        [discriminate|].
      destruct (GoogleApi.nonEmpty rs); [|discriminate].
      intros [= <-]. cbn [GoogleApi.results]. rewrite length_map.
      now apply Hten. }
    destruct scr as [m|v].
    + intros Hret _. exact (Hapi _ Hret).
    + destruct (GoogleApi.resultsOf v) as [rs0|].
      * destruct (GoogleApi.nonEmpty rs0).
        -- intros [= <-]. discriminate.
        -- intros Hret _. exact (Hapi _ Hret).
      * intros Hret _. exact (Hapi _ Hret).
Qed.

(** A caller asks for 25 results from a service with plenty of matches:
    the request carries num = 10 and ten results come back. *)
Lemma C10_witness_limit_25 :
  let run :=
    GoogleApi.search "Tue Nov 03 2026"
      (ServiceContract.plentifulService Examples.anItem) "example query" 25 []
      Examples.configuredApi in
  snd run = [Attempt GoogleAPI;
             Fetch [("key", "key"); ("cx", "cx"); ("q", "example query"); ("num", "10")]]
  /\ exists rs, fst (fst run) = Return rs /\ length rs = 10%nat /\ Z.of_nat (length rs) <= 10.
Proof.
  intros run.
  pose proof (C10_api_requests_ten_and_returns_every_item "Tue Nov 03 2026"
                (ServiceContract.plentifulService Examples.anItem) "example query" 25
                Examples.configuredApi eq_refl eq_refl)
    as (Hsent & _ & _ & _ & _ & _ & Hret & _).
  split; [exact Hsent|].
  eexists. split; [reflexivity|]. split; [reflexivity|].
  apply (Hret (plentiful_honours Examples.anItem)). reflexivity.
Defined.

(** C10 as stated fails: the bound on what is returned is the service's,
    not the client's. A caller asks for 25 results, the request carries
    num = 10, the service answers with eleven items, and all eleven come
    back. *)
Lemma C10_counterexample_eleven_items :
  let run :=
    GoogleApi.search "Tue Nov 03 2026" MoreExamples.generousService "example query" 25 []
      Examples.configuredApi in
  snd run = [Attempt GoogleAPI;
             Fetch [("key", "key"); ("cx", "cx"); ("q", "example query"); ("num", "10")]]
  /\ exists rs,
      fst (fst run) = Return rs /\ length rs = 11%nat /\ ~ Z.of_nat (length rs) <= 10.
Proof.
  split; [reflexivity|]. eexists. split; [reflexivity|]. split; [reflexivity|].
  cbn. lia.
Qed.

(** ** Content extraction and the extract route *)

Section ExtractionFacts.
Import Extraction Server.

Variable newURL : string -> option URL.

(** a flagged advisory always names a platform *)
Lemma flagged_content_has_platform variant browser url fullPage includeImages content
    events :
  extractContent newURL variant browser url fullPage includeImages
  = (Return content, events) ->
  isTrue (loginRequired content) || isTrue (isEmpty content) = true ->
  exists p, contentPlatform content = Some p /\ JS.truthy p = true.
Proof.
  unfold extractContent, detectPlatform.
  destruct (newURL url) as [urlObj|]; [|discriminate].
  set (info := detectPlatformOf urlObj).
  destruct (String.eqb (platform info) "linkedin" && requiresAuth info
            && negb (publicContentPossible info)).
  { intros [= <- _]. discriminate. }
  destruct browser as [m|m|page]; [discriminate|discriminate|].
  match goal with
  | |- context [if ?c then _ else _] => destruct c
  end.
  { intros [= <- _] _. now exists "linkedin". }
  destruct variant; [discriminate|].
  destruct (strLength (cleanMarkdown page) <? 50) eqn:Eshort; cbn [andb].
  - destruct (String.eqb (platform info) "general") eqn:Egen; cbn [negb].
    + intros [= <- _]. discriminate.
    + intros [= <- _] _. exists (platform info). split; [reflexivity|].
      unfold info, detectPlatformOf in *.
      destruct (JS.includes (JS.toLowerCase (hostname urlObj)) "linkedin.com");
        [reflexivity|].
      destruct (JS.includes (JS.toLowerCase (hostname urlObj)) "facebook.com"
                || JS.includes (JS.toLowerCase (hostname urlObj)) "fb.com");
        [reflexivity|].
      destruct (JS.includes (JS.toLowerCase (hostname urlObj)) "twitter.com"
                || JS.includes (JS.toLowerCase (hostname urlObj)) "x.com");
        [reflexivity|discriminate].
  - intros [= <- _]. discriminate.
Qed.

(** the route answers a flagged advisory with 422, suggestions and a
    message *)
Lemma flagged_content_answered_422 browser extractedAt query url fullPage includeImages
    content events :
  qUrl query = Some url ->
  JS.truthy url = true ->
  newURL url <> None ->
  fullPage = (isString (qFull query) "true" || isString (qFull query) "1") ->
  includeImages
  = (negb (isString (qImages query) "false") && negb (isString (qImages query) "0")) ->
  extractContent newURL ServerScraper browser url fullPage includeImages
  = (Return content, events) ->
  isTrue (loginRequired content) || isTrue (isEmpty content) = true ->
  exists suggestions message,
    getExtract newURL browser extractedAt query
    = ({| status := 422;
          body := ExtractBody url content extractedAt (Some suggestions) (Some message) |},
       events).
Proof.
  intros Hq Ht Hparse -> -> Hextract Hflag.
  destruct (flagged_content_has_platform _ _ _ _ _ _ _ Hextract Hflag) as (p & Hp & Htp).
  unfold getExtract. rewrite Hq. cbn [JS.truthyOpt JS.tpl]. rewrite Ht. cbn [negb].
  destruct (newURL url); [|congruence].
  rewrite Hextract, Hp, Htp, Hflag. cbn [andb].
  eexists. eexists. reflexivity.
Qed.

(** the short circuit of [extractContent] *)
Lemma short_circuit variant browser url fullPage includeImages urlObj :
  newURL url = Some urlObj ->
  platform (detectPlatformOf urlObj) = "linkedin" ->
  requiresAuth (detectPlatformOf urlObj) = true ->
  publicContentPossible (detectPlatformOf urlObj) = false ->
  extractContent newURL variant browser url fullPage includeImages
  = (Return {| title := "LinkedIn Content Requires Authentication";
               markdown := authRequiredMarkdown url;
               url := url;
               extractionType := "authentication-required";
               contentPlatform := Some "linkedin";
               loginRequired := None;
               isEmpty := None;
               debug := None |}, []).
Proof.
  intros Hparse Hp Ha Hpub. unfold extractContent, detectPlatform.
  rewrite Hparse, Hp, Ha, Hpub. reflexivity.
Qed.

End ExtractionFacts.

(** C4 (defect of the code, evaluated at the failing input). A request for
    a LinkedIn profile URL is answered by the pre-navigation short
    circuit, whatever the browser would do. The advisory says that
    authentication is required, but it carries neither the loginRequired
    nor the isEmpty flag that the route tests, so the response has status
    200 and no suggestions and no message. *)
Theorem C4_short_circuit_advisory_answered_200
    (browser : Extraction.Browser) (extractedAt : string) :
  let url := "https://www.linkedin.com/in/alice" in
  exists content,
    Server.getExtract PlainUrl.parse browser extractedAt (Examples.extractQuery url)
    = ({| Server.status := 200;
          Server.body := Server.ExtractBody url content extractedAt None None |}, [])
    /\ Extraction.title content = "LinkedIn Content Requires Authentication"
    /\ Extraction.extractionType content = "authentication-required"
    /\ Extraction.contentPlatform content = Some "linkedin"
    /\ Extraction.loginRequired content = None
    /\ Extraction.isEmpty content = None.
Proof.
  intros url. eexists. repeat split.
Qed.

(** C8 (amended). For every extraction request whose URL is classified as
    the linkedin platform, requiring authentication, with no
    public-content exception, extractContent returns the
    authentication-required advisory with no browser launch and no page
    navigation, whatever the browser would do, in the server's scraper
    and in the environment-aware one. The short circuit is for LinkedIn
    only. *)
Theorem C8_linkedin_short_circuit_without_navigation
    (newURL : string -> option Extraction.URL) (variant : Extraction.Variant)
    (browser : Extraction.Browser)
    (url : string) (fullPage includeImages : bool) (urlObj : Extraction.URL) :
  newURL url = Some urlObj ->
  Extraction.platform (Extraction.detectPlatformOf urlObj) = "linkedin" ->
  Extraction.requiresAuth (Extraction.detectPlatformOf urlObj) = true ->
  Extraction.publicContentPossible (Extraction.detectPlatformOf urlObj) = false ->
  exists content,
    Extraction.extractContent newURL variant browser url fullPage includeImages
    = (Return content, [])
    /\ Extraction.extractionType content = "authentication-required"
    /\ Extraction.title content = "LinkedIn Content Requires Authentication"
    /\ Extraction.contentPlatform content = Some "linkedin"
    /\ Extraction.url content = url.
Proof.
  intros Hparse Hp Ha Hpub. eexists. split.
  - now apply short_circuit with (urlObj := urlObj).
  - repeat split.
Qed.

(** A LinkedIn profile URL is answered without a launch or a navigation
    even when the page would have loaded. *)
Lemma C8_witness_linkedin_profile :
  exists content,
    Extraction.extractContent PlainUrl.parse Extraction.ServerScraper
      (Extraction.Loaded Examples.profilePage)
      "https://www.linkedin.com/in/alice" false true
    = (Return content, [])
    /\ Extraction.extractionType content = "authentication-required"
    /\ Extraction.title content = "LinkedIn Content Requires Authentication"
    /\ Extraction.contentPlatform content = Some "linkedin"
    /\ Extraction.url content = "https://www.linkedin.com/in/alice".
Proof.
  apply (C8_linkedin_short_circuit_without_navigation PlainUrl.parse
           Extraction.ServerScraper
           (Extraction.Loaded Examples.profilePage) "https://www.linkedin.com/in/alice"
           false true
           {| Extraction.hostname := "www.linkedin.com"; Extraction.pathname := "/in/alice" |});
    reflexivity.
Defined.

(** C8 as stated fails for a Facebook profile URL: it is classified as
    requiring authentication with no public-content exception, and both
    scrapers launch the browser and navigate to it. After the
    navigation the server's scraper fails in [page.evaluate], which it
    calls with three arguments; the environment-aware scraper returns
    the content of the page. *)
Lemma C8_counterexample_facebook_profile :
  let url := "https://www.facebook.com/alice" in
  let run variant :=
    Extraction.extractContent PlainUrl.parse variant
      (Extraction.Loaded Examples.profilePage) url false true in
  PlainUrl.parse url
  = Some {| Extraction.hostname := "www.facebook.com"; Extraction.pathname := "/alice" |}
  /\ Extraction.detectPlatform PlainUrl.parse url
     = Return {| Extraction.platform := "facebook";
                 Extraction.requiresAuth := true;
                 Extraction.publicContentPossible := false;
                 Extraction.contentType := None |}
  /\ snd (run Extraction.ServerScraper) = [Launch; Goto url]
  /\ snd (run Extraction.EnvironmentAware) = [Launch; Goto url]
  /\ (exists message,
        fst (run Extraction.ServerScraper) = Throw message
        /\ JS.includes message "Too many arguments" = true)
  /\ exists content,
      fst (run Extraction.EnvironmentAware) = Return content
      /\ Extraction.extractionType content = "main-content".
Proof.
  repeat split; eexists; split; reflexivity.
Qed.

(** * Further properties of the code *)

(** ** The request tracker and the environment-aware chain *)

Section TrackerFacts.
Import Scraper.

Lemma fold_max_ge rs : forall r x, In x (r :: rs) -> x <= fold_left Z.max rs r.
Proof.
  induction rs as [|y rs IH]; intros r x Hin; cbn.
  - destruct Hin as [->|[]]. lia.
  - destruct Hin as [->|[->|Hin]].
    + etransitivity; [|apply IH; now left]. lia.
    + etransitivity; [|apply IH; now left]. lia.
    + apply IH. now right.
Qed.

Lemma getLastRequestTime_ge t x :
  In x (requests t) -> x <= getLastRequestTime t.
Proof.
  unfold getLastRequestTime. destruct (requests t) as [|r rs]; [intros []|].
  apply fold_max_ge.
Qed.

(** the wait of the tracker: never negative, and long enough for every
    recorded request to be [minDelayBetweenRequests] old when it ends *)
Lemma getWaitTime_spaces_requests now t :
  (forall r, In r (requests t) -> 0 < r) ->
  0 <= getWaitTime now t
  /\ forall r, In r (requests t) ->
       minDelayBetweenRequests t <= now + getWaitTime now t - r.
Proof.
  intros Hpos. unfold getWaitTime. split.
  - destruct (getLastRequestTime t =? 0); lia.
  - intros r Hin. pose proof (getLastRequestTime_ge t r Hin) as Hge.
    specialize (Hpos r Hin).
    destruct (Z.eqb_spec (getLastRequestTime t) 0) as [E|_]; lia.
Qed.

Lemma getWaitTime_spaces_requests_witness :
  0 <= getWaitTime 5000 (setRequests [1000; 4000; 2000] (initialTracker Examples.localEnv))
  /\ forall r, In r [1000; 4000; 2000] ->
       minDelayBetweenRequests (initialTracker Examples.localEnv)
       <= 5000 + getWaitTime 5000
                   (setRequests [1000; 4000; 2000] (initialTracker Examples.localEnv)) - r.
Proof.
  apply (getWaitTime_spaces_requests 5000
           (setRequests [1000; 4000; 2000] (initialTracker Examples.localEnv))).
  intros r Hin. cbn in Hin. lia.
Defined.

Lemma peak_ge_waiting schedule : forall s,
  (Overlap.waiting s <= Overlap.peak schedule s)%nat.
Proof. destruct schedule; intros s; cbn; lia. Qed.

Lemma overlap_step_bound p s K :
  (Overlap.waiting (Overlap.step p s) <= K)%nat ->
  Z.of_nat (length (requests (Overlap.shared s))) + Z.of_nat (Overlap.waiting s)
  <= maxRequestsPerMinute (Overlap.shared s) + Z.of_nat K - 1 ->
  Z.of_nat (length (requests (Overlap.shared (Overlap.step p s))))
  + Z.of_nat (Overlap.waiting (Overlap.step p s))
  <= maxRequestsPerMinute (Overlap.shared s) + Z.of_nat K - 1
  /\ maxRequestsPerMinute (Overlap.shared (Overlap.step p s))
     = maxRequestsPerMinute (Overlap.shared s).
Proof.
  destruct p as [t|t]; cbn [Overlap.step].
  - unfold canMakeRequest.
    set (kept := List.filter (fun timestamp => t - 60000 <? timestamp)
                   (requests (Overlap.shared s))).
    assert (Hkept : (length kept <= length (requests (Overlap.shared s)))%nat)
      by apply List.filter_length_le.
    cbn [requests setRequests maxRequestsPerMinute Overlap.shared Overlap.waiting].
    destruct (Z.ltb_spec (Z.of_nat (length kept))
                (maxRequestsPerMinute (Overlap.shared s))); intros Hw Hinv;
      (split; [lia|reflexivity]).
  - destruct (Overlap.waiting s) as [|n] eqn:Ew; [intros _ Hinv; now rewrite Ew|].
    cbn [Overlap.shared Overlap.waiting addRequest requests setRequests
         maxRequestsPerMinute].
    intros _ Hinv. rewrite length_app. cbn [length]. split; [lia|reflexivity].
Qed.

Lemma overlap_run_bound schedule : forall s K,
  (Overlap.peak schedule s <= K)%nat ->
  Z.of_nat (length (requests (Overlap.shared s))) + Z.of_nat (Overlap.waiting s)
  <= maxRequestsPerMinute (Overlap.shared s) + Z.of_nat K - 1 ->
  Z.of_nat (length (requests (Overlap.shared (Overlap.run schedule s))))
  + Z.of_nat (Overlap.waiting (Overlap.run schedule s))
  <= maxRequestsPerMinute (Overlap.shared s) + Z.of_nat K - 1.
Proof.
  induction schedule as [|p rest IH]; intros s K Hpeak Hinv; [exact Hinv|].
  cbn [Overlap.peak] in Hpeak. change (Overlap.run (p :: rest) s)
    with (Overlap.run rest (Overlap.step p s)).
  pose proof (peak_ge_waiting rest (Overlap.step p s)) as Hge.
  destruct (overlap_step_bound p s K ltac:(lia) Hinv) as [Hstep Hmax].
  rewrite <- Hmax. apply IH; [lia|]. now rewrite Hmax.
Qed.

Lemma searchGoogle_as_phases clock session limit tracker :
  snd (fst (searchGoogle clock session limit tracker))
  = Overlap.shared (Overlap.run [Overlap.Enter (tCheck clock); Overlap.Record (tAdd clock)]
                      (Overlap.start tracker)).
Proof.
  unfold searchGoogle. cbn [Overlap.run fold_left Overlap.step Overlap.start
                            Overlap.shared Overlap.waiting].
  destruct (canMakeRequest (tCheck clock) tracker) as [allowed tracker1].
  destruct allowed; cbn [negb Overlap.waiting Overlap.shared]; [|reflexivity].
  destruct session; reflexivity.
Qed.

(** calls of [searchGoogle] that overlap: a call that runs alone is the
    check followed by the record, and in any schedule of checks and
    records the tracker holds at most its limit plus the number of
    calls that were ever waiting at the same time, minus one; calls
    that never overlap keep it within the limit, two that do can leave
    one timestamp more *)
Lemma overlapping_calls_pass_the_limit_by_the_overlap_only schedule clock session limit
    tracker :
  Z.of_nat (length (requests tracker)) <= maxRequestsPerMinute tracker ->
  snd (fst (searchGoogle clock session limit tracker))
  = Overlap.shared (Overlap.run [Overlap.Enter (tCheck clock); Overlap.Record (tAdd clock)]
                      (Overlap.start tracker))
  /\ Z.of_nat (length (requests
                         (Overlap.shared (Overlap.run schedule (Overlap.start tracker)))))
     + Z.of_nat (Overlap.waiting (Overlap.run schedule (Overlap.start tracker)))
     <= maxRequestsPerMinute tracker
        + Z.of_nat (Nat.max 1 (Overlap.peak schedule (Overlap.start tracker))) - 1.
Proof.
  intros Hlen. split; [apply searchGoogle_as_phases|].
  apply (overlap_run_bound schedule (Overlap.start tracker)); [lia|cbn; lia].
Qed.

(** Two calls in development mode (limit 2) that both pass the check
    while one request is recorded, and record after their sleeps: three
    timestamps are left, the limit plus one. *)
Lemma overlapping_calls_pass_the_limit_by_the_overlap_only_witness :
  let tracker := setRequests [3000] (initialTracker Examples.localEnv) in
  let schedule :=
    [Overlap.Enter 10000; Overlap.Enter 11000; Overlap.Record 33000; Overlap.Record 33000] in
  length (requests (Overlap.shared (Overlap.run schedule (Overlap.start tracker)))) = 3%nat
  /\ Z.of_nat (length (requests
                         (Overlap.shared (Overlap.run schedule (Overlap.start tracker)))))
     + Z.of_nat (Overlap.waiting (Overlap.run schedule (Overlap.start tracker)))
     <= 2 + Z.of_nat (Nat.max 1 (Overlap.peak schedule (Overlap.start tracker))) - 1.
Proof.
  split; [reflexivity|].
  apply (proj2 (overlapping_calls_pass_the_limit_by_the_overlap_only
                  [Overlap.Enter 10000; Overlap.Enter 11000;
                   Overlap.Record 33000; Overlap.Record 33000]
                  (Examples.clockAt 10000) Examples.blockedSession 5
                  (setRequests [3000] (initialTracker Examples.localEnv))
                  ltac:(now vm_compute))).
Defined.

(** a rate-limited Google attempt on the standard path ends the chain:
    the refusal is no trigger for DuckDuckGo and no browser is launched *)
Lemma rate_limited_chain_fails_fast env now clock google duck limit tracker :
  RailwayConfig.isRailway env && (2 <=? recentCount now tracker) = false ->
  fst (canMakeRequest (tCheck clock) tracker) = false ->
  searchWithRailwayOptimization env now clock google duck limit tracker
  = (Throw rateLimitMessage, snd (canMakeRequest (tCheck clock) tracker), [Attempt Google]).
Proof.
  intros Hstd Hfull. rewrite standard_path by exact Hstd.
  unfold searchGoogle.
  destruct (canMakeRequest (tCheck clock) tracker) as [allowed tracker1].
  cbn [fst snd] in *. subst allowed. cbn [negb].
  replace (googleIssue rateLimitMessage) with false by now vm_compute.
  replace (networkIssue rateLimitMessage) with false by now vm_compute.
  now rewrite andb_false_r.
Qed.

Lemma rate_limited_chain_fails_fast_witness :
  searchWithRailwayOptimization Examples.localEnv 70000 (Examples.clockAt 70000)
    Examples.blockedSession Examples.failingDuck 5
    (setRequests [40000; 50000] (initialTracker Examples.localEnv))
  = (Throw rateLimitMessage,
     snd (canMakeRequest 70000 (setRequests [40000; 50000] (initialTracker Examples.localEnv))),
     [Attempt Google]).
Proof.
  apply (rate_limited_chain_fails_fast Examples.localEnv 70000 (Examples.clockAt 70000)
           Examples.blockedSession Examples.failingDuck 5
           (setRequests [40000; 50000] (initialTracker Examples.localEnv)));
    now vm_compute.
Defined.

Lemma searchGoogle_counts clock session limit tracker :
  Traces.attempts Google (snd (searchGoogle clock session limit tracker)) = 1%nat
  /\ Traces.attempts DuckDuckGo (snd (searchGoogle clock session limit tracker)) = 0%nat
  /\ (Traces.launches (snd (searchGoogle clock session limit tracker)) <= 1)%nat.
Proof.
  unfold searchGoogle.
  destruct (canMakeRequest (tCheck clock) tracker) as [allowed tracker1].
  destruct allowed; cbn [negb]; [|cbn; lia].
  destruct (0 <? getWaitTime (tWait clock) tracker1); destruct session; cbn; lia.
Qed.

Lemma counts_app e (l1 l2 : list Event) :
  Traces.attempts e (l1 ++ l2) = (Traces.attempts e l1 + Traces.attempts e l2)%nat
  /\ Traces.launches (l1 ++ l2) = (Traces.launches l1 + Traces.launches l2)%nat
  /\ Traces.fetches (l1 ++ l2) = (Traces.fetches l1 + Traces.fetches l2)%nat.
Proof.
  unfold Traces.attempts, Traces.launches, Traces.fetches.
  now rewrite !List.filter_app, !length_app.
Qed.

(** one call of the chain tries each engine at most once, and launches
    at most one browser for each engine it tries *)
Lemma chain_tries_each_engine_once env now clock google duck limit tracker :
  let events := snd (searchWithRailwayOptimization env now clock google duck limit tracker) in
  (Traces.attempts Google events <= 1)%nat
  /\ (Traces.attempts DuckDuckGo events <= 1)%nat
  /\ (Traces.launches events
      <= Traces.attempts Google events + Traces.attempts DuckDuckGo events)%nat.
Proof.
  pose proof (searchGoogle_counts clock google limit tracker) as (Hg & Hd & Hl).
  pose proof (searchDuckDuckGo_events duck) as Hduck.
  assert (Hcombine : forall ev1 ev2,
    (ev1 = snd (searchGoogle clock google limit tracker)
     /\ ev2 = snd (searchDuckDuckGo duck))
    \/ (ev1 = snd (searchDuckDuckGo duck)
        /\ ev2 = snd (searchGoogle clock google limit tracker)) ->
    (Traces.attempts Google (ev1 ++ ev2) <= 1)%nat
    /\ (Traces.attempts DuckDuckGo (ev1 ++ ev2) <= 1)%nat
    /\ (Traces.launches (ev1 ++ ev2)
        <= Traces.attempts Google (ev1 ++ ev2)
           + Traces.attempts DuckDuckGo (ev1 ++ ev2))%nat).
  { intros ev1 ev2 Hor.
    destruct (counts_app Google ev1 ev2) as (-> & -> & _).
    destruct (counts_app DuckDuckGo ev1 ev2) as (-> & _ & _).
    destruct Hor as [[-> ->]|[-> ->]]; rewrite Hduck, Hg, Hd;
      set (n := Traces.launches (snd (searchGoogle clock google limit tracker))) in *;
      clearbody n; cbn; lia. }
  cbv zeta. unfold searchWithRailwayOptimization.
  destruct (RailwayConfig.isRailway env && (2 <=? recentCount now tracker)).
  - destruct (searchDuckDuckGo duck) as [[m|rs] ev] eqn:Ed; cbn [snd] in *.
    + destruct (searchGoogle clock google limit tracker) as [[r t'] ev'] eqn:Eg.
      cbn [snd] in *. apply Hcombine. right. now split.
    + subst ev. cbn. lia.
  - destruct (searchGoogle clock google limit tracker) as [[[m|rs] t'] ev] eqn:Eg;
      cbn [snd] in *; [|lia].
    destruct (googleIssue m).
    + destruct (searchDuckDuckGo duck) as [r ev'] eqn:Ed. cbn [snd] in *.
      apply Hcombine. left. now split.
    + destruct (RailwayConfig.isRailway env && networkIssue m); [|cbn [snd]; lia].
      destruct (searchDuckDuckGo duck) as [r ev'] eqn:Ed. cbn [snd] in *.
      apply Hcombine. left. now split.
Qed.

End TrackerFacts.

(** ** The adaptive limiter over time *)

Section LimiterFacts.
Import AdaptiveRateLimiter.




Lemma adaptDelay_range s :
  (0 <= minDelay s)%Q ->
  (minDelay s <= currentDelay s <= maxDelay s)%Q ->
  (minDelay s <= currentDelay (adaptDelayBasedOnHistory s) <= maxDelay s)%Q
  /\ minDelay (adaptDelayBasedOnHistory s) = minDelay s
  /\ maxDelay (adaptDelayBasedOnHistory s) = maxDelay s.
Proof.
  intros Hmin Hcur. unfold adaptDelayBasedOnHistory.
  destruct (negb (adaptiveEnabled s)); [now repeat split|].
  destruct (successRate s) as [rate|]; [|now repeat split].
  destruct (Qltb rate (7 # 10)).
  - cbn [currentDelay minDelay maxDelay setCurrentDelay].
    split; [|split; reflexivity].
    destruct (Q.min_spec (maxDelay s) (currentDelay s * (15 # 10))) as [[? ->]|[? ->]]; lra.
  - destruct (Qltb (9 # 10) rate && Qltb (minDelay s) (currentDelay s));
      [|now repeat split].
    cbn [currentDelay minDelay maxDelay setCurrentDelay].
    split; [|split; reflexivity].
    destruct (Q.max_spec (minDelay s) (currentDelay s * (8 # 10))) as [[? ->]|[? ->]]; lra.
Qed.

Lemma wait_range now nowAfter hour dayOfWeek g s :
  (0 <= minDelay s)%Q ->
  (minDelay s <= currentDelay s <= maxDelay s)%Q ->
  let s' := fst (fst (waitForNextRequest now nowAfter hour dayOfWeek g s)) in
  (minDelay s' <= currentDelay s' <= maxDelay s')%Q
  /\ minDelay s' = minDelay s /\ maxDelay s' = maxDelay s.
Proof.
  intros Hmin Hcur. cbv zeta. unfold waitForNextRequest, canMakeRequest.
  cbn [requests setRequests maxRequestsPerMinute].
  destruct (negb _); [cbn; now repeat split|].
  destruct (getNextDelay _ _ _ _) as [delay g1]. cbn [fst].
  match goal with |- context [adaptDelayBasedOnHistory ?x] => set (s2 := x) end.
  destruct (adaptDelay_range s2 Hmin Hcur) as (H1 & H2 & H3).
  rewrite H2, H3. cbn [minDelay maxDelay] in *. now repeat split.
Qed.

(** however many waits are run, the delay stays between its bounds *)
Lemma waits_keep_delay_within_bounds calls : forall g s,
  (0 <= minDelay s)%Q ->
  (minDelay s <= currentDelay s <= maxDelay s)%Q ->
  (minDelay s <= currentDelay (fst (LimiterStats.waits calls g s)) <= maxDelay s)%Q.
Proof.
  induction calls as [|c calls IH]; intros g s Hmin Hcur; cbn [LimiterStats.waits fst].
  - exact Hcur.
  - pose proof (wait_range (EnhancedScraper.now c) (EnhancedScraper.nowAfter c)
                  (EnhancedScraper.hour c) (EnhancedScraper.dayOfWeek c) g s Hmin Hcur)
      as Hstep. cbv zeta in Hstep.
    destruct (waitForNextRequest _ _ _ _ g s) as [[s1 g1] ev]. cbn [fst] in Hstep.
    destruct Hstep as (Hr & E1 & E2). rewrite <- E1, <- E2.
    apply IH; [rewrite E1; exact Hmin|exact Hr].
Qed.

Lemma waits_keep_delay_within_bounds_witness :
  (2000 <= currentDelay
     (fst (LimiterStats.waits
             [ {| EnhancedScraper.now := 1000; EnhancedScraper.nowAfter := 4000;
                  EnhancedScraper.hour := 10; EnhancedScraper.dayOfWeek := 2 |};
               {| EnhancedScraper.now := 5000; EnhancedScraper.nowAfter := 9000;
                  EnhancedScraper.hour := 10; EnhancedScraper.dayOfWeek := 2 |} ]
             Examples.calmRNG Examples.afterFailures)) <= 60000)%Q.
Proof.
  apply (waits_keep_delay_within_bounds
           [ {| EnhancedScraper.now := 1000; EnhancedScraper.nowAfter := 4000;
                EnhancedScraper.hour := 10; EnhancedScraper.dayOfWeek := 2 |};
             {| EnhancedScraper.now := 5000; EnhancedScraper.nowAfter := 9000;
                EnhancedScraper.hour := 10; EnhancedScraper.dayOfWeek := 2 |} ]
           Examples.calmRNG Examples.afterFailures); now vm_compute.
Defined.

Lemma wait_keeps_empty_history now nowAfter hour dayOfWeek g s :
  successHistory s = [] -> failureHistory s = [] ->
  let s' := fst (fst (waitForNextRequest now nowAfter hour dayOfWeek g s)) in
  successHistory s' = [] /\ failureHistory s' = [] /\ currentDelay s' = currentDelay s.
Proof.
  intros Hs Hf. cbv zeta. unfold waitForNextRequest, canMakeRequest.
  cbn [requests setRequests maxRequestsPerMinute].
  destruct (negb _); [cbn; now repeat split|].
  destruct (getNextDelay _ _ _ _) as [delay g1]. cbn [fst].
  unfold adaptDelayBasedOnHistory, successRate.
  cbn [adaptiveEnabled successHistory failureHistory setRequests].
  rewrite Hs, Hf. cbn [JS.sliceLast length skipn Nat.sub Nat.add].
  destruct (negb (adaptiveEnabled s)); cbn; now repeat split.
Qed.

(** while no outcome is recorded the success rate is 0/0, no comparison
    with it holds, and the delay never moves *)
Lemma delay_never_adapts_without_recorded_outcomes calls : forall g s,
  successHistory s = [] -> failureHistory s = [] ->
  currentDelay (fst (LimiterStats.waits calls g s)) = currentDelay s.
Proof.
  induction calls as [|c calls IH]; intros g s Hs Hf; cbn [LimiterStats.waits fst].
  - reflexivity.
  - pose proof (wait_keeps_empty_history (EnhancedScraper.now c) (EnhancedScraper.nowAfter c)
                  (EnhancedScraper.hour c) (EnhancedScraper.dayOfWeek c) g s Hs Hf)
      as Hstep. cbv zeta in Hstep.
    destruct (waitForNextRequest _ _ _ _ g s) as [[s1 g1] ev]. cbn [fst] in Hstep.
    destruct Hstep as (Hs1 & Hf1 & <-). now apply IH.
Qed.

Lemma delay_never_adapts_without_recorded_outcomes_witness :
  currentDelay
    (fst (LimiterStats.waits
            [ {| EnhancedScraper.now := 1000; EnhancedScraper.nowAfter := 4000;
                 EnhancedScraper.hour := 10; EnhancedScraper.dayOfWeek := 2 |};
              {| EnhancedScraper.now := 5000; EnhancedScraper.nowAfter := 9000;
                 EnhancedScraper.hour := 23; EnhancedScraper.dayOfWeek := 6 |} ]
            Examples.calmRNG new))
  = currentDelay new.
Proof.
  apply (delay_never_adapts_without_recorded_outcomes
           [ {| EnhancedScraper.now := 1000; EnhancedScraper.nowAfter := 4000;
                EnhancedScraper.hour := 10; EnhancedScraper.dayOfWeek := 2 |};
             {| EnhancedScraper.now := 5000; EnhancedScraper.nowAfter := 9000;
                EnhancedScraper.hour := 23; EnhancedScraper.dayOfWeek := 6 |} ]
           Examples.calmRNG new); reflexivity.
Defined.

End LimiterFacts.

Section CircadianFacts.
Import AdaptiveRateLimiter.

Lemma clamp_monotone s x y : (x <= y)%Q -> (clamp s x <= clamp s y)%Q.
Proof.
  intros Hxy. unfold clamp.
  apply Q.max_le_compat_l, Q.min_le_compat_l, Hxy.
Qed.

(** with the patterns and the multiplier table of the constructor, the
    same draw and the same day, the base delay computed between midnight
    and 3 AM is never above the one computed between 9 AM and noon *)
Lemma night_delay_not_above_morning_delay night morning dayOfWeek g s :
  humanPatterns s = humanPatterns new ->
  circadianMultipliers s = circadianMultipliers new ->
  (0 <= currentDelay s)%Q ->
  (0 <= gen g (pos g))%Q ->
  0 <= night < 3 ->
  9 <= morning < 12 ->
  (fst (calculateHumanDelay night dayOfWeek g s)
   <= fst (calculateHumanDelay morning dayOfWeek g s))%Q.
Proof.
  intros Hp Hc Hcur Hdraw Hnight Hmorning.
  unfold calculateHumanDelay, circadianMultiplierAt, random.
  rewrite Hp, Hc. cbn [fst].
  replace (night / 3 * 3) with 0
    by (rewrite Z.div_small by lia; reflexivity).
  replace (morning / 3 * 3) with 9
    by (replace (morning / 3) with 3
          by (apply Z.div_unique with (r := morning - 9); lia);
        reflexivity).
  cbn [new humanPatterns circadianMultipliers lookupMultiplier workingHours lunchBreak
       start end_ weekendSlowdown Z.eqb Pos.eqb].
  replace (9 <=? night) with false by (symmetry; apply Z.leb_gt; lia).
  replace (12 <=? night) with false by (symmetry; apply Z.leb_gt; lia).
  replace (9 <=? morning) with true by (symmetry; apply Z.leb_le; lia).
  replace (morning <? 17) with true by (symmetry; apply Z.ltb_lt; lia).
  replace (12 <=? morning) with false by (symmetry; apply Z.leb_gt; lia).
  cbn [andb negb Qeq_bool Qnum Qden Z.mul Pos.mul Z.eqb Pos.eqb].
  apply clamp_monotone.
  set (c := currentDelay s) in *. set (r := gen g (pos g)) in *.
  assert (Hf : (0 <= c * (1 + (r - (5 # 10)) * 2 * (3 # 10)))%Q)
    by (apply Qmult_le_0_compat; lra).
  set (p := (c * (1 + (r - (5 # 10)) * 2 * (3 # 10)))%Q) in *.
  destruct ((dayOfWeek =? 0) || (dayOfWeek =? 6)); cbn [negb].
  - assert (E1 : (c * (3 # 10) * (1 / (7 # 10)) * (1 + (r - (5 # 10)) * 2 * (3 # 10))
                  == (3 # 7) * p)%Q) by (unfold p; field).
    assert (E2 : (c * 1 * (1 / (7 # 10)) * (1 + (r - (5 # 10)) * 2 * (3 # 10))
                  == (10 # 7) * p)%Q) by (unfold p; field).
    rewrite E1, E2. lra.
  - assert (E1 : (c * (3 # 10) * (15 # 10) * (1 + (r - (5 # 10)) * 2 * (3 # 10))
                  == (45 # 100) * p)%Q) by (unfold p; ring).
    assert (E2 : (c * 1 * (1 + (r - (5 # 10)) * 2 * (3 # 10)) == p)%Q)
      by (unfold p; ring).
    rewrite E1, E2. lra.
Qed.

Lemma night_delay_not_above_morning_delay_witness :
  (fst (calculateHumanDelay 1 2 Examples.calmRNG Examples.afterFailures)
   <= fst (calculateHumanDelay 10 2 Examples.calmRNG Examples.afterFailures))%Q.
Proof.
  apply (night_delay_not_above_morning_delay 1 10 2 Examples.calmRNG Examples.afterFailures);
    try reflexivity; try lia; now vm_compute.
Defined.

End CircadianFacts.

Section StatsFacts.
Import AdaptiveRateLimiter LimiterStats.

Lemma mathRound_range x : (0 <= x <= 100)%Q -> 0 <= mathRound x <= 100.
Proof.
  intros [Hlo Hhi]. unfold mathRound. split.
  - change 0 with (Qfloor 0). apply Qfloor_resp_le. lra.
  - change 100 with (Qfloor (201 # 2)). apply Qfloor_resp_le. lra.
Qed.

Lemma roundHalfEven_range n d K :
  0 < d -> 0 <= n <= K * d -> 0 <= roundHalfEven n d <= K.
Proof.
  intros Hd [Hn HK]. unfold roundHalfEven.
  pose proof (Z.div_mod n d ltac:(lia)) as Hdm.
  pose proof (Z.mod_pos_bound n d Hd) as Hr.
  assert (Hq : 0 <= n / d) by (apply Z.div_pos; lia).
  assert (HqK : n / d <= K) by (apply Z.div_le_upper_bound; lia).
  destruct ((d <? 2 * (n mod d)) || ((2 * (n mod d) =? d) && Z.odd (n / d))) eqn:E;
    [|lia].
  split; [lia|].
  destruct (Z.eq_dec (n / d) K) as [Heq|Hne]; [|lia].
  assert (Hzero : n mod d = 0) by nia.
  rewrite Hzero in E. change (2 * 0) with 0 in E.
  destruct (Z.ltb_spec d 0) as [Hlt|_]; [lia|].
  destruct (Z.eqb_spec 0 d) as [Hzd|_]; [lia|].
  discriminate E.
Qed.

Lemma exponentOf_negative n d K :
  0 < n -> 0 < d -> n <= K * d -> K <= 128 -> exponentOf n d < 0.
Proof.
  intros Hn Hd HK H128. unfold exponentOf.
  assert (Hlog : Z.log2 n <= Z.log2 d + 7).
  { transitivity (Z.log2 (d * 2 ^ 7)).
    - apply Z.log2_le_mono. nia.
    - rewrite Z.log2_mul_pow2 by lia. lia. }
  destruct (scaled n d (Z.log2 n - Z.log2 d - 52)) as [n' d'].
  destruct (n' / d' <? 2 ^ 52); lia.
Qed.

(** rounding to a double keeps a rational between 0 and a small whole
    number within these bounds *)
Lemma toDouble_range x K :
  (0 <= x <= inject_Z K)%Q -> K <= 128 -> (0 <= toDouble x <= inject_Z K)%Q.
Proof.
  intros [Hlo Hhi] H128. unfold toDouble.
  destruct x as [n d]. cbn [Qnum Qden].
  assert (HK : n <= K * Z.pos d).
  { unfold Qle in Hhi. cbn in Hhi. lia. }
  destruct (Z.leb_spec n 0) as [Hn|Hn].
  - split; [apply Qle_refl|lra].
  - pose proof (exponentOf_negative n (Z.pos d) K Hn ltac:(lia) HK H128) as He.
    set (e := exponentOf n (Z.pos d)) in *. clearbody e.
    unfold scaled. destruct (Z.ltb_spec e 0); [|lia].
    assert (HP : 0 < 2 ^ (- e)) by (apply Z.pow_pos_nonneg; lia).
    pose proof (roundHalfEven_range (n * 2 ^ (- e)) (Z.pos d) (K * 2 ^ (- e))
                  ltac:(lia) ltac:(nia)) as [Hm0 Hm1].
    split; unfold Qle; cbn [Qnum Qden inject_Z]; rewrite ?Z2Pos.id by exact HP; lia.
Qed.

(** the success rate reported by [getStats] is a whole percentage: the
    0/0 of an empty hour is replaced by 0 before rounding *)
Lemma getStats_rate_is_a_percentage now s :
  0 <= statSuccessRate (getStats now s) <= 100
  /\ 0 <= statRecentSuccesses (getStats now s) <= Z.of_nat (length (successHistory s))
  /\ 0 <= statRecentFailures (getStats now s) <= Z.of_nat (length (failureHistory s)).
Proof.
  unfold getStats.
  cbn [statSuccessRate statRecentSuccesses statRecentFailures].
  set (a := length (List.filter _ (successHistory s))).
  set (b := length (List.filter _ (failureHistory s))).
  assert (Ha : (a <= length (successHistory s))%nat) by apply List.filter_length_le.
  assert (Hb : (b <= length (failureHistory s))%nat) by apply List.filter_length_le.
  split; [|lia].
  apply mathRound_range.
  apply (toDouble_range _ 100); [|lia].
  destruct (a + b)%nat as [|n] eqn:E; [change (inject_Z 100) with 100%Q; lra|].
  assert (Hpos : (0 < inject_Z (Z.of_nat (S n)))%Q)
    by (change 0%Q with (inject_Z 0); rewrite <- Zlt_Qlt; lia).
  assert (Hnum : (0 <= inject_Z (Z.of_nat a))%Q)
    by (change 0%Q with (inject_Z 0); rewrite <- Zle_Qle; lia).
  assert (Hle : (inject_Z (Z.of_nat a) <= inject_Z (Z.of_nat (S n)))%Q)
    by (rewrite <- Zle_Qle; lia).
  assert (H0 : (0 <= inject_Z (Z.of_nat a) / inject_Z (Z.of_nat (S n)))%Q)
    by (apply Qle_shift_div_l; [exact Hpos|lra]).
  assert (H1 : (inject_Z (Z.of_nat a) / inject_Z (Z.of_nat (S n)) <= 1)%Q)
    by (apply Qle_shift_div_r; [exact Hpos|lra]).
  pose proof (toDouble_range _ 1 (conj H0 H1) ltac:(lia)) as Hrate.
  change (inject_Z 1) with 1%Q in Hrate. change (inject_Z 100) with 100%Q.
  lra.
Qed.

End StatsFacts.

(** ** The daily quota and the request parameters of the API client *)

Section QuotaFacts.
Import GoogleApi.

Lemma peakApi_ge_pending schedule : forall s,
  (Overlap.pending s <= Overlap.peakApi schedule s)%nat.
Proof. destruct schedule; intros s; cbn; lia. Qed.

Lemma overlap_stepApi_bound p s K :
  0 < dailyLimit (Overlap.client s) ->
  (Overlap.pending s <= K)%nat ->
  (Overlap.pending (Overlap.stepApi p s) <= K)%nat ->
  requestCount (Overlap.client s) + Z.of_nat (Overlap.pending s)
  <= dailyLimit (Overlap.client s) + Z.of_nat K - 1 ->
  requestCount (Overlap.client (Overlap.stepApi p s))
  + Z.of_nat (Overlap.pending (Overlap.stepApi p s))
  <= dailyLimit (Overlap.client s) + Z.of_nat K - 1
  /\ dailyLimit (Overlap.client (Overlap.stepApi p s)) = dailyLimit (Overlap.client s).
Proof.
  intros Hpos Hk. destruct p as [today|today| |]; cbn [Overlap.stepApi].
  - unfold isWithinLimits. cbn [snd Overlap.client Overlap.pending].
    destruct (negb (String.eqb (lastResetDate (Overlap.client s)) today));
      cbn [requestCount dailyLimit setCount]; intros _ Hinv; (split; [lia|reflexivity]).
  - destruct (isConfigured (Overlap.client s)); [|intros _ Hinv; now split].
    unfold isWithinLimits.
    destruct (negb (String.eqb (lastResetDate (Overlap.client s)) today));
      cbn [requestCount dailyLimit setCount Overlap.client Overlap.pending];
      match goal with
      | |- context [?x <? ?y] => destruct (Z.ltb_spec x y)
      end; intros Hw Hinv; (split; [lia|reflexivity]).
  - destruct (Overlap.pending s) as [|n] eqn:Ep; [intros _ Hinv; now rewrite Ep|].
    cbn [Overlap.client Overlap.pending requestCount dailyLimit setCount].
    intros _ Hinv. split; [lia|reflexivity].
  - destruct (Overlap.pending s) as [|n] eqn:Ep; [intros _ Hinv; now rewrite Ep|].
    cbn [Overlap.client Overlap.pending]. intros _ Hinv. split; [lia|reflexivity].
Qed.

Lemma overlap_runApi_bound schedule : forall s K,
  0 < dailyLimit (Overlap.client s) ->
  (Overlap.peakApi schedule s <= K)%nat ->
  requestCount (Overlap.client s) + Z.of_nat (Overlap.pending s)
  <= dailyLimit (Overlap.client s) + Z.of_nat K - 1 ->
  requestCount (Overlap.client (Overlap.runApi schedule s))
  + Z.of_nat (Overlap.pending (Overlap.runApi schedule s))
  <= dailyLimit (Overlap.client s) + Z.of_nat K - 1
  /\ dailyLimit (Overlap.client (Overlap.runApi schedule s)) = dailyLimit (Overlap.client s).
Proof.
  induction schedule as [|p rest IH]; intros s K Hpos Hpeak Hinv; [now split|].
  cbn [Overlap.peakApi] in Hpeak. change (Overlap.runApi (p :: rest) s)
    with (Overlap.runApi rest (Overlap.stepApi p s)).
  pose proof (peakApi_ge_pending rest (Overlap.stepApi p s)) as Hge.
  destruct (overlap_stepApi_bound p s K Hpos ltac:(lia) ltac:(lia) Hinv) as [Hstep Hlim].
  rewrite <- Hlim. apply IH; rewrite ?Hlim; [exact Hpos|lia|exact Hstep].
Qed.

Lemma search_as_phases today service query limit options a :
  exists outcome,
    snd (fst (search today service query limit options a))
    = Overlap.client (Overlap.runApi (Overlap.phasesOf today outcome) (Overlap.startApi a)).
Proof.
  unfold search, Overlap.phasesOf.
  cbn [Overlap.runApi fold_left Overlap.stepApi Overlap.startApi Overlap.client
       Overlap.pending].
  destruct (isConfigured a); cbn [negb].
  - destruct (isWithinLimits today a) as [within a1]. destruct within; cbn [negb].
    + match goal with |- context [service ?p] => exists (service p);
        destruct (service p) as [m|st stt txt|m|data] end; try reflexivity.
      now destruct (error data).
    + exists (FetchThrows EmptyString). reflexivity.
  - exists (FetchThrows EmptyString). reflexivity.
Qed.

(** searches that overlap: a search that runs alone is the check
    followed by the answer or the failure, and in any schedule of
    checks, answers and failures the request counter passes the daily
    limit by at most the number of searches that were ever pending at
    the same time, minus one; searches that never overlap keep it
    within the limit, two that do can count one request more *)
Lemma overlapping_searches_pass_the_quota_by_the_overlap_only schedule today service query
    limit options a :
  0 < dailyLimit a ->
  requestCount a <= dailyLimit a ->
  (exists outcome,
      snd (fst (search today service query limit options a))
      = Overlap.client (Overlap.runApi (Overlap.phasesOf today outcome)
                          (Overlap.startApi a)))
  /\ requestCount (Overlap.client (Overlap.runApi schedule (Overlap.startApi a)))
     + Z.of_nat (Overlap.pending (Overlap.runApi schedule (Overlap.startApi a)))
     <= dailyLimit a + Z.of_nat (Nat.max 1 (Overlap.peakApi schedule (Overlap.startApi a))) - 1
  /\ dailyLimit (Overlap.client (Overlap.runApi schedule (Overlap.startApi a)))
     = dailyLimit a.
Proof.
  intros Hpos Hle. split; [apply search_as_phases|].
  apply (overlap_runApi_bound schedule (Overlap.startApi a)); [exact Hpos|lia|cbn; lia].
Qed.

(** Two searches that both pass the check at 99 of 100 requests and get
    their answers afterwards leave the counter at 101. *)
Lemma overlapping_searches_pass_the_quota_by_the_overlap_only_witness :
  let a := setCount 99 "Tue Nov 03 2026" Examples.configuredApi in
  let schedule :=
    [Overlap.Begin "Tue Nov 03 2026"; Overlap.Begin "Tue Nov 03 2026";
     Overlap.Answer; Overlap.Answer] in
  requestCount (Overlap.client (Overlap.runApi schedule (Overlap.startApi a))) = 101
  /\ requestCount (Overlap.client (Overlap.runApi schedule (Overlap.startApi a)))
     + Z.of_nat (Overlap.pending (Overlap.runApi schedule (Overlap.startApi a)))
     <= 100 + Z.of_nat (Nat.max 1 (Overlap.peakApi schedule (Overlap.startApi a))) - 1.
Proof.
  split; [reflexivity|].
  apply (proj1 (proj2 (overlapping_searches_pass_the_quota_by_the_overlap_only
                         [Overlap.Begin "Tue Nov 03 2026"; Overlap.Begin "Tue Nov 03 2026";
                          Overlap.Answer; Overlap.Answer]
                         "Tue Nov 03 2026" Examples.oneItemService "rocq" 5 []
                         (setCount 99 "Tue Nov 03 2026" Examples.configuredApi)
                         ltac:(now vm_compute) ltac:(now vm_compute)))).
Defined.

(** a request that fails before a JSON body is read (network error,
    non-OK status, unparsable body) is thrown and leaves the counter
    as it was *)
Lemma transport_failure_spends_no_quota today service query limit options a :
  lastResetDate a = today ->
  (forall params data, service params <> Json data) ->
  snd (fst (search today service query limit options a)) = a
  /\ exists message, fst (fst (search today service query limit options a)) = Throw message.
Proof.
  intros Hday Hfail. unfold search, isWithinLimits.
  rewrite Hday, String.eqb_refl. cbn [negb].
  destruct (negb (isConfigured a)); [split; [reflexivity|eexists; reflexivity]|].
  destruct (negb (requestCount a <? dailyLimit a));
    [split; [reflexivity|eexists; reflexivity]|].
  match goal with |- context [service ?p] => pose proof (Hfail p) as Hp;
    destruct (service p) as [m|st stt txt|m|data] end;
    try (split; [reflexivity|eexists; reflexivity]).
  now destruct (Hp data).
Qed.

Lemma transport_failure_spends_no_quota_witness :
  snd (fst (search "Tue Nov 03 2026" MoreExamples.failingService "rocq" 5 []
              Examples.configuredApi))
  = Examples.configuredApi.
Proof.
  apply (proj1 (transport_failure_spends_no_quota "Tue Nov 03 2026"
                  MoreExamples.failingService "rocq" 5 [] Examples.configuredApi
                  eq_refl ltac:(intros params data; discriminate))).
Defined.

(** once the counter has reached the limit, every search of the same
    day is refused before any request is sent *)
Lemma exhausted_quota_refuses_without_request today service query limit options a :
  isConfigured a = true ->
  lastResetDate a = today ->
  dailyLimit a <= requestCount a ->
  search today service query limit options a
  = (Throw ("Daily API limit of " +:+ JS.toString (dailyLimit a)
            +:+ " requests reached. Resets at midnight."), a, [Attempt GoogleAPI]).
Proof.
  intros Hc Hday Hfull. unfold search, isWithinLimits.
  rewrite Hc, Hday, String.eqb_refl. cbn [negb].
  destruct (Z.ltb_spec (requestCount a) (dailyLimit a)); [lia|reflexivity].
Qed.

(** the first search of a new day finds the counter reset: the request
    is sent even if the quota of the day before was used up *)
Lemma new_day_resets_quota today service query limit options a :
  isConfigured a = true ->
  lastResetDate a <> today ->
  0 < dailyLimit a ->
  (exists params,
      snd (search today service query limit options a) = [Attempt GoogleAPI; Fetch params])
  /\ lastResetDate (snd (fst (search today service query limit options a))) = today
  /\ 0 <= requestCount (snd (fst (search today service query limit options a))) <= 1.
Proof.
  intros Hc Hday Hpos. unfold search, isWithinLimits.
  rewrite Hc. apply String.eqb_neq in Hday. rewrite Hday. cbn [negb].
  cbn [requestCount dailyLimit setCount].
  destruct (Z.ltb_spec 0 (dailyLimit a)); [|lia]. cbn [negb].
  destruct (service _) as [m|st stt txt|m|data]; cbn [fst snd];
    try (split; [eexists; reflexivity|cbn; split; [reflexivity|lia]]).
  destruct (error data); cbn; (split; [eexists; reflexivity|split; [reflexivity|lia]]).
Qed.

Lemma new_day_resets_quota_witness :
  lastResetDate (snd (fst (search "Wed Nov 04 2026" Examples.oneItemService "rocq" 5 []
                             MoreExamples.spentApi)))
  = "Wed Nov 04 2026".
Proof.
  apply (proj1 (proj2 (new_day_resets_quota "Wed Nov 04 2026" Examples.oneItemService
                         "rocq" 5 [] MoreExamples.spentApi
                         ltac:(now vm_compute) ltac:(discriminate) ltac:(now vm_compute)))).
Defined.

Lemma formatItems_positions l : forall index,
  map position (formatItems index l)
  = map (fun i => index + Z.of_nat i + 1) (seq 0 (length l))
  /\ Forall (fun r => source r = "Google API") (formatItems index l).
Proof.
  induction l as [|item l IH]; intros index; cbn [formatItems length seq map].
  - split; constructor.
  - destruct (IH (index + 1)) as [Hpos Hsrc]. split.
    + cbn [position]. f_equal; [lia|].
      rewrite Hpos, <- seq_shift, map_map. apply map_ext. intros i. lia.
    + constructor; [reflexivity|exact Hsrc].
Qed.

(** results formatted from an API answer are numbered 1, 2, ..., n
    without a gap, one per item, and all carry the API source *)
Lemma formatResults_numbers_every_item data :
  map position (formatResults data)
  = map (fun i => Z.of_nat i + 1) (seq 0 (length (formatResults data)))
  /\ Forall (fun r => source r = "Google API") (formatResults data)
  /\ length (formatResults data)
     = match items data with Some l => length l | None => 0%nat end.
Proof.
  unfold formatResults. destruct (items data) as [l|].
  - rewrite formatItems_length.
    destruct (formatItems_positions l 0) as [Hpos Hsrc]. repeat split; assumption.
  - repeat split; constructor.
Qed.

Lemma getKey_setKey k k' v o :
  getKey k (setKey k' v o) = if String.eqb k' k then Some v else getKey k o.
Proof.
  induction o as [|[k0 v0] o IH]; cbn.
  - now destruct (String.eqb k' k).
  - destruct (String.eqb_spec k0 k') as [->|Hne]; cbn.
    + now destruct (String.eqb k' k).
    + rewrite IH. destruct (String.eqb_spec k' k) as [->|Hne'].
      * apply String.eqb_neq in Hne. now rewrite Hne.
      * reflexivity.
Qed.

Lemma getKey_absent k o : ~ In k (map fst o) -> getKey k o = None.
Proof.
  induction o as [|[k0 v0] o IH]; cbn; [reflexivity|]. intros Hnot.
  destruct (String.eqb_spec k0 k) as [->|Hne]; [tauto|]. apply IH. tauto.
Qed.

Lemma getKey_insertIndex n k k' v o :
  getKey k' o = None ->
  getKey k (insertIndex n k' v o) = if String.eqb k' k then Some v else getKey k o.
Proof.
  induction o as [|[k0 v0] o IH]; cbn [insertIndex getKey]; [reflexivity|].
  destruct (String.eqb_spec k0 k') as [->|Hne]; [discriminate|]. intros Habsent.
  destruct (arrayIndex k0) as [n0|]; [destruct (n0 <? n)|]; cbn [getKey];
    try reflexivity.
  rewrite (IH Habsent).
  destruct (String.eqb_spec k0 k) as [->|Hne0]; [|reflexivity].
  apply String.eqb_neq in Hne. rewrite String.eqb_sym in Hne. now rewrite Hne.
Qed.

Lemma getKey_defineKey k k' v o :
  getKey k (defineKey k' v o) = if String.eqb k' k then Some v else getKey k o.
Proof.
  unfold defineKey. destruct (arrayIndex k') as [n|]; [|apply getKey_setKey].
  destruct (getKey k' o) eqn:E; [apply getKey_setKey|now apply getKey_insertIndex].
Qed.

(** [{ ...base, ...options }] read key by key: an option wins over the
    base, a key the options lack keeps its base value *)
Lemma spread_lookup options : forall base k,
  List.NoDup (map fst options) ->
  getKey k (spread base options)
  = match getKey k options with Some v => Some v | None => getKey k base end.
Proof.
  unfold spread.
  induction options as [|[k1 v1] options IH]; intros base k Hnd; cbn [fold_left getKey fst snd].
  - reflexivity.
  - cbn [map fst] in Hnd. inversion Hnd as [|? ? Hnot Hnd']; subst.
    rewrite IH by exact Hnd'. rewrite getKey_defineKey.
    destruct (String.eqb_spec k1 k) as [->|Hne]; [|reflexivity].
    now rewrite (getKey_absent k options Hnot).
Qed.

(** what a search sends: the four base parameters, each replaced by the
    caller's option of the same name; the cap of ten applies to [num]
    only while the options carry no [num] of their own *)
Lemma search_options_override_defaults today service query limit options a :
  isConfigured a = true ->
  fst (isWithinLimits today a) = true ->
  List.NoDup (map fst options) ->
  exists params,
    snd (search today service query limit options a) = [Attempt GoogleAPI; Fetch params]
    /\ getKey "num" params
       = Some (match getKey "num" options with
               | Some v => v
               | None => JS.toString (Z.min limit 10)
               end)
    /\ getKey "q" params
       = Some (match getKey "q" options with Some v => v | None => query end)
    /\ forall k, String.eqb k "key" || String.eqb k "cx" || String.eqb k "q"
                 || String.eqb k "num" = false ->
                 getKey k params = getKey k options.
Proof.
  intros Hc Hw Hnd. unfold search. rewrite Hc. cbn [negb].
  destruct (isWithinLimits today a) as [within a1]. cbn [fst] in Hw. subst within.
  cbn [negb]. eexists. split; [|split; [|split]].
  - destruct (service _) as [m|st stt txt|m|data]; try reflexivity.
    destruct (error data); reflexivity.
  - rewrite spread_lookup by exact Hnd. now destruct (getKey "num" options).
  - rewrite spread_lookup by exact Hnd. now destruct (getKey "q" options).
  - intros k Hk. rewrite spread_lookup by exact Hnd.
    destruct (getKey k options); [reflexivity|].
    apply orb_false_elim in Hk as [Hk Hnum]. apply orb_false_elim in Hk as [Hk Hq].
    apply orb_false_elim in Hk as [Hkey Hcx].
    cbn [getKey]. rewrite String.eqb_sym, Hkey.
    rewrite String.eqb_sym, Hcx. rewrite String.eqb_sym, Hq.
    now rewrite String.eqb_sym, Hnum.
Qed.

Lemma search_options_override_defaults_witness :
  exists params,
    snd (ApiVariants.searchImages "Tue Nov 03 2026" Examples.oneItemService "rocq" 25
           Examples.configuredApi)
    = [Attempt GoogleAPI; Fetch params]
    /\ getKey "num" params = Some "10".
Proof.
  destruct (search_options_override_defaults "Tue Nov 03 2026" Examples.oneItemService
              "rocq" 25 [("searchType", "image"); ("safe", "active")]
              Examples.configuredApi eq_refl eq_refl
              ltac:(repeat constructor; cbn; intuition discriminate))
    as (params & Hev & Hnum & _).
  exists params. split; [exact Hev|exact Hnum].
Defined.

End QuotaFacts.

(** ** The fallback entry point of the enhanced scraper *)

Section EnhancedFacts.
Import GoogleApi.

Lemma wait_events_are_sleeps now nowAfter hour dayOfWeek g s :
  let events := snd (AdaptiveRateLimiter.waitForNextRequest now nowAfter hour dayOfWeek g s) in
  Traces.fetches events = 0%nat /\ Traces.launches events = 0%nat
  /\ Traces.attempts GoogleAPI events = 0%nat.
Proof.
  cbv zeta. unfold AdaptiveRateLimiter.waitForNextRequest.
  destruct (AdaptiveRateLimiter.canMakeRequest now s) as [allowed s1].
  destruct allowed; cbn [negb]; [|now cbn].
  destruct (AdaptiveRateLimiter.getNextDelay hour dayOfWeek g s1) as [delay g1].
  cbn [snd]. now destruct (AdaptiveRateLimiter.Qltb 0 delay).
Qed.

(** without API credentials the enhanced scraper has no engine left:
    every search fails, and neither a request nor a browser launch is
    made on the way *)
Lemma enhanced_scraper_needs_credentials this clock today service query limit g limiter a :
  isConfigured a = false ->
  let run := ApiVariants.searchWithFallback this clock today service query limit g limiter a in
  (exists message, fst (fst (fst (fst run))) = Throw message)
  /\ snd (fst run) = a
  /\ Traces.fetches (snd run) = 0%nat
  /\ Traces.launches (snd run) = 0%nat
  /\ Traces.attempts GoogleAPI (snd run) = 0%nat.
Proof.
  intros Hc. cbv zeta.
  unfold ApiVariants.searchWithFallback, searchWithApiFallback, EnhancedScraper.searchGoogle.
  rewrite Hc.
  pose proof (wait_events_are_sleeps (EnhancedScraper.now clock)
                (EnhancedScraper.nowAfter clock) (EnhancedScraper.hour clock)
                (EnhancedScraper.dayOfWeek clock) g limiter) as Hw. cbv zeta in Hw.
  destruct (EnhancedScraper.useAdaptiveRateLimit this);
    [destruct (AdaptiveRateLimiter.waitForNextRequest _ _ _ _ g limiter) as [[l1 g1] ev1];
     cbn [snd] in Hw|];
    destruct (EnhancedScraper.useApiFallback this); cbn [fst snd];
    rewrite ?Hc; cbn [fst snd];
    (split; [eexists; reflexivity|split; [reflexivity|]]);
    try exact Hw; now cbn.
Qed.

Lemma enhanced_scraper_needs_credentials_witness :
  exists message,
    fst (fst (fst (fst (ApiVariants.searchWithFallback Examples.allFlags MoreExamples.morning
                          "Tue Nov 03 2026" Examples.oneItemService "rocq" 5
                          Examples.calmRNG AdaptiveRateLimiter.new
                          MoreExamples.unconfiguredApi))))
    = Throw message.
Proof.
  apply (proj1 (enhanced_scraper_needs_credentials Examples.allFlags MoreExamples.morning
                  "Tue Nov 03 2026" Examples.oneItemService "rocq" 5
                  Examples.calmRNG AdaptiveRateLimiter.new MoreExamples.unconfiguredApi
                  eq_refl)).
Defined.

Lemma search_empty_answer today service query limit a data :
  isConfigured a = true ->
  lastResetDate a = today ->
  requestCount a < dailyLimit a ->
  (forall params, service params = Json data) ->
  error data = None ->
  formatResults data = [] ->
  search today service query limit [] a
  = (Return [], setCount (requestCount a + 1) today a,
     [Attempt GoogleAPI; Fetch (ServiceContract.plainParams a query limit)]).
Proof.
  intros Hc Hday Hlt Hs He Hf. unfold search, isWithinLimits.
  rewrite Hc, Hday, String.eqb_refl. cbn [negb].
  destruct (Z.ltb_spec (requestCount a) (dailyLimit a)); [|lia]. cbn [negb].
  rewrite Hs, He, Hf. rewrite Hday. reflexivity.
Qed.

(** with the fallback switched on the scraping function is the API
    itself: an answer without items is requested a second time, and the
    search fails with both requests counted against the quota *)
Lemma empty_api_answer_is_requested_twice this clock today service query limit g limiter
    a data :
  EnhancedScraper.useApiFallback this = true ->
  isConfigured a = true ->
  lastResetDate a = today ->
  requestCount a + 1 < dailyLimit a ->
  (forall params, service params = Json data) ->
  error data = None ->
  formatResults data = [] ->
  let run := ApiVariants.searchWithFallback this clock today service query limit g limiter a in
  fst (fst (fst (fst run))) = Throw (allFailed None)
  /\ requestCount (snd (fst run)) = requestCount a + 2
  /\ Traces.fetches (snd run) = 2%nat.
Proof.
  intros Hfb Hc Hday Hlt Hs He Hf. cbv zeta.
  unfold ApiVariants.searchWithFallback, searchWithApiFallback, EnhancedScraper.searchGoogle.
  rewrite Hfb, Hc.
  pose proof (wait_events_are_sleeps (EnhancedScraper.now clock)
                (EnhancedScraper.nowAfter clock) (EnhancedScraper.hour clock)
                (EnhancedScraper.dayOfWeek clock) g limiter) as Hw. cbv zeta in Hw.
  set (a1 := setCount (requestCount a + 1) today a).
  assert (Hw1 : isWithinLimits today a = (true, a)).
  { unfold isWithinLimits. rewrite Hday, String.eqb_refl. cbn [negb].
    destruct (Z.ltb_spec (requestCount a) (dailyLimit a)); [reflexivity|lia]. }
  assert (Hw2 : isWithinLimits today a1 = (true, a1)).
  { unfold isWithinLimits, a1. cbn [lastResetDate requestCount dailyLimit setCount].
    rewrite String.eqb_refl. cbn [negb requestCount dailyLimit setCount].
    destruct (Z.ltb_spec (requestCount a + 1) (dailyLimit a)); [reflexivity|lia]. }
  assert (Hs1 := search_empty_answer today service query limit a data
                   Hc Hday ltac:(lia) Hs He Hf).
  assert (Hs2 := search_empty_answer today service query limit a1 data
                   Hc eq_refl ltac:(cbn; lia) Hs He Hf).
  fold a1 in Hs1.
  destruct (if EnhancedScraper.useAdaptiveRateLimit this
            then AdaptiveRateLimiter.waitForNextRequest (EnhancedScraper.now clock)
                   (EnhancedScraper.nowAfter clock) (EnhancedScraper.hour clock)
                   (EnhancedScraper.dayOfWeek clock) g limiter
            else (limiter, g, [])) as [[l1 g1] ev1] eqn:Ewait.
  assert (Hev1 : Traces.fetches ev1 = 0%nat).
  { destruct (EnhancedScraper.useAdaptiveRateLimit this).
    - rewrite Ewait in Hw. cbn [snd] in Hw. tauto.
    - injection Ewait as <- <- <-. reflexivity. }
  rewrite Hw1, Hs1. cbn [fst snd map resultsOf nonEmpty].
  change (isConfigured a1) with (isConfigured a). rewrite Hc, Hw2, Hs2.
  cbn [nonEmpty fst snd]. split; [reflexivity|split].
  - cbn. lia.
  - destruct (counts_app GoogleAPI ev1
                ([Attempt GoogleAPI; Fetch (ServiceContract.plainParams a query limit)]
                 ++ [Attempt GoogleAPI; Fetch (ServiceContract.plainParams a1 query limit)]))
      as (_ & _ & Hfe).
    rewrite <- app_assoc, Hfe, Hev1. reflexivity.
Qed.

Lemma empty_api_answer_is_requested_twice_witness :
  Traces.fetches
    (snd (ApiVariants.searchWithFallback Examples.allFlags MoreExamples.morning
            "Tue Nov 03 2026" MoreExamples.emptyService "rocq" 5
            Examples.calmRNG AdaptiveRateLimiter.new Examples.configuredApi))
  = 2%nat.
Proof.
  apply (proj2 (proj2 (empty_api_answer_is_requested_twice Examples.allFlags
                         MoreExamples.morning "Tue Nov 03 2026" MoreExamples.emptyService
                         "rocq" 5 Examples.calmRNG AdaptiveRateLimiter.new
                         Examples.configuredApi
                         {| error := None; items := None |}
                         eq_refl eq_refl eq_refl ltac:(now vm_compute)
                         ltac:(intros params; reflexivity) eq_refl eq_refl))).
Defined.

End EnhancedFacts.

(** ** Proxy selection order, failure reports and proxied contexts *)

Section ProxyOrderFacts.
Import ProxyRotation ProxyOrder.

Lemma insertByUsage_head c l :
  headIsLeastUsed l -> headIsLeastUsed (insertByUsage c l).
Proof.
  destruct l as [|d rest]; cbn; [constructor|]. intros Hd.
  destruct (Z.leb_spec (lastUsed c) (lastUsed d)) as [Hle|Hgt]; cbn.
  - constructor; [exact Hle|].
    eapply List.Forall_impl; [|exact Hd]. cbn. intros x Hx. lia.
  - apply List.Forall_forall. intros x Hx.
    apply insertByUsage_In in Hx as [->|Hx]; [lia|].
    rewrite List.Forall_forall in Hd. now apply Hd.
Qed.

Lemma sortByUsage_head l : headIsLeastUsed (sortByUsage l).
Proof.
  induction l as [|c l IH]; cbn; [exact I|]. now apply insertByUsage_head.
Qed.

Lemma insertByUsage_mem c d l : d = c \/ In d l -> In d (insertByUsage c l).
Proof.
  induction l as [|e l IH]; cbn; [intros [->|[]]; now left|].
  destruct (lastUsed c <=? lastUsed e); cbn; intros [->|[->|Hin]]; auto.
Qed.

Lemma sortByUsage_mem d l : In d l -> In d (sortByUsage l).
Proof.
  induction l as [|c l IH]; cbn; [tauto|].
  intros [->|Hin]; apply insertByUsage_mem; auto.
Qed.

(** a pool endpoint handed out is a healthy one, none of the healthy
    endpoints was used longer ago, and its use is stamped with the time
    of the selection *)
Lemma selected_endpoint_is_least_recently_used env pools poolType now st c :
  fst (selectHealthyProxy env pools poolType now st) = Some (FromPool c) ->
  let healthy := fst (filterHealthy now (candidates poolType pools) (proxyFailures st)) in
  In (proxy c) healthy
  /\ c = withUsage (proxyUsage st) (proxy c)
  /\ Forall (fun q => lastUsed c <= lastUsed (withUsage (proxyUsage st) q)) healthy
  /\ proxyUsage (snd (selectHealthyProxy env pools poolType now st)) !! proxyKey (proxy c)
     = Some now.
Proof.
  unfold selectHealthyProxy.
  destruct (getEnvironmentProxy env); [discriminate|].
  destruct (candidates poolType pools) as [|p0 ps] eqn:Ec; [discriminate|].
  destruct (filterHealthy now (p0 :: ps) (proxyFailures st)) as [healthy fails'].
  pose proof (sortByUsage_head (map (withUsage (proxyUsage st)) healthy)) as Hhead.
  destruct (sortByUsage (map (withUsage (proxyUsage st)) healthy)) as [|sel rest] eqn:Es;
    [discriminate|].
  cbn [fst snd]. intros [= ->]. cbv zeta.
  assert (Hin : In c (map (withUsage (proxyUsage st)) healthy)).
  { apply sortByUsage_In. rewrite Es. now left. }
  apply in_map_iff in Hin as (q & <- & Hq).
  cbn [proxy withUsage key proxyUsage].
  split; [exact Hq|split; [reflexivity|split]].
  - apply List.Forall_forall. intros q' Hq'.
    assert (Hmem : In (withUsage (proxyUsage st) q')
                     (sortByUsage (map (withUsage (proxyUsage st)) healthy)))
      by (apply sortByUsage_mem, in_map, Hq').
    rewrite Es in Hmem. destruct Hmem as [<-|Hmem]; [lia|].
    cbn in Hhead. rewrite List.Forall_forall in Hhead. now apply Hhead.
  - apply lookup_insert_eq.
Qed.

Lemma selected_endpoint_is_least_recently_used_witness :
  In Examples.firstResidential
     (fst (filterHealthy 1000 (candidates "residential" proxyPools) ∅)).
Proof.
  apply (proj1 (selected_endpoint_is_least_recently_used Examples.localEnv proxyPools
                  "residential" 1000 Examples.freshTracking
                  (withUsage ∅ Examples.firstResidential) eq_refl)).
Defined.

(** without an override endpoint, nothing is handed out exactly when no
    endpoint of the requested class passes the health filter *)
Lemma nothing_selected_iff_nothing_healthy env pools poolType now st :
  getEnvironmentProxy env = None ->
  fst (selectHealthyProxy env pools poolType now st) = None
  <-> fst (filterHealthy now (candidates poolType pools) (proxyFailures st)) = [].
Proof.
  intros Henv. unfold selectHealthyProxy. rewrite Henv.
  destruct (candidates poolType pools) as [|p0 ps] eqn:Ec; [now cbn|].
  destruct (filterHealthy now (p0 :: ps) (proxyFailures st)) as [healthy fails'].
  cbn [fst].
  destruct healthy as [|h hs]; [now cbn|].
  pose proof (sortByUsage_nonempty (map (withUsage (proxyUsage st)) (h :: hs))
                ltac:(discriminate)) as Hne.
  destruct (sortByUsage (map (withUsage (proxyUsage st)) (h :: hs))); [congruence|].
  cbn. split; discriminate.
Qed.

Lemma nothing_selected_iff_nothing_healthy_witness :
  fst (selectHealthyProxy Examples.localEnv proxyPools "mobile" 1000 Examples.freshTracking)
  = None
  <-> fst (filterHealthy 1000 (candidates "mobile" proxyPools) ∅) = [].
Proof.
  apply (nothing_selected_iff_nothing_healthy Examples.localEnv proxyPools "mobile" 1000
           Examples.freshTracking eq_refl).
Defined.

(** a failure report touches the record of the reported endpoint only:
    every other record and the usage map are left as they were *)
Lemma failure_report_touches_one_record p now st k :
  k <> proxyKey p ->
  proxyFailures (reportProxyFailure (Some p) now st) !! k = proxyFailures st !! k
  /\ proxyUsage (reportProxyFailure (Some p) now st) = proxyUsage st
  /\ reportProxyFailure None now st = st.
Proof.
  intros Hk. unfold reportProxyFailure.
  destruct (negb (JS.truthy (server p))); [now repeat split|].
  cbn [proxyFailures proxyUsage]. repeat split.
  now apply lookup_insert_ne.
Qed.

End ProxyOrderFacts.

Section ProxyContextFacts.
Import ProxyRotation ProxyContext.

(** when the context cannot be created behind the given proxy, one
    failure is recorded against that proxy, the context is created once
    more with the same viewport and no proxy, and no proxy is reported
    back; an error of the second creation is thrown as it is *)
Lemma failed_proxy_context_is_retried_directly env pools newContext p now nowFailure g st :
  server p <> EmptyString ->
  (forall o, proxyOption o <> None -> newContext o <> None) ->
  let run := createProxyContext env pools newContext (Some p) now nowFailure g st in
  exists first,
    snd run = [first; withoutProxy first]
    /\ proxyOption first
       = Some {| settingsServer := server p; settingsUsername := username p;
                 settingsPassword := password p |}
    /\ fst (fst (fst run))
       = match newContext (withoutProxy first) with
         | None => Return (withoutProxy first, None)
         | Some message => Throw message
         end
    /\ proxyFailures (snd (fst (fst run))) !! proxyKey p
       = Some {| count := count (failuresOf (proxyFailures st) (proxyKey p)) + 1;
                 lastFailure := nowFailure |}
    /\ proxyUsage (snd (fst (fst run))) = proxyUsage st.
Proof.
  intros Hserver Hfail. cbv zeta. unfold createProxyContext.
  destruct (AdaptiveRateLimiter.random g) as [r1 g1].
  destruct (AdaptiveRateLimiter.random g1) as [r2 g2].
  match goal with |- context [newContext ?o] =>
    set (first := o); pose proof (Hfail first ltac:(discriminate)) as Hfirst end.
  destruct (newContext first) as [message|]; [|congruence].
  exists first.
  pose proof (report_lookup p nowFailure st Hserver) as Hrep.
  destruct (newContext (withoutProxy first)) as [message'|]; cbn [fst snd];
    (split; [reflexivity|split; [reflexivity|split; [reflexivity|split; [exact Hrep|]]]]);
    unfold reportProxyFailure; now destruct (negb (JS.truthy (server p))).
Qed.

Lemma failed_proxy_context_is_retried_directly_witness :
  exists first,
    snd (createProxyContext Examples.localEnv proxyPools
           (fun o => match proxyOption o with Some _ => Some "tunnel failed" | None => None end)
           (Some Examples.firstResidential) 1000 2000 Examples.calmRNG
           Examples.freshTracking)
    = [first; withoutProxy first].
Proof.
  destruct (failed_proxy_context_is_retried_directly Examples.localEnv proxyPools
              (fun o => match proxyOption o with
                        | Some _ => Some "tunnel failed"
                        | None => None
                        end)
              Examples.firstResidential 1000 2000 Examples.calmRNG Examples.freshTracking
              ltac:(cbn; discriminate)
              ltac:(intros o Ho; cbv beta; destruct (proxyOption o);
                    [discriminate|congruence]))
    as (first & Hev & _).
  exists first. exact Hev.
Defined.

End ProxyContextFacts.

(** ** Platform detection, extraction outcomes and the extract route *)

Section PlatformFacts.
Import Extraction.

Lemma prefix_has_char sub : forall s c,
  String.prefix sub s = true ->
  In c (list_ascii_of_string sub) ->
  JS.includes s (String c EmptyString) = true.
Proof.
  induction sub as [|a sub IH]; intros s c Hp Hin; [destruct Hin|].
  destruct s as [|b s]; [discriminate|]. cbn [String.prefix] in Hp.
  destruct (ascii_dec a b) as [<-|]; [|discriminate].
  cbn [list_ascii_of_string] in Hin. destruct Hin as [->|Hin].
  - cbn. destruct (ascii_dec c c); [|congruence]. now destruct s.
  - cbn [JS.includes]. rewrite (IH s c Hp Hin).
    now destruct (String.prefix (String c EmptyString) (String a s)).
Qed.

Lemma includes_has_char sub c : forall s,
  JS.includes s sub = true ->
  In c (list_ascii_of_string sub) ->
  JS.includes s (String c EmptyString) = true.
Proof.
  induction s as [|b s IH]; intros Hinc Hin.
  - cbn [JS.includes] in Hinc.
    destruct (String.prefix sub EmptyString) eqn:Hp; [|discriminate].
    now apply prefix_has_char with (sub := sub).
  - cbn [JS.includes] in Hinc.
    destruct (String.prefix sub (String b s)) eqn:Hp.
    + now apply prefix_has_char with (sub := sub).
    + cbn [JS.includes]. rewrite (IH Hinc Hin).
      now destruct (String.prefix (String c EmptyString) (String b s)).
Qed.

Lemma lowerChar_slash c : JS.lowerChar c = "/"%char -> c = "/"%char.
Proof.
  destruct c as [[] [] [] [] [] [] [] []]; vm_compute; intros H;
    first [reflexivity|discriminate H].
Qed.

Lemma includes_slash_cons c s :
  JS.includes (String c s) "/" = (Ascii.eqb c "/" || JS.includes s "/").
Proof.
  cbn [JS.includes String.prefix].
  destruct (ascii_dec "/" c) as [<-|Hne].
  - now destruct s.
  - apply Ascii.eqb_neq in Hne. rewrite Ascii.eqb_sym, Hne. reflexivity.
Qed.

Lemma lowerChar_slash_eqb c :
  Ascii.eqb (JS.lowerChar c) "/" = true -> Ascii.eqb c "/" = true.
Proof.
  intros H. apply Ascii.eqb_eq in H. apply lowerChar_slash in H. subst c. reflexivity.
Qed.

Lemma lowered_slash_upto n : forall s,
  (String.length s <= n)%nat ->
  JS.includes (JS.toLowerCase s) "/" = true -> JS.includes s "/" = true.
Proof.
  induction n as [|n IH]; intros s Hlen.
  - destruct s; [discriminate|cbn in Hlen; lia].
  - destruct s as [|c1 [|c2 s2]]; [discriminate| |].
    + cbn [JS.toLowerCase]. rewrite !includes_slash_cons, !orb_false_r.
      apply lowerChar_slash_eqb.
    + assert (H1 : JS.includes (JS.toLowerCase (String c2 s2)) "/" = true ->
                   JS.includes (String c2 s2) "/" = true)
        by (apply IH; cbn in *; lia).
      assert (H2 : JS.includes (JS.toLowerCase s2) "/" = true ->
                   JS.includes s2 "/" = true)
        by (apply IH; cbn in *; lia).
      assert (Hplain :
                JS.includes (String (JS.lowerChar c1) (JS.toLowerCase (String c2 s2))) "/"
                = true ->
                JS.includes (String c1 (String c2 s2)) "/" = true).
      { rewrite (includes_slash_cons (JS.lowerChar c1)), (includes_slash_cons c1).
        intros H. apply orb_true_iff in H as [H|H].
        - now rewrite (lowerChar_slash_eqb _ H).
        - rewrite (H1 H). apply orb_true_r. }
      cbn [JS.toLowerCase]. destruct (JS.isDottedI c1 c2).
      * rewrite !includes_slash_cons. cbn [Ascii.eqb Bool.eqb ascii_of_nat orb].
        change (Ascii.eqb (ascii_of_nat 204) "/") with false.
        change (Ascii.eqb (ascii_of_nat 135) "/") with false.
        cbn [orb]. intros H. rewrite (H2 H). now rewrite !orb_true_r.
      * destruct s2 as [|c3 s3]; [exact Hplain|].
        destruct (JS.isKelvin c1 c2 c3); [|exact Hplain].
        rewrite !includes_slash_cons. cbn [Ascii.eqb Bool.eqb orb].
        intros H.
        assert (H3 : JS.includes s3 "/" = true) by (apply IH; [cbn in *; lia|exact H]).
        rewrite H3. now rewrite !orb_true_r.
Qed.

Lemma lowered_slash : forall s,
  JS.includes (JS.toLowerCase s) "/" = true -> JS.includes s "/" = true.
Proof. intros s. now apply (lowered_slash_upto (String.length s)). Qed.

(** the public-content test of the Facebook branch looks for a path in
    the host name: as a host name holds no slash, no Facebook address is
    ever taken to be public *)
Lemma facebook_address_never_public urlObj :
  JS.includes (hostname urlObj) "/" = false ->
  platform (detectPlatformOf urlObj) = "facebook" ->
  publicContentPossible (detectPlatformOf urlObj) = false.
Proof.
  intros Hhost. unfold detectPlatformOf.
  destruct (JS.includes (JS.toLowerCase (hostname urlObj)) "linkedin.com");
    [discriminate|].
  destruct (JS.includes (JS.toLowerCase (hostname urlObj)) "facebook.com"
            || JS.includes (JS.toLowerCase (hostname urlObj)) "fb.com").
  - intros _. cbn [publicContentPossible].
    destruct (JS.includes (JS.toLowerCase (hostname urlObj)) "facebook.com/pages")
      eqn:Hpages; [|reflexivity].
    apply (includes_has_char _ "/"%char) in Hpages; [|cbn; tauto].
    apply lowered_slash in Hpages. congruence.
  - destruct (JS.includes (JS.toLowerCase (hostname urlObj)) "twitter.com"
              || JS.includes (JS.toLowerCase (hostname urlObj)) "x.com"); discriminate.
Qed.

Lemma facebook_address_never_public_witness :
  publicContentPossible
    (detectPlatformOf {| hostname := "www.facebook.com"; pathname := "/pages/acme" |})
  = false.
Proof.
  apply (facebook_address_never_public
           {| hostname := "www.facebook.com"; pathname := "/pages/acme" |});
    reflexivity.
Defined.

Lemma platform_names urlObj :
  platform (detectPlatformOf urlObj) = "linkedin"
  \/ platform (detectPlatformOf urlObj) = "facebook"
  \/ platform (detectPlatformOf urlObj) = "twitter"
  \/ platform (detectPlatformOf urlObj) = "general".
Proof.
  unfold detectPlatformOf.
  destruct (JS.includes _ "linkedin.com"); [now left|].
  destruct (_ || _); [now right; left|].
  destruct (_ || _); [now right; right; left|now right; right; right].
Qed.

End PlatformFacts.

Section OutcomeFacts.
Import Extraction Server.

Variable newURL : string -> option URL.

(** what [extractContent] can return has one of four shapes; the login
    flag and the empty flag are never raised together, never on page
    content, and the empty flag never for a general site *)
Lemma extraction_outcomes variant browser url fullPage includeImages content events :
  extractContent newURL variant browser url fullPage includeImages
  = (Return content, events) ->
  Outcomes.outcomeShape fullPage url content events.
Proof.
  unfold extractContent, detectPlatform, Outcomes.outcomeShape.
  destruct (newURL url) as [urlObj|]; [|discriminate].
  destruct (_ && _ && _).
  - intros [= <- <-]. left. now repeat split.
  - destruct browser as [m|m|page]; try discriminate.
    destruct (String.eqb (platform (detectPlatformOf urlObj)) "linkedin" && _).
    + intros [= <- <-]. right. left. now repeat split.
    + destruct variant; [discriminate|].
      destruct (String.eqb_spec (platform (detectPlatformOf urlObj)) "general")
        as [Eg|Eg].
      * rewrite andb_false_r. intros [= <- <-]. right. right. right. now repeat split.
      * destruct (strLength (cleanMarkdown page) <? 50); cbn [andb negb].
        -- intros [= <- <-]. right. right. left. cbn.
           split; [reflexivity|split; [|now repeat split]].
           eexists. split; [reflexivity|split; [exact Eg|]].
           destruct (platform_names urlObj) as [ -> | [ -> | [ -> | -> ] ] ]; reflexivity.
        -- intros [= <- <-]. right. right. right. now repeat split.
Qed.

End OutcomeFacts.

Lemma extraction_outcomes_witness :
  exists content events,
    Extraction.extractContent PlainUrl.parse Extraction.EnvironmentAware
      (Extraction.Loaded Examples.profilePage)
      "https://www.facebook.com/alice" false true
    = (Return content, events)
    /\ Outcomes.outcomeShape false "https://www.facebook.com/alice" content events.
Proof.
  eexists. eexists. split; [vm_compute; reflexivity|].
  apply (extraction_outcomes PlainUrl.parse Extraction.EnvironmentAware
           (Extraction.Loaded Examples.profilePage)
           "https://www.facebook.com/alice" false true).
  vm_compute. reflexivity.
Defined.

Section RouteFacts.
Import Extraction Server.

Variable newURL : string -> option URL.

Lemma extractContent_flags variant browser url fullPage includeImages content events :
  extractContent newURL variant browser url fullPage includeImages
  = (Return content, events) ->
  (contentPlatform content = None /\ loginRequired content = None
   /\ isEmpty content = None)
  \/ (exists p, contentPlatform content = Some p /\ JS.truthy p = true
                /\ ((loginRequired content = Some true /\ isEmpty content = None)
                    \/ (loginRequired content = None /\ isEmpty content = Some true)
                    \/ (loginRequired content = None /\ isEmpty content = None))).
Proof.
  unfold extractContent, detectPlatform.
  destruct (newURL url) as [urlObj|]; [|discriminate].
  destruct (_ && _ && _).
  - intros [= <- <-]. right. exists "linkedin". cbn.
    split; [reflexivity|split; [reflexivity|right; right; split; reflexivity]].
  - destruct browser as [m|m|page]; try discriminate.
    destruct (String.eqb (platform (detectPlatformOf urlObj)) "linkedin" && _).
    + intros [= <- <-]. right. exists "linkedin". cbn.
      split; [reflexivity|split; [reflexivity|left; split; reflexivity]].
    + destruct variant; [discriminate|].
      destruct (_ && _).
      * intros [= <- <-]. right. eexists. cbn. split; [reflexivity|].
        split; [|right; left; split; reflexivity].
        destruct (platform_names urlObj) as [ -> | [ -> | [ -> | -> ] ] ]; reflexivity.
      * intros [= <- <-]. left. cbn. now repeat split.
Qed.

(** the extract route answers 400 without touching the browser, 500
    with the error of the extraction, 422 with suggestions exactly for
    content that carries a raised flag, and 200 without suggestions for
    everything else *)
Lemma extract_route_status_follows_flags browser extractedAt query :
  let response := fst (getExtract newURL browser extractedAt query) in
  let events := snd (getExtract newURL browser extractedAt query) in
  (status response = 400 /\ events = []
   /\ exists error, body response = ErrorBody error None)
  \/ (status response = 500
      /\ exists message, body response = ErrorBody "Failed to extract content" (Some message))
  \/ (status response = 422
      /\ exists url content suggestions message,
           body response
           = ExtractBody url content extractedAt (Some suggestions) (Some message)
           /\ (loginRequired content = Some true \/ isEmpty content = Some true))
  \/ (status response = 200
      /\ exists url content,
           body response = ExtractBody url content extractedAt None None
           /\ loginRequired content = None /\ isEmpty content = None).
Proof.
  cbv zeta. unfold getExtract.
  destruct (negb (JS.truthyOpt (qUrl query))).
  { left. cbn. split; [reflexivity|split; [reflexivity|eexists; reflexivity]]. }
  destruct (newURL (JS.tpl (qUrl query))) as [urlObj|] eqn:Eurl.
  2: { left. cbn. split; [reflexivity|split; [reflexivity|eexists; reflexivity]]. }
  destruct (extractContent newURL ServerScraper browser (JS.tpl (qUrl query)) _ _)
    as [[m|content] events] eqn:Erun.
  { right. left. cbn. split; [reflexivity|eexists; reflexivity]. }
  apply extractContent_flags in Erun.
  destruct Erun as [(Hp & Hl & He)
                   |(p & Hp & Ht & [(Hl & He)|[(Hl & He)|(Hl & He)]])];
    rewrite Hp, ?Hl, ?He; cbn [isTrue orb andb]; rewrite ?Ht, ?andb_false_r; cbn [andb fst snd].
  - right. right. right. cbn. split; [reflexivity|].
    eexists. eexists. now repeat split.
  - right. right. left. cbn. split; [reflexivity|].
    eexists. eexists. eexists. eexists. split; [reflexivity|]. left. exact Hl.
  - right. right. left. cbn. split; [reflexivity|].
    eexists. eexists. eexists. eexists. split; [reflexivity|]. right. exact He.
  - right. right. right. cbn. split; [reflexivity|].
    eexists. eexists. now repeat split.
Qed.

End RouteFacts.

(** ** The result parser, the stealth-only scraper and the search route *)

Section SearchRouteFacts.
Import ResultParser SearchRoute.

Lemma extractOne_fields i el r :
  extractOne i el = Some r ->
  JS.truthy (title r) = true /\ JS.truthy (link r) = true /\ source r = None.
Proof.
  unfold extractOne.
  destruct (firstMatch el titleSelectors None) as [t|]; [|discriminate].
  destruct (findLink el linkSelectors None) as [l|]; [|discriminate].
  destruct (JS.truthy (JS.trim (textContent t))) eqn:Et; [|discriminate].
  destruct (JS.truthy (href l)) eqn:El; [|discriminate].
  destruct (negb (selfReferential (href l))); [|discriminate].
  cbn [andb]. intros [= <-]. cbn. now repeat split.
Qed.

Lemma extractLoop_fields els : forall i,
  Forall (fun r => JS.truthy (title r) = true /\ JS.truthy (link r) = true
                   /\ source r = None) (extractLoop i els).
Proof.
  induction els as [|el els IH]; intros i; cbn [extractLoop]; [constructor|].
  destruct (extractOne i el) as [r|] eqn:E; [|apply IH].
  constructor; [now apply extractOne_fields with (i := i) (el := el)|apply IH].
Qed.

(** every result the Google parser returns has a title and a link that
    are not empty, and no source tag: a container that lacks either is
    left out, not returned with a blank field *)
Lemma parsed_results_have_title_and_link doc maxResults :
  Forall (fun r => JS.truthy (title r) = true /\ JS.truthy (link r) = true
                   /\ source r = None) (extractResults doc maxResults).
Proof. unfold extractResults. apply extractLoop_fields. Qed.

Lemma extractResults_length doc maxResults :
  Z.of_nat (length (extractResults doc maxResults)) <= Z.max 0 maxResults.
Proof.
  unfold extractResults.
  set (els := findContainers doc containerSelectors []).
  pose proof (extractLoop_length 0
                (firstn (Z.to_nat (Z.min (Z.of_nat (length els)) maxResults)) els)) as Hlen.
  rewrite length_firstn in Hlen. lia.
Qed.

Lemma extractResults_length_containers doc maxResults :
  (length (extractResults doc maxResults)
   <= length (findContainers doc containerSelectors []))%nat.
Proof.
  unfold extractResults.
  set (els := findContainers doc containerSelectors []).
  pose proof (extractLoop_length 0
                (firstn (Z.to_nat (Z.min (Z.of_nat (length els)) maxResults)) els)) as Hlen.
  rewrite length_firstn in Hlen. lia.
Qed.

(** a search request with a query is answered 200 with the results and
    their number, at most the parsed limit and none at all when the
    limit is not a number or the negative infinity, or 500 with the
    error; with the positive infinity for a limit every container of the
    page may give a result; the browser is launched once in both cases *)
Lemma search_route_count_within_limit session query :
  JS.truthyOpt (q query) = true ->
  snd (getSearch session query) = [Launch]
  /\ ((exists message,
          fst (getSearch session query)
          = {| status := 500;
               body := ErrorBody "Failed to perform search" (Some message) |})
      \/ (exists results,
             fst (getSearch session query)
             = {| status := 200;
                  body := ResultsBody (JS.tpl (q query)) results
                            (Z.of_nat (length results)) |}
             /\ match limitOf query with
                | Finite n => Z.of_nat (length results) <= Z.max 0 n
                | NaN | Infinity true => Z.of_nat (length results) <= 0
                | Infinity false =>
                    forall doc, session = Scraper.ResultsPage doc ->
                      (length results
                       <= length (findContainers doc containerSelectors []))%nat
                end)).
Proof.
  intros Hq. unfold getSearch, searchGoogle. rewrite Hq. cbn [negb].
  destruct session as [m|m|doc]; cbn [fst snd].
  - split; [reflexivity|]. left. eexists. reflexivity.
  - split; [reflexivity|]. left. eexists. reflexivity.
  - split; [reflexivity|]. right. eexists. split; [reflexivity|].
    unfold extractUpTo. destruct (limitOf query) as [|n|[|]].
    + reflexivity.
    + apply extractResults_length.
    + reflexivity.
    + intros doc' [= <-]. apply extractResults_length_containers.
Qed.

Lemma search_route_count_within_limit_witness :
  snd (getSearch (Scraper.ResultsPage Examples.sevenHits)
         {| q := Some "rocq"; limit := Some "3 results" |})
  = [Launch].
Proof.
  apply (proj1 (search_route_count_within_limit (Scraper.ResultsPage Examples.sevenHits)
                  {| q := Some "rocq"; limit := Some "3 results" |} eq_refl)).
Defined.

End SearchRouteFacts.

(** ** The authenticated LinkedIn route *)

Section LinkedInFacts.
Import LinkedIn.

Ltac run_site site :=
  repeat match goal with
         | |- context [answers site ?step] =>
             let E := fresh "E" in
             destruct (answers site step) eqn:E; cbn
         | |- context [present site ?sel] =>
             let E := fresh "P" in
             destruct (present site sel) eqn:E; cbn
         end.

Ltac unfold_route :=
  unfold postScrape, manualLogin, automaticLogin, scrapeProfile, close, ensurePage,
    initialize, probe, catch, bind, call, ret, throw, get, modify.

(** whatever the site answers, the handler launches at most one browser
    and closes it as its last step; a request refused with 400 creates
    no scraper, and a failed launch leaves nothing to close *)
Lemma linkedin_browser_closed_once site extractedAt req :
  let response := fst (fst (postScrape site extractedAt req)) in
  let steps := snd (postScrape site extractedAt req) in
  (status response = 400 /\ snd (fst (postScrape site extractedAt req)) = None
   /\ steps = [])
  \/ (status response = 500 /\ answers site LaunchBrowser <> None
      /\ steps = [LaunchBrowser])
  \/ (answers site LaunchBrowser = None
      /\ hd_error steps = Some LaunchBrowser
      /\ List.last steps LaunchBrowser = CloseBrowser
      /\ closes steps = 1%nat /\ launches steps = 1%nat).
Proof.
  cbv zeta. unfold_route.
  destruct (negb (JS.truthyOpt (url req))); [left; now cbn|].
  destruct (match manual req with Some v => truthy v | None => false end); cbn [negb andb].
  - cbn. run_site site;
      first [ right; left; repeat split; congruence
            | right; right; repeat split; congruence ].
  - destruct (negb (JS.truthyOpt (email req)) || negb (JS.truthyOpt (password req)));
      [left; now cbn|].
    cbn. run_site site;
      first [ right; left; repeat split; congruence
            | right; right; repeat split; congruence ].
Qed.

(** the profile page is evaluated only in a session whose login wait
    came back without an error, after the login page was opened *)
Lemma profile_read_only_after_login site extractedAt req :
  In Evaluate (snd (postScrape site extractedAt req)) ->
  In (GotoUrl loginUrl) (snd (postScrape site extractedAt req))
  /\ exists timeout feedContainer,
       In (WaitForLogin timeout feedContainer) (snd (postScrape site extractedAt req))
       /\ answers site (WaitForLogin timeout feedContainer) = None.
Proof.
  unfold_route.
  destruct (negb (JS.truthyOpt (url req))); [intros []|].
  destruct (match manual req with Some v => truthy v | None => false end); cbn [negb andb].
  - cbn. run_site site; intros Hin;
      try (exfalso; cbn in Hin; intuition discriminate);
      (split; [cbn; tauto|]);
      exists 300000, true; (split; [cbn; tauto|assumption]).
  - destruct (negb (JS.truthyOpt (email req)) || negb (JS.truthyOpt (password req)));
      [intros []|].
    cbn. run_site site; intros Hin;
      try (exfalso; cbn in Hin; intuition discriminate);
      (split; [cbn; tauto|]);
      first [ exists 30000, true; (split; [cbn; tauto|assumption])
            | exists 300000, false; (split; [cbn; tauto|assumption]) ].
Qed.

Lemma profile_read_only_after_login_witness :
  In (GotoUrl loginUrl)
     (snd (postScrape MoreExamples.openSite "2026-11-03T00:00:01.000Z"
             MoreExamples.manualRequest)).
Proof.
  apply (proj1 (profile_read_only_after_login MoreExamples.openSite
                  "2026-11-03T00:00:01.000Z" MoreExamples.manualRequest
                  ltac:(vm_compute; tauto))).
Defined.

End LinkedInFacts.

(** ** Rotated fingerprints and their headers *)

Section HeaderFacts.
Import EnhancedHeaders AdaptiveRateLimiter.

Lemma floor_of_draw r n :
  (0 <= r < 1)%Q -> 0 < n -> 0 <= Qfloor (r * inject_Z n) < n.
Proof.
  intros [Hlo Hhi] Hn.
  assert (Hpos : (0 < inject_Z n)%Q)
    by (change 0%Q with (inject_Z 0); now rewrite <- Zlt_Qlt).
  split.
  - change 0 with (Qfloor 0). apply Qfloor_resp_le.
    apply Qmult_le_0_compat; lra.
  - rewrite Zlt_Qlt. eapply Qle_lt_trans; [apply Qfloor_le|].
    assert (H1 : (r * inject_Z n < 1 * inject_Z n)%Q)
      by (apply Qmult_lt_compat_r; assumption).
    lra.
Qed.

Lemma template_fields base :
  In base browserFingerprints ->
  referer base = Some "https://www.google.com/" /\ dnt base = None.
Proof.
  intros Hin. repeat (destruct Hin as [<-|Hin]; [now split|]). destruct Hin.
Qed.

Lemma at_In {A} (l : list A) i x : at_ l i = Some x -> In x l.
Proof.
  unfold at_. destruct (i <? 0); [discriminate|]. apply nth_error_In.
Qed.

(** with draws in [0, 1) a fingerprint is always produced: it is one of
    the five templates with its viewport moved by at most 50 pixels each
    way, while the screen resolution stays the template's; three draws
    are used *)
Lemma random_fingerprint_stays_near_a_template g :
  (forall n, 0 <= gen g n < 1)%Q ->
  exists base fp,
    In base browserFingerprints
    /\ getRandomFingerprint g = (Return fp, {| gen := gen g; pos := S (S (S (pos g))) |})
    /\ userAgent fp = userAgent base /\ platform fp = platform base
    /\ acceptLanguage fp = acceptLanguage base
    /\ screenResolution fp = screenResolution base
    /\ width (viewport base) - 50 <= width (viewport fp) <= width (viewport base) + 49
    /\ height (viewport base) - 50 <= height (viewport fp) <= height (viewport base) + 49.
Proof.
  intros Hg. unfold getRandomFingerprint, random. cbn [gen pos].
  change (inject_Z (Z.of_nat (length browserFingerprints))) with (inject_Z 5).
  pose proof (floor_of_draw (gen g (pos g)) 5 (Hg _) ltac:(lia)) as Hi.
  pose proof (floor_of_draw (gen g (S (pos g))) 100 (Hg _) ltac:(lia)) as Hw.
  pose proof (floor_of_draw (gen g (S (S (pos g)))) 100 (Hg _) ltac:(lia)) as Hh.
  change (inject_Z 100) with 100%Q in Hw, Hh.
  destruct (at_ browserFingerprints (Qfloor (gen g (pos g) * inject_Z 5)))
    as [base|] eqn:Ebase.
  - exists base. eexists. split; [now apply at_In in Ebase|].
    split; [reflexivity|].
    cbn [userAgent viewport width height platform acceptLanguage screenResolution].
    repeat split; lia.
  - exfalso. unfold at_ in Ebase.
    destruct (Z.ltb_spec (Qfloor (gen g (pos g) * inject_Z 5)) 0); [lia|].
    apply nth_error_None in Ebase. cbn [length browserFingerprints] in Ebase. lia.
Qed.

Lemma random_fingerprint_stays_near_a_template_witness :
  exists base fp,
    In base browserFingerprints
    /\ getRandomFingerprint Examples.calmRNG
       = (Return fp, {| gen := gen Examples.calmRNG; pos := 3 |})
    /\ userAgent fp = userAgent base /\ platform fp = platform base
    /\ acceptLanguage fp = acceptLanguage base
    /\ screenResolution fp = screenResolution base
    /\ width (viewport base) - 50 <= width (viewport fp) <= width (viewport base) + 49
    /\ height (viewport base) - 50 <= height (viewport fp) <= height (viewport base) + 49.
Proof.
  apply (random_fingerprint_stays_near_a_template Examples.calmRNG).
  intros n. now vm_compute.
Defined.

(** a context created without a given fingerprint always sends the
    search engine as referer and never a DNT header; its language header
    and viewport are those of the fingerprint reported back *)
Lemma rotated_context_headers newContext g options fp g' :
  createStealthContext newContext None g = (Return (options, fp), g') ->
  GoogleApi.getKey "Referer" (extraHTTPHeaders options) = Some "https://www.google.com/"
  /\ GoogleApi.getKey "DNT" (extraHTTPHeaders options) = None
  /\ GoogleApi.getKey "Accept-Language" (extraHTTPHeaders options)
     = Some (acceptLanguage fp)
  /\ optionsViewport options = viewport fp
  /\ optionsUserAgent options = userAgent fp.
Proof.
  unfold createStealthContext, getRandomFingerprint.
  destruct (random g) as [r0 g0].
  destruct (at_ browserFingerprints _) as [base|] eqn:Ebase; [|discriminate].
  apply at_In, template_fields in Ebase as [Href Hdnt].
  destruct (random g0) as [r1 g1]. destruct (random g1) as [r2 g2].
  unfold generateHeaders. cbn [referer dnt acceptLanguage acceptEncoding platform].
  rewrite Href, Hdnt. cbn [JS.truthyOpt JS.truthy JS.tpl].
  destruct (random g2) as [r g3].
  destruct (newContext _) as [m|]; [discriminate|].
  intros [= <- <- <-]. cbn [extraHTTPHeaders optionsViewport optionsUserAgent
                             viewport userAgent acceptLanguage].
  destruct (Qltb (1 # 2) r); rewrite ?getKey_setKey; cbn; now repeat split.
Qed.

Lemma rotated_context_headers_witness :
  exists options fp g',
    createStealthContext (fun _ => None) None Examples.calmRNG = (Return (options, fp), g')
    /\ GoogleApi.getKey "DNT" (extraHTTPHeaders options) = None.
Proof.
  eexists. eexists. eexists. split; [vm_compute; reflexivity|].
  apply (rotated_context_headers (fun _ => None) Examples.calmRNG _ _ _
           ltac:(vm_compute; reflexivity)).
Defined.

End HeaderFacts.

(** ** The DuckDuckGo result extraction *)

Section DuckFacts.
Import ResultParser.

Variable hostnameOf : string -> Result string.

Lemma duck_extractOne_fields i el r :
  DuckParser.extractOne hostnameOf i el = Return (Some r) ->
  source r = Some "DuckDuckGo" /\ position r = i + 1
  /\ JS.truthy (title r) = true /\ hostnameOf (link r) = Return (displayUrl r).
Proof.
  unfold DuckParser.extractOne.
  destruct (firstMatch el DuckParser.titleSelectors None) as [t|]; [|discriminate].
  destruct (JS.truthy (JS.trim (textContent t))) eqn:Et; [|discriminate].
  destruct (JS.truthy (href t)); [|discriminate]. cbn [andb].
  destruct (hostnameOf (href t)) as [m|host] eqn:Eh; [discriminate|].
  intros [= <-]. cbn. now repeat split.
Qed.

Lemma duck_extractLoop_fields els : forall i rs,
  DuckParser.extractLoop hostnameOf i els = Return rs ->
  Forall (fun r => source r = Some "DuckDuckGo"
                   /\ i < position r <= i + Z.of_nat (length els)
                   /\ JS.truthy (title r) = true
                   /\ hostnameOf (link r) = Return (displayUrl r)) rs
  /\ (length rs <= length els)%nat.
Proof.
  induction els as [|el els IH]; intros i rs; cbn [DuckParser.extractLoop length].
  - intros [= <-]. split; [constructor|cbn; lia].
  - destruct (DuckParser.extractOne hostnameOf i el) as [m|found] eqn:E1; [discriminate|].
    destruct (DuckParser.extractLoop hostnameOf (i + 1) els) as [m|more] eqn:E2;
      [discriminate|].
    intros [= <-]. destruct (IH (i + 1) more E2) as [Hall Hlen].
    assert (Hmore : Forall (fun r => source r = Some "DuckDuckGo"
                                     /\ i < position r <= i + Z.of_nat (S (length els))
                                     /\ JS.truthy (title r) = true
                                     /\ hostnameOf (link r) = Return (displayUrl r)) more).
    { eapply List.Forall_impl; [|exact Hall]. cbn. intros r (H1 & H2 & H3 & H4).
      repeat split; try assumption; lia. }
    destruct found as [r|]; [|split; [exact Hmore|lia]].
    apply duck_extractOne_fields in E1 as (H1 & H2 & H3 & H4).
    split; [|cbn; lia]. constructor; [|exact Hmore].
    repeat split; try assumption; lia.
Qed.

(** the results of a DuckDuckGo extraction all carry the engine's name,
    a title, the host name of their link, and a position between 1 and
    the limit; there are at most [limit] of them *)
Lemma duck_results_tagged_and_numbered doc limit results :
  DuckParser.extractResults hostnameOf doc limit = Return results ->
  Forall (fun r => source r = Some "DuckDuckGo"
                   /\ 1 <= position r <= limit
                   /\ JS.truthy (title r) = true
                   /\ hostnameOf (link r) = Return (displayUrl r)) results
  /\ Z.of_nat (length results) <= Z.max 0 limit.
Proof.
  unfold DuckParser.extractResults.
  set (els := findContainers doc DuckParser.containerSelectors []).
  intros Hrun. apply duck_extractLoop_fields in Hrun as [Hall Hlen].
  rewrite length_firstn in Hall, Hlen. split; [|lia].
  eapply List.Forall_impl; [|exact Hall]. cbn. intros r (H1 & H2 & H3 & H4).
  repeat split; try assumption; lia.
Qed.

Lemma duck_extractLoop_throws els : forall i k el m,
  nth_error els k = Some el ->
  DuckParser.extractOne hostnameOf (i + Z.of_nat k) el = Throw m ->
  exists m', DuckParser.extractLoop hostnameOf i els = Throw m'.
Proof.
  induction els as [|e els IH]; intros i k el m Hnth Hone; [now destruct k|].
  cbn [DuckParser.extractLoop]. destruct k as [|k]; cbn in Hnth.
  - injection Hnth as ->. rewrite Z.add_0_r in Hone. rewrite Hone. eexists. reflexivity.
  - destruct (DuckParser.extractOne hostnameOf i e) as [m0|found];
      [eexists; reflexivity|].
    destruct (IH (i + 1) k el m Hnth) as [m' ->]; [|eexists; reflexivity].
    rewrite <- Hone. f_equal. lia.
Qed.

(** one link the URL constructor refuses, anywhere among the containers
    looked at, makes the whole search fail: the results already found
    are lost and the error is wrapped like any other *)
Lemma one_invalid_link_fails_the_search doc limit k el m :
  nth_error (findContainers doc DuckParser.containerSelectors []) k = Some el ->
  Z.of_nat k < limit ->
  DuckParser.extractOne hostnameOf (Z.of_nat k) el = Throw m ->
  exists m', DuckParser.extractOrFail hostnameOf doc limit
             = Throw ("DuckDuckGo search failed: " +:+ m').
Proof.
  intros Hnth Hk Hone. unfold DuckParser.extractOrFail, DuckParser.extractResults.
  set (els := findContainers doc DuckParser.containerSelectors []) in *.
  assert (Hlt : (k < length els)%nat) by (apply nth_error_Some; congruence).
  destruct (duck_extractLoop_throws
              (firstn (Z.to_nat (Z.min (Z.of_nat (length els)) limit)) els) 0 k el m)
    as [m' ->].
  - rewrite nth_error_firstn.
    destruct (Nat.ltb_spec k (Z.to_nat (Z.min (Z.of_nat (length els)) limit)));
      [exact Hnth|lia].
  - exact Hone.
  - eexists. reflexivity.
Qed.

End DuckFacts.

Lemma duck_results_tagged_and_numbered_witness :
  Z.of_nat (length [ {| ResultParser.title := "First";
                        ResultParser.link := "https://example.com/1";
                        ResultParser.snippet := EmptyString;
                        ResultParser.displayUrl := "example.com";
                        ResultParser.position := 1;
                        ResultParser.source := Some "DuckDuckGo" |} ])
  <= Z.max 0 1.
Proof.
  apply (proj2 (duck_results_tagged_and_numbered MoreExamples.hostnameOf
                  MoreExamples.duckPage 1 _ eq_refl)).
Defined.

Lemma one_invalid_link_fails_the_search_witness :
  exists m', DuckParser.extractOrFail MoreExamples.hostnameOf MoreExamples.duckPage 5
             = Throw ("DuckDuckGo search failed: " +:+ m').
Proof.
  apply (one_invalid_link_fails_the_search MoreExamples.hostnameOf MoreExamples.duckPage 5
           1%nat (MoreExamples.duckEntry "Second" "http://")
           "Failed to construct 'URL': Invalid URL");
    now vm_compute.
Defined.
